(** * web2embeddings: validator, vectorizer and memory server

    A shallow embedding of the Python sources
      - [tools/data_validator.py]   (class [DataValidator]),
      - [src/vectorizer.py]         (class [ChunkVectorizer]),
      - [mcp_server/chroma_mcp_server_minimal.py] (the four MCP tools),
    together with the parts of the Python runtime they lean on: [str]
    methods, [json.loads], [range], slicing, and a small model of the
    ChromaDB client the programs talk to.

    Conventions.
      - A Python [str] is a list of Unicode code points ([text]).
      - Python exceptions are values of [exn]; a computation that may raise is
        a [result].  Code that changes the outside world (files, database) is
        a [prog]: it always returns the world it leaves behind, also when it
        raises, because that is what a Python exception does.
      - Interpreter resource limits (recursion depth, the limit on the number
        of digits of an [int] literal) and operating-system failures other
        than a missing file are outside the model. *)

From Stdlib Require Import ZArith NArith Ascii String List Lia Bool.
From stdpp Require Import base option list gmap sorting.
Import ListNotations.

Local Open Scope nat_scope.

(* ===================================================================== *)
(** * Python text                                                          *)
(* ===================================================================== *)

Abbreviation char := N (only parsing).
Abbreviation text := (list N) (only parsing).

(** [py "abc"] is the Python literal ["abc"], for ASCII literals. *)
Definition py (s : string) : text :=
  map N_of_ascii (list_ascii_of_string s).

Definition chr (a : ascii) : N := N_of_ascii a.

Definition in_range (lo hi c : N) : bool := (lo <=? c)%N && (c <=? hi)%N.

(** [str.isspace] for one character: CPython's [_PyUnicode_IsWhitespace]. *)
Definition whitespace_table : list N :=
  [ 0x09; 0x0A; 0x0B; 0x0C; 0x0D; 0x1C; 0x1D; 0x1E; 0x1F; 0x20; 0x85; 0xA0;
    0x1680; 0x2000; 0x2001; 0x2002; 0x2003; 0x2004; 0x2005; 0x2006; 0x2007;
    0x2008; 0x2009; 0x200A; 0x2028; 0x2029; 0x202F; 0x205F; 0x3000 ]%N.

Definition isspace (c : N) : bool := existsb (N.eqb c) whitespace_table.

Fixpoint lstrip (s : text) : text :=
  match s with
  | c :: s' => if isspace c then lstrip s' else s
  | [] => []
  end.

Definition rstrip (s : text) : text := rev (lstrip (rev s)).

(** [s.strip()] *)
Definition strip (s : text) : text := rstrip (lstrip s).

(** [not s.strip()] *)
Definition blank (s : text) : bool :=
  match strip s with [] => true | _ => false end.

Fixpoint text_eqb (a b : text) : bool :=
  match a, b with
  | [], [] => true
  | x :: a', y :: b' => (x =? y)%N && text_eqb a' b'
  | _, _ => false
  end.

(** [s.startswith(p)] *)
Fixpoint startswith (p s : text) : bool :=
  match p, s with
  | [], _ => true
  | x :: p', y :: s' => (x =? y)%N && startswith p' s'
  | _ :: _, [] => false
  end.

(** [sub in s] for two strings *)
Fixpoint contains (sub s : text) : bool :=
  startswith sub s ||
  match s with
  | [] => false
  | _ :: s' => contains sub s'
  end.

(** The loop of [str.replace] for a non-empty [old]: scan from the left; at an
    occurrence emit [new] and skip the occurrence ([skip] counts the characters
    of it that are still to be dropped), otherwise copy one character. *)
Fixpoint replace_scan (old new : text) (skip : nat) (s : text) : text :=
  match s with
  | [] => []
  | c :: s' =>
      match skip with
      | S k => replace_scan old new k s'
      | O =>
          if startswith old s
          then new ++ replace_scan old new (length old - 1) s'
          else c :: replace_scan old new 0 s'
      end
  end.

(** [s.replace(old, new)] *)
Definition replace (old new s : text) : text :=
  match old with
  | [] => new ++ concat (map (fun c => c :: new) s)
  | _ :: _ => replace_scan old new 0 s
  end.

(** [c in s] for a character [c] *)
Definition has_char (c : N) (s : text) : bool := existsb (N.eqb c) s.

(** The last piece of [s.split(sep)] for a one-character separator:
    [s.split(sep)[-1]].  [acc] is the piece being read, reversed. *)
Fixpoint last_piece (sep : N) (acc : text) (s : text) : text :=
  match s with
  | [] => rev acc
  | c :: s' => if (c =? sep)%N then last_piece sep [] s'
               else last_piece sep (c :: acc) s'
  end.

Definition split_last (sep : N) (s : text) : text := last_piece sep [] s.

(** [os.path.basename] of [posixpath]: the part after the last slash. *)
Definition basename (p : text) : text := split_last (chr "/") p.

(** [s[:n]] for [n >= 0] *)
Definition prefix_slice (n : nat) (s : text) : text := take n s.

(** [s[i:j]] on a list for [0 <= i <= j] *)
Definition slice {A} (i j : nat) (l : list A) : list A := take (j - i) (drop i l).

(* ===================================================================== *)
(** * Exceptions                                                           *)
(* ===================================================================== *)

Inductive exn :=
  | JSONDecodeError
  | TypeError
  | KeyError
  | AttributeError
  | ValueError
  | ZeroDivisionError
  | FileNotFoundError
  | ModelError          (* raised by the embedding model *)
  | StoreError.         (* raised by the vector store *)

Inductive result (A : Type) :=
  | Ok (a : A)
  | Raise (e : exn).
Arguments Ok {A} a.
Arguments Raise {A} e.

#[global] Instance result_ret : MRet result := fun A a => Ok a.
#[global] Instance result_bind : MBind result := fun A B f m =>
  match m with
  | Ok a => f a
  | Raise e => Raise e
  end.

Definition is_ok {A} (r : result A) : bool :=
  match r with Ok _ => true | Raise _ => false end.

(** [for x in l: f(x)] collecting the results, stopping at the first raise. *)
Fixpoint for_each {A B} (f : A -> result B) (l : list A) : result (list B) :=
  match l with
  | [] => Ok []
  | x :: l' => y ← f x; ys ← for_each f l'; Ok (y :: ys)
  end.

(* ===================================================================== *)
(** * JSON values and [json.loads]                                         *)
(* ===================================================================== *)

(** What [json.loads] returns.  A Python [dict] built by the decoder is an
    association list without repeated keys, in insertion order; a [float]
    keeps its lexeme, since no code here computes with it. *)
#[warnings="-register-all"]
Inductive json :=
  | JNull
  | JBool (b : bool)
  | JInt (z : Z)
  | JFloat (lexeme : text)
  | JStr (s : text)
  | JArr (items : list json)
  | JObj (members : list (text * json)).

(** [d.get(k)] / [k in d] *)
Fixpoint dict_get (k : text) (d : list (text * json)) : option json :=
  match d with
  | [] => None
  | (k', v) :: d' => if text_eqb k k' then Some v else dict_get k d'
  end.

(** [d[k] = v]: overwrite in place or append. *)
Fixpoint dict_set (k : text) (v : json) (d : list (text * json)) : list (text * json) :=
  match d with
  | [] => [(k, v)]
  | (k', v') :: d' =>
      if text_eqb k k' then (k', v) :: d' else (k', v') :: dict_set k v d'
  end.

Module Json.

Definition is_digit (c : N) : bool := in_range 48 57 c.

(** The decoder's own whitespace: space, tab, line feed, carriage return. *)
Definition ws (c : N) : bool :=
  (c =? 32)%N || (c =? 9)%N || (c =? 10)%N || (c =? 13)%N.

Fixpoint skip_ws (s : text) : text :=
  match s with
  | c :: s' => if ws c then skip_ws s' else s
  | [] => []
  end.

Definition quote : N := 34%N.

Definition hex_value (c : N) : option N :=
  if in_range 48 57 c then Some (c - 48)%N
  else if in_range 97 102 c then Some (c - 87)%N
  else if in_range 65 70 c then Some (c - 55)%N
  else None.

Definition hex4 (a b c d : N) : option N :=
  x ← hex_value a; y ← hex_value b; z ← hex_value c; w ← hex_value d;
  Some (((x * 16 + y) * 16 + z) * 16 + w)%N.

Definition high_surrogate (c : N) : bool := in_range 0xD800 0xDBFF c.
Definition low_surrogate (c : N) : bool := in_range 0xDC00 0xDFFF c.
Definition join_surrogates (hi lo : N) : N :=
  (0x10000 + ((hi - 0xD800) * 0x400 + (lo - 0xDC00)))%N.

Definition simple_escape (e : N) : option N :=
  if (e =? quote)%N then Some (quote)
  else if (e =? chr "\")%N then Some (chr "\")
  else if (e =? chr "/")%N then Some (chr "/")
  else if (e =? chr "b")%N then Some 8%N
  else if (e =? chr "f")%N then Some 12%N
  else if (e =? chr "n")%N then Some 10%N
  else if (e =? chr "r")%N then Some 13%N
  else if (e =? chr "t")%N then Some 9%N
  else None.

(** [scanstring] in strict mode, started after the opening quote; [acc] is
    the decoded string so far, reversed. *)
Fixpoint scanstring (acc : text) (s : text) : option (text * text) :=
  match s with
  | [] => None
  | c :: s1 =>
      if (c =? quote)%N then Some (rev acc, s1)
      else if (c =? chr "\")%N then
        match s1 with
        | [] => None
        | e :: s2 =>
            if (e =? chr "u")%N then
              match s2 with
              | h1 :: h2 :: h3 :: h4 :: s3 =>
                  match hex4 h1 h2 h3 h4 with
                  | None => None
                  | Some u =>
                      match s3 with
                      | b :: u' :: l1 :: l2 :: l3 :: l4 :: s4 =>
                          match hex4 l1 l2 l3 l4 with
                          | Some lo =>
                              if high_surrogate u && (b =? chr "\")%N
                                 && (u' =? chr "u")%N && low_surrogate lo
                              then scanstring (join_surrogates u lo :: acc) s4
                              else scanstring (u :: acc) s3
                          | None => scanstring (u :: acc) s3
                          end
                      | _ => scanstring (u :: acc) s3
                      end
                  end
              | _ => None
              end
            else
              match simple_escape e with
              | Some d => scanstring (d :: acc) s2
              | None => None
              end
        end
      else if (c <=? 0x1F)%N then None
      else scanstring (c :: acc) s1
  end.

Fixpoint span_digits (s : text) : text * text :=
  match s with
  | c :: s' =>
      if is_digit c then let '(ds, r) := span_digits s' in (c :: ds, r)
      else ([], s)
  | [] => ([], [])
  end.

Definition digits_value (ds : text) : Z :=
  fold_left (fun acc c => (acc * 10 + Z.of_N (c - 48))%Z) ds 0%Z.

(** The integer part: an optional minus, then 0 or a digit string that
    does not start with 0. *)
Definition match_int (s : text) : option (bool * text * text) :=
  let '(neg, s1) :=
    match s with
    | c :: s' => if (c =? chr "-")%N then (true, s') else (false, s)
    | [] => (false, s)
    end in
  match s1 with
  | c :: s2 =>
      if in_range 49 57 c then
        let '(ds, s3) := span_digits s2 in Some (neg, c :: ds, s3)
      else if (c =? 48)%N then Some (neg, [c], s2)
      else None
  | [] => None
  end.

(** The optional fraction: a dot and at least one digit. *)
Definition match_frac (s : text) : option (text * text) :=
  match s with
  | p :: d :: s' =>
      if (p =? chr ".")%N && is_digit d then
        let '(ds, r) := span_digits s' in Some (p :: d :: ds, r)
      else None
  | _ => None
  end.

(** The optional exponent: e or E, an optional sign, at least one digit. *)
Definition match_exp (s : text) : option (text * text) :=
  match s with
  | e :: s1 =>
      if (e =? chr "e")%N || (e =? chr "E")%N then
        let '(sign, s2) :=
          match s1 with
          | c :: s' =>
              if (c =? chr "-")%N || (c =? chr "+")%N then ([c], s') else ([], s1)
          | [] => ([], s1)
          end in
        match span_digits s2 with
        | ([], _) => None
        | (ds, r) => Some (e :: sign ++ ds, r)
        end
      else None
  | [] => None
  end.

Definition match_number (s : text) : option (json * text) :=
  '(neg, ds, s1) ← match_int s;
  let '(frac, s2) :=
    match match_frac s1 with Some (f, r) => (f, r) | None => ([], s1) end in
  let '(ex, s3) :=
    match match_exp s2 with Some (x, r) => (x, r) | None => ([], s2) end in
  match frac, ex with
  | [], [] =>
      Some (JInt (if neg : bool then - digits_value ds else digits_value ds)%Z, s3)
  | _, _ =>
      Some (JFloat ((if neg : bool then [chr "-"] else []) ++ ds ++ frac ++ ex), s3)
  end.

Definition literal (word : string) (v : json) (s : text) : option (json * text) :=
  if startswith (py word) s then Some (v, drop (length (py word)) s) else None.

(** [scan_once]: one JSON term at the head of [s].  The three mutually
    recursive scanners share a bound [fuel] on the depth of their calls. *)
Fixpoint scan_once (fuel : nat) (s : text) {struct fuel} : option (json * text) :=
  match fuel with
  | O => None
  | S f =>
      match s with
      | [] => None
      | c :: rest =>
          if (c =? quote)%N then
            '(str, r) ← scanstring [] rest; Some (JStr str, r)
          else if (c =? chr "{")%N then
            match skip_ws rest with
            | c' :: r =>
                if (c' =? chr "}")%N then Some (JObj [], r)
                else parse_members f [] (c' :: r)
            | [] => None
            end
          else if (c =? chr "[")%N then
            match skip_ws rest with
            | c' :: r =>
                if (c' =? chr "]")%N then Some (JArr [], r)
                else parse_items f [] (c' :: r)
            | [] => None
            end
          else if startswith (py "null") s then literal "null" JNull s
          else if startswith (py "true") s then literal "true" (JBool true) s
          else if startswith (py "false") s then literal "false" (JBool false) s
          else if startswith (py "NaN") s then literal "NaN" (JFloat (py "NaN")) s
          else if startswith (py "Infinity") s
               then literal "Infinity" (JFloat (py "Infinity")) s
          else if startswith (py "-Infinity") s
               then literal "-Infinity" (JFloat (py "-Infinity")) s
          else match_number s
      end
  end
with parse_members (fuel : nat) (acc : list (text * json)) (s : text)
       {struct fuel} : option (json * text) :=
  match fuel with
  | O => None
  | S f =>
      match s with
      | c :: r =>
          if (c =? quote)%N then
            '(key, r1) ← scanstring [] r;
            match skip_ws r1 with
            | c2 :: r2 =>
                if (c2 =? chr ":")%N then
                  '(v, r3) ← scan_once f (skip_ws r2);
                  let acc' := dict_set key v acc in
                  match skip_ws r3 with
                  | c3 :: r4 =>
                      if (c3 =? chr "}")%N then Some (JObj acc', r4)
                      else if (c3 =? chr ",")%N
                           then parse_members f acc' (skip_ws r4)
                      else None
                  | [] => None
                  end
                else None
            | [] => None
            end
          else None
      | [] => None
      end
  end
with parse_items (fuel : nat) (acc : list json) (s : text)
       {struct fuel} : option (json * text) :=
  match fuel with
  | O => None
  | S f =>
      '(v, r) ← scan_once f s;
      match skip_ws r with
      | c :: r' =>
          if (c =? chr "]")%N then Some (JArr (rev (v :: acc)), r')
          else if (c =? chr ",")%N then parse_items f (v :: acc) (skip_ws r')
          else None
      | [] => None
      end
  end.

(** [json.loads(s)] for a [str] argument.  The scanners recurse on a bound;
    twice the length of [s] is enough of it for every text (lemma
    [scan_once_any_bound] below), so that a text is refused only when it is
    not JSON.  The recursion limit of the interpreter is left out. *)
Definition loads (s : text) : result json :=
  if startswith [0xFEFF%N] s then Raise JSONDecodeError
  else
    match scan_once (2 * length s + 2) (skip_ws s) with
    | Some (v, rest) =>
        match skip_ws rest with
        | [] => Ok v
        | _ :: _ => Raise JSONDecodeError
        end
    | None => Raise JSONDecodeError
    end.

End Json.




(* ===================================================================== *)
(** * Files                                                                *)
(* ===================================================================== *)

(** The lines a text-mode file object yields, with universal newlines: a
    line ends after a line feed, a carriage return, or the pair of them, and
    the terminator is handed over as one line feed.  [cur] is the line being
    read, reversed. *)
Fixpoint read_lines (cur : text) (s : text) : list text :=
  match s with
  | [] => match cur with [] => [] | _ :: _ => [rev cur] end
  | c :: s' =>
      if (c =? 10)%N then rev (10%N :: cur) :: read_lines [] s'
      else if (c =? 13)%N then
        match s' with
        | c2 :: s'' =>
            if (c2 =? 10)%N then rev (10%N :: cur) :: read_lines [] s''
            else rev (10%N :: cur) :: read_lines [] s'
        | [] => [rev (10%N :: cur)]
        end
      else read_lines (c :: cur) s'
  end.

Definition file_lines (content : text) : list text := read_lines [] content.

(** A file system: the decoded content of every regular file, by path. *)
Abbreviation filesystem := (gmap (list N) (list N)) (only parsing).

(** [os.path.exists] *)
Definition path_exists (fs : filesystem) (p : text) : bool :=
  match fs !! p with Some _ => true | None => false end.

(** [open(p, 'r', encoding='utf-8')] followed by iteration over the lines *)
Definition open_lines (fs : filesystem) (p : text) : result (list text) :=
  match fs !! p with
  | Some content => Ok (file_lines content)
  | None => Raise FileNotFoundError
  end.

(* ===================================================================== *)
(** * Python operators on decoded values                                   *)
(* ===================================================================== *)

(** [field in data] for a string [field] *)
Definition py_contains (data : json) (field : text) : result bool :=
  match data with
  | JObj d => Ok (match dict_get field d with Some _ => true | None => false end)
  | JArr l => Ok (existsb (fun x => match x with
                                   | JStr s => text_eqb field s
                                   | _ => false
                                   end) l)
  | JStr s => Ok (contains field s)
  | _ => Raise TypeError
  end.

(** [data[field]] for a string [field] *)
Definition py_getitem (data : json) (field : text) : result json :=
  match data with
  | JObj d => match dict_get field d with
              | Some v => Ok v
              | None => Raise KeyError
              end
  | _ => Raise TypeError
  end.

(** [len(x)] *)
Definition py_len (x : json) : result nat :=
  match x with
  | JStr s => Ok (length s)
  | JArr l => Ok (length l)
  | JObj d => Ok (length d)
  | _ => Raise TypeError
  end.

(** [data.get(field, default)] *)
Definition py_get (data : json) (field : text) (default : json) : result json :=
  match data with
  | JObj d => Ok (match dict_get field d with Some v => v | None => default end)
  | _ => Raise AttributeError
  end.

(** The Unicode tables of the interpreter that the modelled code depends on:
    [decimal_digit] is the class that [re] gives to backslash-d on a [str]
    pattern (general category Nd). *)
Class UnicodeData := { decimal_digit : N -> bool }.

Definition ascii_letter (c : N) : bool := in_range 65 90 c || in_range 97 122 c.

(** [re.sub(p+, rep, s)] for a one-character class [p]: every maximal run of
    characters of the class becomes one [rep]. *)
Fixpoint sub_runs (p : N -> bool) (rep : N) (in_run : bool) (s : text) : text :=
  match s with
  | [] => []
  | c :: s' =>
      if p c then
        if in_run then sub_runs p rep true s' else rep :: sub_runs p rep true s'
      else c :: sub_runs p rep false s'
  end.

(* ===================================================================== *)
(** * tools/data_validator.py                                              *)
(* ===================================================================== *)

Inductive message :=
  | FileMissing (path : text)
  | JsonParseError (line_num : nat)
  | DuplicateId (line_num : nat) (doc_id : text)
  | MissingFields (line_num : nat) (fields : list text)
  | FieldNotString (line_num : nat) (field : text)
  | FieldEmpty (line_num : nat) (field : text)
  | TextTooShort (line_num : nat) (len : nat)
  | TextTooLong (line_num : nat) (len : nat)
  | IdSpecialChars (line_num : nat) (doc_id : text).

Record Stats := mkStats {
  total_lines : nat;
  valid_docs : nat;
  empty_lines : nat;
  json_errors : nat;
  missing_fields : nat;
  duplicate_ids : nat;
  text_lengths : list nat;
  id_patterns : gmap (list N) nat;
  source_patterns : gmap (list N) nat
}.

Record DataValidator := mkValidator {
  file_path : text;
  errors : list message;
  warnings : list message;
  stats : Stats
}.

Record LengthStats := mkLengthStats {
  len_min : nat;
  len_max : nat;
  len_avg : nat * nat;   (* sum and count; the source divides them as floats *)
  len_median : nat
}.

Record Report := mkReport {
  report_file_path : text;
  validation_passed : bool;
  report_stats : Stats;
  text_length_stats : option LengthStats;
  report_errors : list message;
  report_warnings : list message
}.

(** [DataValidator.__init__] *)
Definition DataValidator_init (path : text) : DataValidator :=
  mkValidator path [] [] (mkStats 0 0 0 0 0 0 [] ∅ ∅).

Definition set_stats (f : Stats -> Stats) (v : DataValidator) : DataValidator :=
  mkValidator (file_path v) (errors v) (warnings v) (f (stats v)).
Definition add_error (m : message) (v : DataValidator) : DataValidator :=
  mkValidator (file_path v) (errors v ++ [m]) (warnings v) (stats v).
Definition add_warning (m : message) (v : DataValidator) : DataValidator :=
  mkValidator (file_path v) (errors v) (warnings v ++ [m]) (stats v).

Definition incr_total_lines (s : Stats) : Stats :=
  mkStats (S (total_lines s)) (valid_docs s) (empty_lines s) (json_errors s)
    (missing_fields s) (duplicate_ids s) (text_lengths s) (id_patterns s)
    (source_patterns s).
Definition incr_valid_docs (s : Stats) : Stats :=
  mkStats (total_lines s) (S (valid_docs s)) (empty_lines s) (json_errors s)
    (missing_fields s) (duplicate_ids s) (text_lengths s) (id_patterns s)
    (source_patterns s).
Definition incr_empty_lines (s : Stats) : Stats :=
  mkStats (total_lines s) (valid_docs s) (S (empty_lines s)) (json_errors s)
    (missing_fields s) (duplicate_ids s) (text_lengths s) (id_patterns s)
    (source_patterns s).
Definition incr_json_errors (s : Stats) : Stats :=
  mkStats (total_lines s) (valid_docs s) (empty_lines s) (S (json_errors s))
    (missing_fields s) (duplicate_ids s) (text_lengths s) (id_patterns s)
    (source_patterns s).
Definition incr_missing_fields (s : Stats) : Stats :=
  mkStats (total_lines s) (valid_docs s) (empty_lines s) (json_errors s)
    (S (missing_fields s)) (duplicate_ids s) (text_lengths s) (id_patterns s)
    (source_patterns s).
Definition incr_duplicate_ids (s : Stats) : Stats :=
  mkStats (total_lines s) (valid_docs s) (empty_lines s) (json_errors s)
    (missing_fields s) (S (duplicate_ids s)) (text_lengths s) (id_patterns s)
    (source_patterns s).

(** [counter[key] += 1] on a [collections.Counter] *)
Definition counter_incr (key : text) (c : gmap (list N) nat) : gmap (list N) nat :=
  <[key := S (default 0 (c !! key))]> c.

Definition record_stats (len : nat) (idp srcp : text) (s : Stats) : Stats :=
  mkStats (total_lines s) (valid_docs s) (empty_lines s) (json_errors s)
    (missing_fields s) (duplicate_ids s) (text_lengths s ++ [len])
    (counter_incr idp (id_patterns s)) (counter_incr srcp (source_patterns s)).

Definition required_fields : list text := [py "id"; py "text"; py "source"].

(** The class of the id pattern: ASCII letters and digits, underscore, hyphen. *)
Definition id_char (c : N) : bool :=
  ascii_letter c || in_range 48 57 c || (c =? chr "_")%N || (c =? chr "-")%N.

(** [re.match('^[a-zA-Z0-9_-]+$', s)] succeeds; the dollar sign also
    matches just before a final line feed. *)
Definition id_pattern_matches (s : text) : bool :=
  let body := match rev s with
              | c :: r => if (c =? 10)%N then rev r else s
              | [] => s
              end in
  match body with
  | [] => false
  | _ :: _ => forallb id_char body
  end.

(** 16384, the length above which a text is reported as too long *)
Definition max_text_length : nat := 128 * 128.

Section Validator.
Context `{UnicodeData}.

(** [DataValidator._extract_pattern] on a [str]; [re.sub] raises on anything
    else. *)
Definition _extract_pattern (x : json) : result text :=
  match x with
  | JStr s =>
      let pattern := sub_runs decimal_digit (chr "N") false s in
      Ok (sub_runs ascii_letter (chr "A") false pattern)
  | _ => Raise TypeError
  end.

(** One round of the loop over [required_fields] in [_validate_document]. *)
Definition check_field (data : json) (line_num : nat)
    (acc : list text * DataValidator) (field : text)
    : result (list text * DataValidator) :=
  let '(missing, self) := acc in
  present ← py_contains data field;
  if negb present then Ok (missing ++ [field], self)
  else
    v ← py_getitem data field;
    match v with
    | JStr s =>
        if blank s then Ok (missing, add_warning (FieldEmpty line_num field) self)
        else Ok (missing, self)
    | _ => Ok (missing, add_warning (FieldNotString line_num field) self)
    end.

Fixpoint check_fields (data : json) (line_num : nat) (fields : list text)
    (acc : list text * DataValidator) : result (list text * DataValidator) :=
  match fields with
  | [] => Ok acc
  | f :: fs => acc' ← check_field data line_num acc f;
               check_fields data line_num fs acc'
  end.

(** [DataValidator._validate_document]: the ['valid'] entry of the returned
    dictionary, and the validator with its new errors and warnings. *)
Definition _validate_document (self : DataValidator) (data : json) (line_num : nat)
    : result (bool * DataValidator) :=
  '(missing, self) ← check_fields data line_num required_fields ([], self);
  match missing with
  | _ :: _ => Ok (false, add_error (MissingFields line_num missing) self)
  | [] =>
      t ← py_getitem data (py "text");
      text_length ← py_len t;
      let self :=
        if text_length <? 10 then add_warning (TextTooShort line_num text_length) self
        else if max_text_length <? text_length
             then add_warning (TextTooLong line_num text_length) self
        else self in
      i ← py_getitem data (py "id");
      match i with
      | JStr s =>
          if id_pattern_matches s then Ok (true, self)
          else Ok (true, add_warning (IdSpecialChars line_num s) self)
      | _ => Raise TypeError
      end
  end.

(** [DataValidator._collect_stats] *)
Definition _collect_stats (self : DataValidator) (data : json) : result DataValidator :=
  t ← py_getitem data (py "text");
  len ← py_len t;
  i ← py_getitem data (py "id");
  id_pattern ← _extract_pattern i;
  s ← py_getitem data (py "source");
  source_pattern ← _extract_pattern s;
  Ok (set_stats (record_stats len id_pattern source_pattern) self).

(** The body of the loop of [validate] for one line: the validator and the
    local [seen_ids] before, and after. *)
Definition validate_line (line_num : nat) (line : text)
    (st : DataValidator * gset (list N)) : result (DataValidator * gset (list N)) :=
  let '(self, seen_ids) := st in
  let self := set_stats incr_total_lines self in
  if blank line then Ok (set_stats incr_empty_lines self, seen_ids)
  else
    match Json.loads line with
    | Raise JSONDecodeError =>
        Ok (add_error (JsonParseError line_num) (set_stats incr_json_errors self),
            seen_ids)
    | Raise e => Raise e
    | Ok data =>
        '(valid, self) ← _validate_document self data line_num;
        if valid : bool then
          let self := set_stats incr_valid_docs self in
          doc_id ← py_getitem data (py "id");
          match doc_id with
          | JStr i =>
              let '(self, seen_ids) :=
                if decide (i ∈ seen_ids)
                then (add_error (DuplicateId line_num i)
                        (set_stats incr_duplicate_ids self), seen_ids)
                else (self, seen_ids ∪ {[ i ]}) in
              self ← _collect_stats self data;
              Ok (self, seen_ids)
          | _ => Raise TypeError   (* [re.match] has raised before on such an id *)
          end
        else Ok (set_stats incr_missing_fields self, seen_ids)
    end.

(** [for line_num, line in enumerate(f, 1)] *)
Fixpoint validate_lines (lines : list text) (line_num : nat)
    (st : DataValidator * gset (list N)) : result (DataValidator * gset (list N)) :=
  match lines with
  | [] => Ok st
  | line :: rest =>
      st' ← validate_line line_num line st;
      validate_lines rest (S line_num) st'
  end.

Definition list_min (l : list nat) : nat :=
  match l with [] => 0 | x :: l' => foldr Nat.min x l' end.
Definition list_max (l : list nat) : nat := foldr Nat.max 0 l.

(** [DataValidator._generate_report] (printing left out) *)
Definition _generate_report (self : DataValidator) : Report :=
  let lengths := text_lengths (stats self) in
  mkReport (file_path self)
    (match errors self with [] => true | _ :: _ => false end)
    (stats self)
    (match lengths with
     | [] => None
     | _ :: _ =>
         Some (mkLengthStats (list_min lengths) (list_max lengths)
                 (sum_list lengths, length lengths)
                 (nth (length lengths / 2) (merge_sort Nat.le lengths) 0))
     end)
    (errors self) (warnings self).

(** [DataValidator.validate] *)
Definition validate (fs : filesystem) (self : DataValidator) : result Report :=
  if negb (path_exists fs (file_path self))
  then Ok (_generate_report (add_error (FileMissing (file_path self)) self))
  else
    lines ← open_lines fs (file_path self);
    '(self, _) ← validate_lines lines 1 (self, ∅);
    Ok (_generate_report self).

End Validator.

(** The ASCII digits as the decimal digits, to run examples on ASCII input. *)
#[global] Instance ascii_unicode_data : UnicodeData := {| decimal_digit := Json.is_digit |}.

(** Test data is written with apostrophes where the JSON text has double
    quotes: [jq "{'id': 'a'}"] is the line [{"id": "a"}]. *)
Definition jq (s : string) : text :=
  map (fun c => if (c =? 39)%N then 34%N else c) (py s).

Definition lf : text := [10%N].

Definition sample_file : text :=
  jq "{'id': 'doc_000001', 'text': 'first document text', 'source': 'a.txt'}" ++ lf ++
  jq "{bad json" ++ lf ++
  jq "{'id': 'doc_000002', 'text': 'second document text', 'source': 'a.txt'}" ++ lf ++
  lf ++
  jq "{'id': 'doc_000001', 'text': 'short', 'source': 'a.txt'}" ++ lf ++
  jq "{'id': 'doc_000003', 'text': 'no source'}" ++ lf.


(* ===================================================================== *)
(** * The outside world: files, the vector store, the embedding model      *)
(* ===================================================================== *)

(** An embedding is handed through untouched; its components are kept as the
    bit patterns of the floats. *)
Abbreviation embedding := (list Z) (only parsing).

Record row := mkRow {
  row_id : text;
  row_embedding : embedding;
  row_document : json;
  row_metadata : list (text * json)
}.

Record collection := mkCollection {
  coll_metadata : list (text * text);
  coll_rows : list row
}.

(** A ChromaDB database: its collections by name. *)
Abbreviation database := (gmap (list N) collection) (only parsing).

(** The world a program runs in: the files, and the database kept under each
    database directory. *)
Record World := mkWorld {
  files : gmap (list N) (list N);
  stores : gmap (list N) (gmap (list N) collection)
}.

(** The rules of the external store that differ between its versions and that
    the programs do not look at: which collection names are accepted, which
    records are accepted (types of documents and metadata, dimension of the
    embedding), whether [add] raises on an id that the collection already
    has or leaves such a record out, and what a similarity query for a
    positive number of results answers: the rows it finds nearest, or its
    refusal of the query (an embedding of another dimension than the rows
    have). *)
Class VectorStore := {
  name_ok : text -> bool;
  record_ok : row -> bool;
  rejects_known_ids : bool;
  nearest : list row -> embedding -> Z -> result (list row)
}.

(** The external embedding model.  [encode] answers a batch of texts with one
    vector per text, in order. *)
Class EmbeddingModel := {
  model_available : text -> bool;
  tokenize : list json -> result (list nat);
  encode : text -> option Z -> Z -> list json -> result (list embedding);
  encode_one : text -> result embedding;
  encode_length : forall task dim maxlen ts es,
    encode task dim maxlen ts = Ok es -> length es = length ts
}.

(** A program: from the world before to an outcome and the world after. *)
Definition prog (A : Type) : Type := World -> result A * World.

#[global] Instance prog_ret : MRet prog := fun A a w => (Ok a, w).
#[global] Instance prog_bind : MBind prog := fun A B f m w =>
  match m w with
  | (Ok a, w') => f a w'
  | (Raise e, w') => (Raise e, w')
  end.

Definition lift {A} (r : result A) : prog A := fun w => (r, w).

(** [try: m except Exception: h] *)
Definition try_except {A} (m : prog A) (h : exn -> prog A) : prog A := fun w =>
  match m w with
  | (Ok a, w') => (Ok a, w')
  | (Raise e, w') => h e w'
  end.

(** [for x in l: f(x)] in the world *)
Fixpoint for_each_prog {A} (f : A -> prog unit) (l : list A) : prog unit :=
  match l with
  | [] => mret tt
  | x :: l' => _ ← f x; for_each_prog f l'
  end.

Module Chroma.
Section Store.
Context `{VectorStore}.

Definition db_at (w : World) (dir : text) : gmap (list N) collection :=
  default ∅ (stores w !! dir).

Definition set_db (dir : text) (db : gmap (list N) collection) (w : World) : World :=
  mkWorld (files w) (<[dir := db]> (stores w)).

(** [chromadb.PersistentClient(path=dir)]: opens the database, creating an
    empty one when there is none. *)
Definition PersistentClient (dir : text) : prog text := fun w =>
  (Ok dir, set_db dir (db_at w dir) w).

(** [client.delete_collection(name)] *)
Definition delete_collection (client : text) (name : text) : prog unit := fun w =>
  match db_at w client !! name with
  | Some _ => (Ok tt, set_db client (delete name (db_at w client)) w)
  | None => (Raise ValueError, w)
  end.

(** [client.create_collection(name, metadata)] *)
Definition create_collection (client : text) (name : text)
    (metadata : list (text * text)) : prog unit := fun w =>
  if negb (name_ok name) then (Raise ValueError, w)
  else
    match db_at w client !! name with
    | Some _ => (Raise StoreError, w)
    | None =>
        (Ok tt, set_db client (<[name := mkCollection metadata []]> (db_at w client)) w)
    end.

(** [client.get_or_create_collection(name)] *)
Definition get_or_create_collection (client : text) (name : text) : prog unit := fun w =>
  if negb (name_ok name) then (Raise ValueError, w)
  else
    match db_at w client !! name with
    | Some _ => (Ok tt, w)
    | None => (Ok tt, set_db client (<[name := mkCollection [] []]> (db_at w client)) w)
    end.

Definition as_id (j : json) : result text :=
  match j with
  | JStr s => Ok s
  | _ => Raise ValueError
  end.

Fixpoint zip_rows (ids : list text) (embeddings : list embedding)
    (documents : list json) (metadatas : list (list (text * json))) : list row :=
  match ids, embeddings, documents, metadatas with
  | i :: ids', e :: es, d :: ds, m :: ms => mkRow i e d m :: zip_rows ids' es ds ms
  | _, _, _, _ => []
  end.

Definition has_id (i : text) (rows : list row) : bool :=
  existsb (fun r => text_eqb i (row_id r)) rows.

(** What [collection.add] does to the rows of a collection.  The store refuses
    an empty batch, lists of different lengths, an id that is not a string or
    that occurs twice in the batch, and any record it does not accept; it
    then appends the records in order, leaving out those whose id the
    collection already has, unless it is a store that refuses these too. *)
Definition add_rows (rows : list row) (ids : list json) (embeddings : list embedding)
    (documents : list json) (metadatas : list (list (text * json)))
    : result (list row) :=
  ids ← for_each as_id ids;
  let batch := zip_rows ids embeddings documents metadatas in
  if bool_decide (ids = [])
     || negb (length embeddings =? length ids)
     || negb (length documents =? length ids)
     || negb (length metadatas =? length ids)
     || negb (bool_decide (NoDup ids))
     || negb (forallb record_ok batch)
     || rejects_known_ids && existsb (fun i => has_id i rows) ids
  then Raise ValueError
  else Ok (rows ++ filter (fun r => has_id (row_id r) rows = false) batch).

(** [collection.add(ids, embeddings, documents, metadatas)] on the collection
    [name] of the database [client] *)
Definition add (client name : text) (ids : list json) (embeddings : list embedding)
    (documents : list json) (metadatas : list (list (text * json))) : prog unit :=
  fun w =>
    match db_at w client !! name with
    | None => (Raise StoreError, w)
    | Some c =>
        match add_rows (coll_rows c) ids embeddings documents metadatas with
        | Raise e => (Raise e, w)
        | Ok rows' =>
            (Ok tt,
             set_db client (<[name := mkCollection (coll_metadata c) rows']> (db_at w client)) w)
        end
    end.

(** [collection.query(query_embeddings=[e], n_results=n)]: the store
    refuses a number of results that is not positive, and otherwise answers
    as [nearest] says.  The collection is left as it is. *)
Definition query (client name : text) (e : embedding) (n : Z) : prog (list row) :=
  fun w =>
    match db_at w client !! name with
    | None => (Raise StoreError, w)
    | Some c =>
        if (n <=? 0)%Z then (Raise ValueError, w)
        else (nearest (coll_rows c) e n, w)
    end.

(** [client.list_collections()] *)
Definition list_collections (client : text) : prog (list text) := fun w =>
  (Ok (map fst (map_to_list (db_at w client))), w).

End Store.
End Chroma.

(** [open(path, 'a+')] and one [write]: the text goes to the end of the file,
    which is created when missing. *)
Definition append_file (path : text) (line : text) : prog unit := fun w =>
  (Ok tt, mkWorld (<[path := default [] (files w !! path) ++ line]> (files w)) (stores w)).

(** [range(start, stop, step)]: the values the iteration yields.  [fuel] is the
    distance still to go, which every step shortens. *)
Fixpoint range_loop (fuel : nat) (i stop step : Z) : list Z :=
  match fuel with
  | O => []
  | S f =>
      if ((0 <? step) && (i <? stop) || (step <? 0) && (stop <? i))%Z
      then i :: range_loop f (i + step) stop step
      else []
  end.

Definition py_range (start stop step : Z) : result (list Z) :=
  if (step =? 0)%Z then Raise ValueError
  else Ok (range_loop (Z.to_nat (Z.abs (stop - start))) start stop step).

(** [l[i:i+b]] for [0 <= i] and [0 < b] *)
Definition batch_at {A} (l : list A) (b i : Z) : list A :=
  slice (Z.to_nat i) (Z.to_nat (i + b)) l.

(** [(n + b - 1) // b], the number of batches announced for [n] chunks *)
Definition total_batches (n b : Z) : result Z :=
  if (b =? 0)%Z then Raise ZeroDivisionError else Ok ((n + b - 1) / b)%Z.

(** The slices [l[i:i+b]] that [for i in range(0, len(l), b)] goes through. *)
Definition batches_of {A} (l : list A) (b : Z) : result (list (list A)) :=
  starts ← py_range 0 (Z.of_nat (length l)) b;
  Ok (map (batch_at l b) starts).

(* ===================================================================== *)
(** * src/vectorizer.py                                                    *)
(* ===================================================================== *)

Record Config := mkConfig {
  input_file : text;
  db_directory : text;
  model_name : text;
  task : text;
  truncate_dim : option Z;
  max_length : Z;
  device : option text;
  batch_size : Z
}.

(** The fields of a [ChunkVectorizer] that the run reads back. *)
Record ChunkVectorizer := mkVectorizer {
  config : Config;
  collection_name : text;
  client : text
}.

(** The name computed at the head of [_setup_collection]. *)
Definition derive_collection_name (input model : text) : text :=
  let collection_base_name := replace (py ".jsonl") [] (basename input) in
  let model_short_name :=
    if has_char (chr "/") model then split_last (chr "/") model else model in
  let collection_name := collection_base_name ++ py "_" ++ model_short_name in
  if 63 <? length collection_name then take 63 collection_name else collection_name.

Definition collections_file : text := py "artifacts/vector_stores/collections.txt".

Definition collections_log_line (name timestamp model task : text) : text :=
  name ++ py " (" ++ timestamp ++ py ") - Model: " ++ model ++ py ", Task: " ++ task ++ [10%N].

Section Vectorizer.
Context `{VectorStore} `{EmbeddingModel}.

(** [ChunkVectorizer._setup_collection]; [timestamp] is what
    [datetime.now().strftime] answers. *)
Definition _setup_collection (cfg : Config) (timestamp : text) : prog ChunkVectorizer :=
  let name := derive_collection_name (input_file cfg) (model_name cfg) in
  client ← Chroma.PersistentClient (db_directory cfg);
  _ ← try_except (Chroma.delete_collection client name) (fun _ => mret tt);
  _ ← Chroma.create_collection client name [(py "hnsw:space", py "cosine")];
  _ ← append_file collections_file
        (collections_log_line name timestamp (model_name cfg) (task cfg));
  mret (mkVectorizer cfg name client).

(** [ChunkVectorizer._load_model] *)
Definition _load_model (model : text) : prog unit :=
  lift (if model_available model then Ok tt else Raise ModelError).

(** [ChunkVectorizer.__init__] *)
Definition ChunkVectorizer_init (cfg : Config) (timestamp : text) : prog ChunkVectorizer :=
  self ← _setup_collection cfg timestamp;
  _ ← _load_model (model_name cfg);
  mret self.

(** The loop of [load_chunks] over the lines of the file. *)
Fixpoint parse_chunks (lines : list text) : result (list json) :=
  match lines with
  | [] => Ok []
  | line :: rest =>
      if blank line then parse_chunks rest
      else chunk ← Json.loads line; chunks ← parse_chunks rest; Ok (chunk :: chunks)
  end.

(** [len(chunk.get('text', ''))], evaluated for every chunk by the statistics
    table of [load_chunks]. *)
Definition chunk_text_length (chunk : json) : result nat :=
  t ← py_get chunk (py "text") (JStr []);
  py_len t.

(** [ChunkVectorizer.load_chunks] *)
Definition load_chunks (self : ChunkVectorizer) : prog (list json) := fun w =>
  (lines ← open_lines (files w) (input_file (config self));
   chunks ← parse_chunks lines;
   _ ← (match chunks with
        | [] => Ok []
        | _ :: _ => for_each chunk_text_length chunks
        end);
   Ok chunks, w).

(** The first loop of [process_and_store_chunks]: one call of the tokenizer
    and one of the model for each batch of texts. *)
Fixpoint embed_batches (cfg : Config) (batches : list (list json))
    : result (list embedding * nat) :=
  match batches with
  | [] => Ok ([], 0)
  | batch_texts :: rest =>
      counts ← tokenize batch_texts;
      batch_result ← encode (task cfg) (truncate_dim cfg) (max_length cfg) batch_texts;
      '(embeddings, total_tokens) ← embed_batches cfg rest;
      Ok (batch_result ++ embeddings, sum_list counts + total_tokens)
  end.

(** [ChunkVectorizer.process_and_store_chunks] *)
Definition process_and_store_chunks (self : ChunkVectorizer) (chunks : list json)
    : prog unit :=
  match chunks with
  | [] => mret tt
  | _ :: _ =>
      let cfg := config self in
      let b := batch_size cfg in
      let n := Z.of_nat (length chunks) in
      chunk_ids ← lift (for_each (fun c => py_getitem c (py "id")) chunks);
      texts ← lift (for_each (fun c => py_getitem c (py "text")) chunks);
      metadatas ← lift (for_each (fun c => s ← py_getitem c (py "source");
                                           Ok [(py "source", s)]) chunks);
      total ← lift (total_batches n b);
      text_batches ← lift (batches_of texts b);
      '(batch_embeddings, total_tokens) ← lift (embed_batches cfg text_batches);
      starts ← lift (py_range 0 n b);
      for_each_prog
        (fun i => Chroma.add (client self) (collection_name self)
                    (batch_at chunk_ids b i) (batch_at batch_embeddings b i)
                    (batch_at texts b i) (batch_at metadatas b i))
        starts
  end.

(** [ChunkVectorizer.run] *)
Definition run (self : ChunkVectorizer) : prog unit :=
  chunks ← load_chunks self;
  process_and_store_chunks self chunks.

(** The script: build the vectorizer, then run it. *)
Definition vectorizer_main (cfg : Config) (timestamp : text) : prog unit :=
  self ← ChunkVectorizer_init cfg timestamp;
  run self.

End Vectorizer.

(* ===================================================================== *)
(** * mcp_server/chroma_mcp_server_minimal.py                              *)
(* ===================================================================== *)

(** The globals of the server: the database it opened and the names of the
    two collections it holds handles of. *)
Record Server := mkServer {
  server_client : text;
  server_collection : text;
  server_memory_collection : text
}.

(** The functions registered with [@mcp.tool()], with their arguments. *)
Inductive tool_call :=
  | call_list_collections (dummy : text)
  | call_query (query_text : text) (n_results : Z)
  | call_search_memory (query_text : text) (n_results : Z)
  | call_remember (memory_text : text).

(** The dictionary a tool returns: its payload when ["success"] is true, the
    exception when it is false. *)
Inductive response :=
  | collections_response (names : list text)
  | results_response (results : list row)
  | memory_stored (memory_id : text)
  | error_response (e : exn).

Definition success (r : response) : bool :=
  match r with
  | error_response _ => false
  | _ => true
  end.

Section McpServer.
Context `{VectorStore} `{EmbeddingModel}.

Definition list_collections (srv : Server) : prog response :=
  try_except
    (names ← Chroma.list_collections (server_client srv);
     mret (collections_response names))
    (fun e => mret (error_response e)).

Definition query (srv : Server) (query_text : text) (n_results : Z) : prog response :=
  try_except
    (query_embedding ← lift (encode_one query_text);
     results ← Chroma.query (server_client srv) (server_collection srv)
                 query_embedding n_results;
     mret (results_response results))
    (fun e => mret (error_response e)).

Definition search_memory (srv : Server) (query_text : text) (n_results : Z)
    : prog response :=
  try_except
    (query_embedding ← lift (encode_one query_text);
     results ← Chroma.query (server_client srv) (server_memory_collection srv)
                 query_embedding n_results;
     mret (results_response results))
    (fun e => mret (error_response e)).

Definition memory_metadata (timestamp : text) : list (text * json) :=
  [(py "source", JStr (py "user_memory")); (py "timestamp_utc", JStr timestamp)].

(** [remember]; [token] is what [uuid.uuid4()] prints as and [timestamp] what
    [datetime.utcnow().isoformat()] answers. *)
Definition remember (srv : Server) (token timestamp : text) (memory_text : text)
    : prog response :=
  try_except
    (let memory_id := py "memory_" ++ token in
     embedding ← lift (encode_one memory_text);
     _ ← Chroma.add (server_client srv) (server_memory_collection srv)
           [JStr memory_id] [embedding] [JStr memory_text]
           [memory_metadata timestamp];
     mret (memory_stored memory_id))
    (fun e => mret (error_response e)).

(** Everything a client of the server can ask for. *)
Definition handle (srv : Server) (token timestamp : text) (c : tool_call)
    : prog response :=
  match c with
  | call_list_collections _ => list_collections srv
  | call_query q n => query srv q n
  | call_search_memory q n => search_memory srv q n
  | call_remember t => remember srv token timestamp t
  end.

(** The rows of the memory collection, as the server sees them. *)
Definition memory_rows (srv : Server) (w : World) : list row :=
  match Chroma.db_at w (server_client srv) !! server_memory_collection srv with
  | Some c => coll_rows c
  | None => []
  end.

End McpServer.

(* ===================================================================== *)
(** * Vocabulary of the properties                                         *)
(* ===================================================================== *)

(** What a line of the input file is to the validator. *)
Inductive line_kind :=
  | Blank
  | Malformed
  | MissingField
  | Doc (doc_id : text).

(** A line that is not blank and that [json.loads] refuses. *)
Definition malformed_line (line : text) : Prop :=
  blank line = false /\ Json.loads line = Raise JSONDecodeError.

Definition malformedb (line : text) : bool :=
  negb (blank line) &&
  match Json.loads line with Raise JSONDecodeError => true | _ => false end.

(** The lines of a file that are not blank, in file order. *)
Definition nonblank_lines (lines : list text) : list text :=
  List.filter (fun l => negb (blank l)) lines.

(** An object whose text field, when it has one, is a string, an array or an
    object: the values that [len] accepts. *)
Definition text_has_length (chunk : json) : bool :=
  match chunk with
  | JObj d =>
      match dict_get (py "text") d with
      | Some t => is_ok (py_len t)
      | None => true
      end
  | _ => false
  end.

(** The id of a line that holds an object whose fields id, text and source
    are strings. *)
Definition record_id (line : text) : option text :=
  match Json.loads line with
  | Ok (JObj d) =>
      match dict_get (py "id") d, dict_get (py "text") d, dict_get (py "source") d with
      | Some (JStr i), Some (JStr _), Some (JStr _) => Some i
      | _, _, _ => None
      end
  | _ => None
  end.

(** A well-formed line: an object with string fields id, text and source. *)
Definition well_formed_line (line : text) (doc_id : text) : Prop :=
  record_id line = Some doc_id.

(** [field in data], false where Python raises. *)
Definition has_field (data : json) (f : text) : bool :=
  match py_contains data f with
  | Ok b => b
  | Raise _ => false
  end.

(** The kind of a decoded value.  A document is an object with the three
    fields, a string id, a string source and a text that has a length.  A
    value that lacks a field is an object without one of the three keys, or
    an array or a string in which none of the three names occurs (Python's
    [in] looks for an element of the array, for a part of the string).
    Values of no kind are those at which the validator raises. *)
Definition data_kind (data : json) : option line_kind :=
  match data with
  | JObj d =>
      match dict_get (py "id") d, dict_get (py "text") d, dict_get (py "source") d with
      | Some (JStr i), Some t, Some (JStr _) =>
          if is_ok (py_len t) then Some (Doc i) else None
      | Some _, Some _, Some _ => None
      | _, _, _ => Some MissingField
      end
  | JArr _ | JStr _ =>
      if existsb (has_field data) required_fields then None else Some MissingField
  | _ => None
  end.

(** The kind of a line, read off the line itself. *)
Definition classify (line : text) : option line_kind :=
  if blank line then Some Blank
  else
    match Json.loads line with
    | Raise JSONDecodeError => Some Malformed
    | Raise _ => None
    | Ok data => data_kind data
    end.

Definition is_blank (k : line_kind) : bool :=
  match k with Blank => true | _ => false end.
Definition is_malformed (k : line_kind) : bool :=
  match k with Malformed => true | _ => false end.
Definition is_missing (k : line_kind) : bool :=
  match k with MissingField => true | _ => false end.
Definition is_doc (k : line_kind) : bool :=
  match k with Doc _ => true | _ => false end.

Definition count_kind (p : line_kind -> bool) (kinds : list line_kind) : nat :=
  length (List.filter p kinds).

(** The ids of the documents, in file order. *)
Fixpoint doc_ids (kinds : list line_kind) : list text :=
  match kinds with
  | [] => []
  | Doc i :: ks => i :: doc_ids ks
  | _ :: ks => doc_ids ks
  end.

(** How many ids of a sequence repeat one met before, [seen] being the ids
    met before the sequence. *)
Fixpoint repeats (seen : gset (list N)) (ids : list text) : nat :=
  match ids with
  | [] => 0
  | i :: ids' =>
      if decide (i ∈ seen) then S (repeats seen ids')
      else repeats (seen ∪ {[ i ]}) ids'
  end.

(** [s.endswith(suf)] *)
Definition endswith (suf s : text) : bool := startswith (rev suf) (rev s).

(** The name as the sentence of the specification reads: the base name with
    the suffix [.jsonl] removed, an underscore, the model name after its last
    slash, cut to 63 characters. *)
Definition name_by_suffix_rule (input model : text) : text :=
  let base := basename input in
  let stem :=
    if endswith (py ".jsonl") base then take (length base - 6) base else base in
  take 63 (stem ++ py "_" ++ split_last (chr "/") model).

(** The world that [_setup_collection] leaves: the collection [name] of the
    database under [dir] is there and empty, and the log file has one more
    line. *)
Definition world_after_setup `{VectorStore} (cfg : Config) (timestamp : text) (w : World)
    : World :=
  let name := derive_collection_name (input_file cfg) (model_name cfg) in
  mkWorld
    (<[collections_file :=
         default [] (files w !! collections_file)
         ++ collections_log_line name timestamp (model_name cfg) (task cfg)]> (files w))
    (<[db_directory cfg :=
         <[name := mkCollection [(py "hnsw:space", py "cosine")] []]>
           (Chroma.db_at w (db_directory cfg))]> (stores w)).

(** [chunk[name]] where the chunk is an object with that field. *)
Definition chunk_field (name : text) (chunk : json) : json :=
  match chunk with
  | JObj d => default JNull (dict_get name d)
  | _ => JNull
  end.

Definition id_text (j : json) : text :=
  match j with JStr s => s | _ => [] end.

(** The rows of a run: for every chunk, in order, its id, its embedding,
    its text as the document and its source as the metadata. *)
Definition chunk_rows (chunks : list json) (embeddings : list embedding) : list row :=
  Chroma.zip_rows
    (map (fun c => id_text (chunk_field (py "id") c)) chunks)
    embeddings
    (map (chunk_field (py "text")) chunks)
    (map (fun c => [(py "source", chunk_field (py "source") c)]) chunks).

(** The rows of the collection [name] of the database under [dir]. *)
Definition rows_of (w : World) (dir name : text) : option (list row) :=
  coll_rows <$> (Chroma.db_at w dir !! name).

(** The ids met after a line of kind [k]. *)
Definition seen_after (k : line_kind) (seen : gset (list N)) : gset (list N) :=
  match k with
  | Doc i => seen ∪ {[ i ]}
  | _ => seen
  end.

(** What the lines of the kinds [kinds], read after the ids [seen] were met,
    add to the counters and to the errors of a validator. *)
Definition advanced (self self' : DataValidator) (seen : gset (list N))
    (kinds : list line_kind) : Prop :=
  total_lines (stats self') = total_lines (stats self) + length kinds /\
  empty_lines (stats self') = empty_lines (stats self) + count_kind is_blank kinds /\
  json_errors (stats self') = json_errors (stats self) + count_kind is_malformed kinds /\
  missing_fields (stats self') = missing_fields (stats self) + count_kind is_missing kinds /\
  valid_docs (stats self') = valid_docs (stats self) + count_kind is_doc kinds /\
  duplicate_ids (stats self') = duplicate_ids (stats self) + repeats seen (doc_ids kinds) /\
  length (errors self') =
    length (errors self) + count_kind is_malformed kinds + count_kind is_missing kinds
    + repeats seen (doc_ids kinds).

(** Two validators that differ in their warnings only. *)
Definition same_core (a b : DataValidator) : Prop :=
  errors a = errors b /\ stats a = stats b /\ file_path a = file_path b.

(** The six counters split the lines among four buckets. *)
Definition partitioned (s : Stats) : Prop :=
  total_lines s = empty_lines s + json_errors s + missing_fields s + valid_docs s.

(* ===================================================================== *)
(** * Facts about text                                                     *)
(* ===================================================================== *)


(* ===================================================================== *)
(** * Sample inputs                                                        *)
(* ===================================================================== *)

Definition data_path : text := py "data.jsonl".

Definition good_line (n : string) : text :=
  jq "{'id': 'doc_00000" ++ py n ++ jq "', 'text': 'text of the document', 'source': 'docs/a.md'}" ++ lf.

Definition bad_line : text := jq "{'id': 'doc_000004', 'text': " ++ lf.

(** Nine well-formed lines and, as line four, one that is cut short. *)
Definition nine_and_one : text :=
  good_line "1" ++ good_line "2" ++ good_line "3" ++ bad_line ++
  good_line "4" ++ good_line "5" ++ good_line "6" ++ good_line "7" ++
  good_line "8" ++ good_line "9".

(** Two documents with the id doc_000001 among other lines. *)
Definition with_duplicate : text :=
  good_line "1" ++ lf ++ good_line "2" ++ bad_line ++ good_line "1" ++
  jq "{'id': 'doc_000007', 'text': 'no source here'}" ++ lf ++ good_line "3".

(** One line: an object whose text is a number. *)
Definition numeric_text : text :=
  jq "{'id': 'doc_000001', 'text': 5, 'source': 'docs/a.md'}" ++ lf.

Definition sample_config : Config :=
  mkConfig data_path (py "db") (py "org/model") (py "retrieval.passage") None 8192
    None 2.

Definition sample_vectorizer : ChunkVectorizer :=
  mkVectorizer sample_config
    (derive_collection_name data_path (py "org/model")) (py "db").

(** A store that accepts names of 3 to 63 characters and every record, and
    a model that answers every text with one fixed vector. *)
#[global] Instance sample_store : VectorStore := {|
  name_ok := fun n => (3 <=? length n) && (length n <=? 63);
  record_ok := fun _ => true;
  rejects_known_ids := false;
  nearest := fun rows _ n => Ok (take (Z.to_nat n) rows)
|}.

#[global, refine] Instance sample_model : EmbeddingModel := {|
  model_available := fun _ => true;
  tokenize := fun ts => Ok (map (fun _ => 1) ts);
  encode := fun _ _ _ ts => Ok (map (fun _ => [0%Z]) ts);
  encode_one := fun _ => Ok [0%Z];
  encode_length := _
|}.
Proof. intros _ _ _ ts es [= <-]. apply length_map. Defined.

Definition old_row : row :=
  mkRow (py "old_1") [7%Z] (JStr (py "a row of an earlier run")) [(py "source", JStr (py "old.md"))].

(** A world without the input file, whose database holds the collection of
    the sample configuration with one row. *)
Definition world_without_input : World :=
  mkWorld ∅
    {[ py "db" := {[ py "data_model" := mkCollection [(py "hnsw:space", py "cosine")] [old_row] ]} ]}.

Definition three_docs : text := good_line "1" ++ good_line "2" ++ good_line "3".

(** A world with an input file of three documents, whose database holds the
    collection of the sample configuration with one row of an earlier run. *)
Definition world_with_input : World :=
  mkWorld {[ data_path := three_docs ]}
    {[ py "db" := {[ py "data_model" := mkCollection [(py "hnsw:space", py "cosine")] [old_row] ]} ]}.

Definition sample_time : text := py "2025-01-01 00:00:00".

Definition first_run : result unit * World :=
  vectorizer_main sample_config sample_time world_with_input.

Definition second_run : result unit * World :=
  vectorizer_main sample_config (py "2025-01-02 00:00:00") (snd first_run).

Definition sample_server : Server :=
  mkServer (py "db") (py "data_model") (py "user_memories").

(** A world whose database holds a memory collection with one memory. *)
Definition world_with_memories : World :=
  mkWorld ∅
    {[ py "db" :=
         {[ py "user_memories" :=
              mkCollection []
                [mkRow (py "memory_0001") [0%Z] (JStr (py "likes tea"))
                   (memory_metadata (py "2025-01-01T00:00:00"))] ]} ]}.

(** A line holding a number, then a malformed line. *)
Definition number_then_bad : text := py "5" ++ lf ++ bad_line.

(** The same with an array, and with a string, in place of the number. *)
Definition array_then_bad : text := py "[5]" ++ lf ++ bad_line.
Definition string_then_bad : text := jq "'5'" ++ lf ++ bad_line.

(* ===================================================================== *)
(** * Vocabulary of the further properties                                 *)
(* ===================================================================== *)

(** The ids of the lines that are documents, in file order. *)
Definition line_ids (lines : list text) : list text :=
  omap (fun l => match classify l with Some (Doc i) => Some i | _ => None end) lines.

(** A line that is blank or a document. *)
Definition clean_line (line : text) : Prop :=
  classify line = Some Blank \/ exists i, classify line = Some (Doc i).

(** The total of a [Counter]: the sum of its counts. *)
Definition counter_total (c : gmap (list N) nat) : nat :=
  map_fold (fun _ n acc => n + acc) 0 c.

(** The class that [_extract_pattern] ends up replacing: decimal digits and
    ASCII letters together. *)
Definition alphanumeric `{UnicodeData} (c : N) : bool :=
  decimal_digit c || ascii_letter c.

(** The statistics of the documents keep step with [valid_docs]: one text
    length and one count in each [Counter] for every document. *)
Definition tallied (s : Stats) : Prop :=
  length (text_lengths s) = valid_docs s /\
  counter_total (id_patterns s) = valid_docs s /\
  counter_total (source_patterns s) = valid_docs s.

(** The world [w'] differs from [w] at most in the collection [name] of the
    database under [dir] and in the log file, to which text may have been
    added at the end. *)
Definition only_touches (dir name : text) (w w' : World) : Prop :=
  (forall d, d <> dir -> stores w' !! d = stores w !! d) /\
  (forall n, n <> name -> Chroma.db_at w' dir !! n = Chroma.db_at w dir !! n) /\
  (forall p, p <> collections_file -> files w' !! p = files w !! p) /\
  default [] (files w !! collections_file)
    `prefix_of` default [] (files w' !! collections_file).

(** Two worlds with the same files and the same collection [name] in the
    database under [dir]. *)
Definition same_input (dir name : text) (w v : World) : Prop :=
  files w = files v /\ Chroma.db_at w dir !! name = Chroma.db_at v dir !! name.

(** A world with the files of [world_with_input] and no database. *)
Definition world_with_input_only : World := mkWorld (files world_with_input) ∅.

(** A chunk that has the three fields a run reads. *)
Definition has_fields (chunk : json) : bool :=
  forallb (has_field chunk) required_fields.

(** The calls of [collection.add] of a run, one for each value of
    [range(0, n, b)]. *)
Definition store_batches `{VectorStore} (self : ChunkVectorizer) (b : Z)
    (ids : list json) (embeddings : list embedding) (documents : list json)
    (metadatas : list (list (text * json))) (starts : list Z) : prog unit :=
  for_each_prog
    (fun i => Chroma.add (client self) (collection_name self)
                (batch_at ids b i) (batch_at embeddings b i)
                (batch_at documents b i) (batch_at metadatas b i))
    starts.

(** A store that takes strings only as documents and raises on an id it
    already has, and a model that raises on a batch with a text that is not
    a string. *)
Definition text_store : VectorStore := {|
  name_ok := fun n => (3 <=? length n) && (length n <=? 63);
  record_ok := fun r => match row_document r with JStr _ => true | _ => false end;
  rejects_known_ids := true;
  nearest := fun rows _ n => Ok (take (Z.to_nat n) rows)
|}.

Definition all_strings (ts : list json) : bool :=
  forallb (fun t => match t with JStr _ => true | _ => false end) ts.

#[refine] Definition text_model : EmbeddingModel := {|
  model_available := fun _ => true;
  tokenize := fun ts => Ok (map (fun _ => 1) ts);
  encode := fun _ _ _ ts =>
    if all_strings ts then Ok (map (fun _ => [0%Z]) ts) else Raise ModelError;
  encode_one := fun _ => Ok [0%Z];
  encode_length := _
|}.
Proof.
  intros _ _ _ ts es. destruct (all_strings ts); [|done].
  intros [= <-]. apply length_map.
Defined.

(** Three documents, the last with a list for its text. *)
Definition list_text_line : text :=
  jq "{'id': 'doc_000003', 'text': ['a', 'b'], 'source': 'docs/a.md'}" ++ lf.

Definition two_and_list : text := good_line "1" ++ good_line "2" ++ list_text_line.

(** A line without a source. *)
Definition no_source_line : text :=
  jq "{'id': 'doc_000007', 'text': 'no source here'}" ++ lf.

(** A file of blank lines only, and a world that holds it as the input of
    the sample configuration. *)
Definition blank_file : text := lf ++ py "   " ++ lf ++ py "	" ++ lf.

Definition world_with_blank_input : World :=
  mkWorld {[ data_path := blank_file ]} ∅.

(** A vectorizer of the sample configuration with another batch size. *)
Definition sample_vectorizer_with (b : Z) : ChunkVectorizer :=
  mkVectorizer
    (mkConfig data_path (py "db") (py "org/model") (py "retrieval.passage") None 8192
       None b)
    (derive_collection_name data_path (py "org/model")) (py "db").

(** A world with the given input file and the empty collection of the sample
    configuration. *)
Definition world_ready (content : text) : World :=
  mkWorld {[ data_path := content ]}
    {[ py "db" := {[ py "data_model" := mkCollection [(py "hnsw:space", py "cosine")] [] ]} ]}.

(** The value that [json.loads] gives for a line, [null] for a line it
    refuses. *)
Definition chunk_of_line (line : text) : json :=
  match Json.loads line with Ok v => v | Raise _ => JNull end.

(** The chunks of the file [two_and_list], and the outcome of storing them
    in batches of two with the store that takes strings only. *)
Definition chunks_two_and_list : list json :=
  [chunk_of_line (good_line "1"); chunk_of_line (good_line "2");
   chunk_of_line list_text_line].

Definition picky_run : result unit * World :=
  @process_and_store_chunks text_store sample_model (sample_vectorizer_with 2)
    chunks_two_and_list (world_ready two_and_list).

(* ===================================================================== *)
(** * mcp_server/chroma_mcp_server_minimal.py: the start of the server     *)
(* ===================================================================== *)

(** [os.path.exists] for the path of a database directory: the world has a
    database for every directory that exists (an empty one for a directory
    in which none was made yet).  Paths of regular files are left out. *)
Definition dir_exists (w : World) (dir : text) : bool :=
  bool_decide (is_Some (stores w !! dir)).

(** [client.get_collection(name)] *)
Definition get_collection (client name : text) : prog unit := fun w =>
  match Chroma.db_at w client !! name with
  | Some _ => (Ok tt, w)
  | None => (Raise ValueError, w)
  end.

Section McpStart.
Context `{VectorStore} `{EmbeddingModel}.

(** The body of the [try] of the script, up to [mcp.run]: the globals of the
    server when it gets to serve.  When this raises, the script logs the
    error and exits with status 1. *)
Definition server_startup (chromadb_path collection_name memory_collection_name
    model_name : text) : prog Server :=
  fun w =>
    if negb (dir_exists w chromadb_path) then (Raise FileNotFoundError, w)
    else
      (client ← Chroma.PersistentClient chromadb_path;
       _ ← lift (if model_available model_name then Ok tt else Raise ModelError);
       _ ← get_collection client collection_name;
       _ ← Chroma.get_or_create_collection client memory_collection_name;
       mret (mkServer client collection_name memory_collection_name)) w.

End McpStart.

(** A world whose database holds the main collection of the sample server
    and a memory collection with one memory. *)
Definition world_with_server_data : World :=
  mkWorld ∅
    {[ py "db" :=
         {[ py "data_model" := mkCollection [(py "hnsw:space", py "cosine")] [old_row];
            py "user_memories" :=
              mkCollection []
                [mkRow (py "memory_0001") [0%Z] (JStr (py "likes tea"))
                   (memory_metadata (py "2025-01-01T00:00:00"))] ]} ]}.

(* ===================================================================== *)
(** * main.py                                                              *)
(* ===================================================================== *)

(** [f.read()] on a file opened in text mode: the content with its line ends
    translated, which is the lines of the file put together. *)
Definition read_text (fs : filesystem) (p : text) : result text :=
  lines ← open_lines fs p; Ok (concat lines).

(** [json.load(f)] *)
Definition json_load (fs : filesystem) (p : text) : result json :=
  content ← read_text fs p; Json.loads content.

(** The keyword arguments that [main] hands to [ChunkVectorizer], as the
    values read from the configuration. *)
Record Kwargs := mkKwargs {
  arg_input_file : json;
  arg_db_directory : json;
  arg_model_name : json;
  arg_task : json;
  arg_truncate_dim : json;
  arg_max_length : json;
  arg_device : json;
  arg_batch_size : json
}.

(** [main] of main.py.  [vectorize] stands for what the last two statements
    do with the arguments: building the [ChunkVectorizer] and running it.
    Without a configuration file, [main] prints a message and returns. *)
Definition main_py (config_path : text) (vectorize : Kwargs -> prog unit)
    : prog unit := fun w =>
  if negb (path_exists (files w) config_path) then (Ok tt, w)
  else
    (config ← lift (json_load (files w) config_path);
     input ← lift (py_getitem config (py "input"));
     db ← lift (py_getitem config (py "db"));
     model ← lift (py_getitem config (py "model"));
     task ← lift (py_getitem config (py "task"));
     truncate_dim ← lift (py_get config (py "truncate_dim") JNull);
     max_length ← lift (py_getitem config (py "max_length"));
     device ← lift (py_getitem config (py "device"));
     batch_size ← lift (py_getitem config (py "batch_size"));
     vectorize (mkKwargs input db model task truncate_dim max_length device
                  batch_size)) w.

(** The keys that [main] reads with [config[...]]. *)
Definition config_keys : list text :=
  [py "input"; py "db"; py "model"; py "task"; py "max_length"; py "device";
   py "batch_size"].

(** A configuration file for the sample configuration, without the key
    truncate_dim, and one without the key db. *)
Definition config_path : text := py "config/training_config.json".

Definition sample_config_file : text :=
  jq "{'input': 'data.jsonl', 'db': 'db', 'model': 'org/model'," ++ lf ++
  jq " 'task': 'retrieval.passage', 'max_length': 8192, 'device': null," ++ lf ++
  jq " 'batch_size': 2}" ++ lf.

Definition config_file_without_db : text :=
  jq "{'input': 'data.jsonl', 'model': 'org/model', 'task': 'retrieval.passage'," ++ lf ++
  jq " 'max_length': 8192, 'device': null, 'batch_size': 2}" ++ lf.

(* ===================================================================== *)
(** * examples/sample_data_generator.py                                    *)
(* ===================================================================== *)

(** ** What the script needs of [json.dumps] and of string formatting *)

(** A digit of a lower-case hexadecimal numeral *)
Definition hex_digit (n : N) : N := if (n <? 10)%N then (48 + n)%N else (87 + n)%N.

(** What [json.dumps] with [ensure_ascii=False] writes for one character of
    a string: the two-character escapes of the encoder's table, [\u00XX]
    for the other characters below the space, and the character itself
    otherwise. *)
Definition escape_char (c : N) : text :=
  if (c =? Json.quote)%N then [chr "\"; Json.quote]
  else if (c =? chr "\")%N then [chr "\"; chr "\"]
  else if (c =? 10)%N then [chr "\"; chr "n"]
  else if (c =? 13)%N then [chr "\"; chr "r"]
  else if (c =? 9)%N then [chr "\"; chr "t"]
  else if (c =? 8)%N then [chr "\"; chr "b"]
  else if (c =? 12)%N then [chr "\"; chr "f"]
  else if (c <? 32)%N
       then [chr "\"; chr "u"; chr "0"; chr "0"; hex_digit (c / 16); hex_digit (c mod 16)]
  else [c].

(** [json.encoder.encode_basestring] *)
Definition encode_basestring (s : text) : text :=
  Json.quote :: flat_map escape_char s ++ [Json.quote].

(** [sep.join(parts)] *)
Fixpoint join (sep : text) (parts : list text) : text :=
  match parts with
  | [] => []
  | [p] => p
  | p :: rest => p ++ sep ++ join sep rest
  end.

(** One item of a dictionary of strings, as [json.dumps] writes it *)
Definition dumped_item (kv : text * text) : text :=
  encode_basestring (fst kv) ++ py ": " ++ encode_basestring (snd kv).

(** [json.dumps(d, ensure_ascii=False)] for a dictionary whose keys and
    values are strings, given as its items in insertion order. *)
Definition dumps_strings (d : list (text * text)) : text :=
  py "{" ++ join (py ", ") (map dumped_item d) ++ py "}".

(** The value that [json.loads] builds for such a dictionary *)
Definition strings_object (d : list (text * text)) : json :=
  JObj (map (fun kv => (fst kv, JStr (snd kv))) d).

(** The decimal numeral of a number, as [str(i)] and the format [d] write
    it.  [fuel] bounds the number of digits. *)
Fixpoint decimal_digits (fuel n : nat) : text :=
  match fuel with
  | O => []
  | S f =>
      (if n <? 10 then [] else decimal_digits f (n / 10)) ++ [N.of_nat (48 + n mod 10)]
  end.

Definition decimal (n : nat) : text := decimal_digits (S n) n.

(** [f"{i:06d}"] for [i >= 0]: the numeral, with zeros before it up to six
    characters. *)
Definition decimal06 (n : nat) : text :=
  repeat (chr "0") (6 - length (decimal n)) ++ decimal n.

(** [x[:n]] *)
Definition py_slice_to (x : json) (n : nat) : result json :=
  match x with
  | JStr s => Ok (JStr (take n s))
  | JArr l => Ok (JArr (take n l))
  | _ => Raise TypeError
  end.

(** [open(p, 'w', encoding='utf-8')] and the writes until the file is
    closed.  [opened] is what the file system answers to [open]: when it
    raises (a missing directory, a path that is a directory, no permission)
    nothing is written; otherwise the file holds what was written, and
    nothing of what it held. *)
Definition write_file (opened : result unit) (path : text) (content : text)
    : prog unit := fun w =>
  match opened with
  | Ok _ => (Ok tt, mkWorld (<[path := content]> (files w)) (stores w))
  | Raise e => (Raise e, w)
  end.

(** [s.rfind(c) + 1] for a character [c]: the length of the part of [s] up
    to the last [c], this one included, and 0 when there is none. *)
Fixpoint rfind_end (c : N) (s : text) : nat :=
  match s with
  | [] => 0
  | x :: s' =>
      let r := rfind_end c s' in
      if 0 <? r then S r else if (x =? c)%N then 1 else 0
  end.

Fixpoint lstrip_char (c : N) (s : text) : text :=
  match s with
  | x :: s' => if (x =? c)%N then lstrip_char c s' else s
  | [] => []
  end.

(** [s.rstrip(c)] for a character [c] *)
Definition rstrip_char (c : N) (s : text) : text := rev (lstrip_char c (rev s)).

(** [os.path.dirname] of [posixpath] *)
Definition dirname (p : text) : text :=
  let sep := chr "/" in
  let i := rfind_end sep p in
  let head := take i p in
  if negb (bool_decide (head = [])) && negb (bool_decide (head = repeat sep (length head)))
  then rstrip_char sep head
  else head.

(** [os.makedirs(name, exist_ok=True)]: the empty name is no directory and
    cannot be made, so the call raises [FileNotFoundError]; for any other
    name [made] is what the file system answers. *)
Definition makedirs (name : text) (made : result unit) : result unit :=
  match name with
  | [] => Raise FileNotFoundError
  | _ :: _ => made
  end.

(** ** The texts *)

Definition tech_texts : list text :=
  [ [20154; 24037; 26234; 33021; 25216; 26415; 27491; 22312; 24555; 36895;
    21457; 23637; 65292; 26426; 22120; 23398; 20064; 21644; 28145; 24230;
    23398; 20064; 24050; 32463; 25104; 20026; 25512; 21160; 31185; 25216;
    36827; 27493; 30340; 37325; 35201; 21147; 37327; 12290]%N;
    [20113; 35745; 31639; 20026; 20225; 19994; 25552; 20379; 20102; 28789;
    27963; 12289; 21487; 25193; 23637; 30340; 73; 84; 22522; 30784; 35774;
    26045; 35299; 20915; 26041; 26696; 65292; 26174; 33879; 38477; 20302;
    20102; 36816; 33829; 25104; 26412; 12290]%N;
    [21306; 22359; 38142; 25216; 26415; 20855; 26377; 21435; 20013; 24515;
    21270; 12289; 19981; 21487; 31713; 25913; 30340; 29305; 28857; 65292;
    22312; 37329; 34701; 12289; 20379; 24212; 38142; 31561; 39046; 22495;
    26377; 24191; 27867; 24212; 29992; 21069; 26223; 12290]%N;
    [29289; 32852; 32593; 36830; 25509; 20102; 25968; 21313; 20159; 35774;
    22791; 65292; 20026; 26234; 24935; 22478; 24066; 21644; 24037; 19994; 52;
    46; 48; 30340; 21457; 23637; 25552; 20379; 20102; 25216; 26415; 22522;
    30784; 12290]%N;
    [53; 71; 32593; 32476; 30340; 37096; 32626; 23558; 22823; 24133; 25552;
    21319; 25968; 25454; 20256; 36755; 36895; 24230; 65292; 20026; 36828;
    31243; 21307; 30103; 12289; 33258; 21160; 39550; 39542; 31561; 24212;
    29992; 21019; 36896; 26465; 20214; 12290]%N ].

Definition science_texts : list text :=
  [ [37327; 23376; 35745; 31639; 21033; 29992; 37327; 23376; 21147; 23398;
    21407; 29702; 36827; 34892; 20449; 24687; 22788; 29702; 65292; 26377;
    26395; 22312; 29305; 23450; 38382; 39064; 19978; 23454; 29616; 25351;
    25968; 32423; 30340; 24615; 33021; 25552; 21319; 12290]%N;
    [22522; 22240; 32534; 36753; 25216; 26415; 67; 82; 73; 83; 80; 82; 20026;
    27835; 30103; 36951; 20256; 30142; 30149; 21644; 25913; 33391; 20892;
    20316; 29289; 21697; 31181; 25552; 20379; 20102; 38761; 21629; 24615;
    30340; 24037; 20855; 12290]%N;
    [21487; 20877; 29983; 33021; 28304; 25216; 26415; 30340; 24555; 36895;
    21457; 23637; 27491; 22312; 25913; 21464; 20840; 29699; 33021; 28304;
    26684; 23616; 65292; 22826; 38451; 33021; 21644; 39118; 33021; 25104;
    26412; 25345; 32493; 19979; 38477; 12290]%N;
    [22826; 31354; 25506; 32034; 25216; 26415; 30340; 36827; 27493; 20351;
    24471; 28779; 26143; 27542; 27665; 21644; 23567; 34892; 26143; 37319;
    30719; 31561; 27010; 24565; 21464; 24471; 26356; 21152; 29616; 23454;
    12290]%N;
    [32435; 31859; 25216; 26415; 22312; 26448; 26009; 31185; 23398; 12289;
    21307; 23398; 21644; 30005; 23376; 20135; 21697; 31561; 39046; 22495;
    23637; 29616; 20986; 24040; 22823; 30340; 24212; 29992; 28508; 21147;
    12290]%N ].

Definition business_texts : list text :=
  [ [25968; 23383; 21270; 36716; 22411; 24050; 25104; 20026; 20225; 19994;
    20445; 25345; 31454; 20105; 21147; 30340; 20851; 38190; 31574; 30053;
    65292; 28041; 21450; 19994; 21153; 27969; 31243; 12289; 23458; 25143;
    20307; 39564; 31561; 22810; 20010; 26041; 38754; 12290]%N;
    [30005; 23376; 21830; 21153; 24179; 21488; 30340; 20852; 36215; 25913;
    21464; 20102; 28040; 36153; 32773; 30340; 36141; 29289; 20064; 24815;
    65292; 32447; 19978; 32447; 19979; 34701; 21512; 25104; 20026; 26032;
    30340; 21457; 23637; 36235; 21183; 12290]%N;
    [25968; 25454; 20998; 26512; 21644; 21830; 19994; 26234; 33021; 24037;
    20855; 24110; 21161; 20225; 19994; 20174; 28023; 37327; 25968; 25454;
    20013; 25552; 21462; 26377; 20215; 20540; 30340; 27934; 23519; 21644;
    20915; 31574; 25903; 25345; 12290]%N;
    [21487; 25345; 32493; 21457; 23637; 21644; 69; 83; 71; 65288; 29615;
    22659; 12289; 31038; 20250; 12289; 27835; 29702; 65289; 26631; 20934;
    36234; 26469; 36234; 21463; 21040; 25237; 36164; 32773; 21644; 28040;
    36153; 32773; 30340; 20851; 27880; 12290]%N;
    [36828; 31243; 24037; 20316; 27169; 24335; 30340; 26222; 21450; 25913;
    21464; 20102; 20256; 32479; 30340; 21150; 20844; 25991; 21270; 65292;
    23545; 20225; 19994; 31649; 29702; 25552; 20986; 20102; 26032; 30340;
    25361; 25112; 12290]%N ].

Definition culture_texts : list text :=
  [ [20256; 32479; 25991; 21270; 19982; 29616; 20195; 31185; 25216; 30340;
    34701; 21512; 21019; 36896; 20102; 26032; 30340; 33402; 26415; 34920;
    36798; 24418; 24335; 21644; 25991; 21270; 20256; 25773; 26041; 24335;
    12290]%N;
    [20840; 29699; 21270; 36827; 31243; 20013; 30340; 25991; 21270; 20132;
    27969; 20419; 36827; 20102; 19981; 21516; 25991; 26126; 20043; 38388;
    30340; 29702; 35299; 21644; 21253; 23481; 12290]%N;
    [25968; 23383; 21270; 26102; 20195; 30340; 25991; 21270; 20135; 19994;
    38754; 20020; 30528; 26426; 36935; 21644; 25361; 25112; 65292; 20869;
    23481; 21019; 20316; 21644; 29256; 26435; 20445; 25252; 25104; 20026;
    20851; 38190; 35758; 39064; 12290]%N;
    [25945; 32946; 25216; 26415; 30340; 21457; 23637; 20026; 20010; 24615;
    21270; 23398; 20064; 21644; 32456; 36523; 25945; 32946; 25552; 20379;
    20102; 26032; 30340; 21487; 33021; 24615; 12290]%N;
    [31038; 20132; 23186; 20307; 24179; 21488; 25913; 21464; 20102; 20449;
    24687; 20256; 25773; 21644; 31038; 20250; 20114; 21160; 30340; 26041;
    24335; 65292; 23545; 25991; 21270; 24418; 25104; 20135; 29983; 28145;
    36828; 24433; 21709; 12290]%N ].

Definition prefix_world : text :=
  [22312; 24403; 20170; 24555; 36895; 21457; 23637; 30340; 19990; 30028;
  20013; 65292]%N.

Definition prefix_research : text :=
  [30740; 31350; 34920; 26126; 65292]%N.

Definition prefix_experts : text :=
  [19987; 23478; 35748; 20026; 65292]%N.

Definition prefix_report : text :=
  [26681; 25454; 26368; 26032; 25253; 21578; 65292]%N.

Definition prefix_progress : text :=
  [38543; 30528; 25216; 26415; 30340; 19981; 26029; 36827; 27493; 65292]%N.

Definition suffix_trend : text :=
  [36825; 19968; 36235; 21183; 20540; 24471; 25105; 20204; 28145; 20837;
  24605; 32771; 21644; 20851; 27880; 12290]%N.

Definition suffix_future : text :=
  [26410; 26469; 30340; 21457; 23637; 21069; 26223; 20196; 20154; 26399;
  24453; 12290]%N.

(** [generate_sample_texts] *)
Definition generate_sample_texts : list text :=
  tech_texts ++ science_texts ++ business_texts ++ culture_texts.

(** The list [variations] for a base text *)
Definition variations (base_text : text) : list text :=
  [ prefix_world ++ base_text;
    prefix_research ++ base_text;
    prefix_experts ++ base_text;
    prefix_report ++ base_text;
    prefix_progress ++ base_text;
    base_text;
    base_text ++ suffix_trend;
    base_text ++ suffix_future ].

(** [random.choice(seq)] for a sequence that is not empty: the element at an
    index below the length, which the state of the generator decides; [r] is
    the number it draws. *)
Definition random_choice (r : nat) (seq : list text) : text :=
  nth (r mod length seq) seq [].

(** ** The script *)

(** The text of document [i]; [rand] gives the numbers drawn by the calls
    of [random.choice], two for every document. *)
Definition sample_text (rand : nat -> nat) (i : nat) : text :=
  let base_text := random_choice (rand (2 * i)) generate_sample_texts in
  random_choice (rand (2 * i + 1)) (variations base_text).

(** The source of document [i] *)
Definition sample_source (i : nat) : text :=
  py "sample_data/category_" ++ decimal (i mod 4) ++ py "/document_" ++ decimal i
  ++ py ".txt".

(** The record of document [i] *)
Definition sample_doc (rand : nat -> nat) (i : nat) : list (text * text) :=
  [ (py "id", py "doc_" ++ decimal06 i);
    (py "text", sample_text rand i);
    (py "source", sample_source i) ].

(** The line written for document [i] *)
Definition sample_line (rand : nat -> nat) (i : nat) : text :=
  dumps_strings (sample_doc rand i) ++ [10%N].

(** What the loop at the end of [generate_sample_data] does with a line it
    shows: it decodes it and reads the id and the head of the text. *)
Definition show_line (line : text) : result unit :=
  data ← Json.loads line;
  _ ← py_getitem data (py "id");
  t ← py_getitem data (py "text");
  _ ← py_slice_to t 50;
  Ok tt.

(** [generate_sample_data(num_docs, output_file)] (printing left out);
    [opened] is what the file system answers when the output file is
    opened for writing. *)
Definition generate_sample_data (opened : result unit) (num_docs : Z) (output_file : text)
    (rand : nat -> nat) : prog unit :=
  _ ← write_file opened output_file
        (concat (map (sample_line rand) (seq 0 (Z.to_nat num_docs))));
  lines ← (fun w => (open_lines (files w) output_file, w));
  _ ← lift (for_each show_line (take 3 lines));
  mret tt.

(** The loop of [validate_jsonl] over the lines, with its two counters. *)
Fixpoint validate_jsonl_lines (lines : list text) (valid_lines total_lines : nat)
    : result (nat * nat) :=
  match lines with
  | [] => Ok (valid_lines, total_lines)
  | line :: rest =>
      let total_lines := S total_lines in
      let line := strip line in
      match line with
      | [] => validate_jsonl_lines rest valid_lines total_lines
      | _ :: _ =>
          match Json.loads line with
          | Raise JSONDecodeError => validate_jsonl_lines rest valid_lines total_lines
          | Raise e => Raise e
          | Ok data =>
              has_id ← py_contains data (py "id");
              has_all ←
                (if has_id : bool then
                   has_text ← py_contains data (py "text");
                   if has_text : bool then py_contains data (py "source") else Ok false
                 else Ok false);
              validate_jsonl_lines rest
                (if has_all : bool then S valid_lines else valid_lines) total_lines
          end
      end
  end.

(** [validate_jsonl(file_path)]: every exception ends in [False]. *)
Definition validate_jsonl (fs : filesystem) (file_path : text) : bool :=
  match open_lines fs file_path with
  | Raise _ => false
  | Ok lines =>
      match validate_jsonl_lines lines 0 0 with
      | Ok (valid_lines, total_lines) => valid_lines =? total_lines
      | Raise _ => false
      end
  end.

(** The script of the generator, after the arguments are read: it makes the
    directory of the output file, generates the data and, when asked to,
    checks the file.  [made] and [opened] are the answers of the file
    system to [os.makedirs] and to the [open] that writes. *)
Definition generator_main (num_docs : Z) (output : text) (validate : bool)
    (rand : nat -> nat) (made opened : result unit) : prog unit :=
  _ ← lift (makedirs (dirname output) made);
  _ ← generate_sample_data opened num_docs output rand;
  _ ← ((fun w => (Ok (if validate then validate_jsonl (files w) output else true), w))
       : prog bool);
  mret tt.

(** A line that [validate_jsonl] counts as valid. *)
Definition jsonl_line_ok (line : text) : bool :=
  negb (blank line) &&
  match Json.loads (strip line) with
  | Ok data => forallb (has_field data) required_fields
  | Raise _ => false
  end.

(** The value of a decimal numeral *)
Definition numeral_value (ds : text) : nat :=
  fold_left (fun acc c => acc * 10 + (N.to_nat c - 48)) ds 0.

(** Numbers drawn by the random generator, for the examples. *)
Definition sample_rand (j : nat) : nat := 7 * j + 3.

Definition sample_output : text := py "data/sample.jsonl".
Lemma text_eqb_eq (a b : text) : text_eqb a b = true <-> a = b.
Proof.
  revert b. induction a as [|x a IH]; intros [|y b]; simpl.
  - done.
  - split; discriminate.
  - split; discriminate.
  - rewrite andb_true_iff, N.eqb_eq, IH. split.
    + intros [-> ->]. done.
    + intros [= -> ->]. done.
Qed.

Lemma text_eqb_refl (a : text) : text_eqb a a = true.
Proof. by apply text_eqb_eq. Qed.

Lemma text_eqb_neq (a b : text) : a <> b -> text_eqb a b = false.
Proof.
  intros Hne. destruct (text_eqb a b) eqn:E; [|done].
  by apply text_eqb_eq in E.
Qed.

Lemma lstrip_nil_iff (s : text) : lstrip s = [] <-> forallb isspace s = true.
Proof.
  induction s as [|c s IH]; simpl; [done|].
  destruct (isspace c); simpl; [done|]. split; discriminate.
Qed.

Lemma forallb_rev {A} (p : A -> bool) (l : list A) :
  forallb p (rev l) = forallb p l.
Proof.
  induction l as [|x l IH]; simpl; [done|].
  rewrite forallb_app, IH. simpl. rewrite andb_true_r. apply andb_comm.
Qed.

Lemma lstrip_head (s : text) :
  lstrip s = [] \/ exists c r, lstrip s = c :: r /\ isspace c = false.
Proof.
  induction s as [|c s IH]; simpl; [by left|].
  destruct (isspace c) eqn:E; [done|]. right. eauto.
Qed.

(** A line is blank exactly when all its characters are white space. *)
Lemma blank_iff (s : text) : blank s = true <-> forallb isspace s = true.
Proof.
  unfold blank, strip, rstrip. rewrite <- lstrip_nil_iff.
  destruct (lstrip_head s) as [E|(c & r & E & Hc)].
  - rewrite E. simpl. done.
  - rewrite E. split; [|discriminate].
    destruct (rev (lstrip (rev (c :: r)))) eqn:E2; [|discriminate].
    intros _. apply (f_equal (@rev N)) in E2. rewrite rev_involutive in E2.
    change (rev []) with (@nil N) in E2.
    apply lstrip_nil_iff in E2. rewrite forallb_rev in E2.
    simpl in E2. rewrite Hc in E2. discriminate.
Qed.

(** ** The decoder refuses blank text *)

Lemma skip_ws_spaces (s : text) :
  forallb isspace s = true ->
  Json.skip_ws s = [] \/
  exists c r, Json.skip_ws s = c :: r /\ isspace c = true /\ Json.ws c = false.
Proof.
  induction s as [|c s IH]; simpl; [by left|].
  intros [Hc Hs]%andb_true_iff.
  destruct (Json.ws c) eqn:E; [by apply IH|]. right. eauto.
Qed.

Lemma scan_once_space (f : nat) (c : N) (r : text) :
  isspace c = true -> Json.ws c = false -> Json.scan_once (S f) (c :: r) = None.
Proof.
  unfold isspace, whitespace_table. simpl existsb. intros Hc Hw.
  repeat (apply orb_prop in Hc as [Hc|Hc];
          [apply N.eqb_eq in Hc; subst c; first [discriminate Hw | reflexivity]|]).
  discriminate.
Qed.

Lemma loads_blank (s : text) : blank s = true -> Json.loads s = Raise JSONDecodeError.
Proof.
  intros Hb%blank_iff. unfold Json.loads.
  assert (startswith [0xFEFF%N] s = false) as ->.
  { destruct s as [|c s]; [done|].
    change (forallb isspace (c :: s)) with (isspace c && forallb isspace s) in Hb.
    apply andb_true_iff in Hb as [Hc _].
    change (startswith [0xFEFF%N] (c :: s)) with ((0xFEFF =? c)%N && true).
    destruct (N.eqb_spec 0xFEFF c) as [<-|]; [discriminate Hc|done]. }
  replace (2 * length s + 2) with (S (2 * length s + 1)) by lia.
  destruct (skip_ws_spaces s Hb) as [->|(c & r & -> & Hc & Hw)]; [done|].
  by rewrite scan_once_space.
Qed.

Lemma union_seen (seen : gset (list N)) (i : list N) : i ∈ seen -> seen ∪ {[ i ]} = seen.
Proof.
  intros Hi. apply set_eq. intros x. rewrite elem_of_union, elem_of_singleton.
  split; [intros [?| ->]; done | by left].
Qed.


(** ** The bound on the depth of the scanners is never what makes them fail *)

Lemma skip_ws_length (s : text) : length (Json.skip_ws s) <= length s.
Proof.
  induction s as [|c s IH]; simpl; [done|]. destruct (Json.ws c); simpl; lia.
Qed.

Lemma startswith_length (p s : text) : startswith p s = true -> length p <= length s.
Proof.
  revert s. induction p as [|x p IH]; intros [|y s]; simpl; try done; [lia|].
  intros [_ Hs]%andb_true_iff. apply IH in Hs. lia.
Qed.

Lemma scanstring_length (s : text) :
  forall acc str r, Json.scanstring acc s = Some (str, r) -> length r < length s.
Proof.
  remember (length s) as n eqn:Hn. revert s Hn.
  induction n as [n IH] using lt_wf_ind. intros s -> acc str r.
  assert (forall s' acc' , length s' < length s ->
            Json.scanstring acc' s' = Some (str, r) -> length r < length s) as Hrec.
  { intros s' acc' Hlt Hs. eapply IH in Hs; [|exact Hlt|reflexivity]. lia. }
  destruct s as [|c s1]; [done|]. cbn [Json.scanstring].
  repeat case_match; subst; try done;
    first [ intros [= <- <-]; simpl; lia
          | intros Hs; apply Hrec in Hs; [exact Hs|simpl; lia] ].
Qed.

Lemma span_digits_length (s ds r : text) :
  Json.span_digits s = (ds, r) -> length r <= length s.
Proof.
  revert ds r. induction s as [|c s IH]; intros ds r; simpl.
  - intros [= <- <-]. done.
  - destruct (Json.is_digit c).
    + destruct (Json.span_digits s) as [ds' r']. intros [= <- <-].
      specialize (IH _ _ eq_refl). lia.
    + intros [= <- <-]. simpl. lia.
Qed.

Lemma match_int_length (s : text) neg ds r :
  Json.match_int s = Some (neg, ds, r) -> length r < length s.
Proof.
  unfold Json.match_int.
  destruct s as [|c s']; [done|].
  destruct (c =? chr "-")%N.
  - destruct s' as [|d s'']; [done|].
    destruct (in_range 49 57 d).
    + destruct (Json.span_digits s'') as [ds' r'] eqn:E. intros [= <- <- <-].
      apply span_digits_length in E. simpl. lia.
    + destruct (d =? 48)%N; [|done]. intros [= <- <- <-]. simpl. lia.
  - destruct (in_range 49 57 c).
    + destruct (Json.span_digits s') as [ds' r'] eqn:E. intros [= <- <- <-].
      apply span_digits_length in E. simpl. lia.
    + destruct (c =? 48)%N; [|done]. intros [= <- <- <-]. simpl. lia.
Qed.

Lemma match_frac_length (s f r : text) :
  Json.match_frac s = Some (f, r) -> length r < length s.
Proof.
  unfold Json.match_frac. destruct s as [|p [|d s']]; try done.
  destruct (_ && _); [|done].
  destruct (Json.span_digits s') as [ds' r'] eqn:E. intros [= <- <-].
  apply span_digits_length in E. simpl. lia.
Qed.

Lemma match_exp_length (s x r : text) :
  Json.match_exp s = Some (x, r) -> length r < length s.
Proof.
  unfold Json.match_exp. destruct s as [|e s1]; [done|].
  destruct (_ || _); [|done].
  destruct s1 as [|c s'].
  - simpl. done.
  - destruct ((c =? chr "-")%N || (c =? chr "+")%N).
    + destruct (Json.span_digits s') as [[|d ds] r'] eqn:E; [done|].
      intros [= <- <-]. apply span_digits_length in E. simpl. lia.
    + destruct (Json.span_digits (c :: s')) as [[|d ds] r'] eqn:E; [done|].
      intros [= <- <-]. apply span_digits_length in E. simpl in *. lia.
Qed.

Lemma match_number_length (s : text) v r :
  Json.match_number s = Some (v, r) -> length r < length s.
Proof.
  unfold Json.match_number.
  destruct (Json.match_int s) as [[[neg ds] s1]|] eqn:Ei; simpl; [|done].
  apply match_int_length in Ei.
  destruct (Json.match_frac s1) as [[f s2]|] eqn:Ef.
  - apply match_frac_length in Ef.
    destruct (Json.match_exp s2) as [[x s3]|] eqn:Ex.
    + apply match_exp_length in Ex. destruct f, x; intros [= <- <-]; lia.
    + destruct f; intros [= <- <-]; lia.
  - destruct (Json.match_exp s1) as [[x s3]|] eqn:Ex.
    + apply match_exp_length in Ex. destruct x; intros [= <- <-]; lia.
    + intros [= <- <-]; lia.
Qed.

Lemma literal_length (word : string) (v v' : json) (s r : text) :
  0 < length (py word) ->
  Json.literal word v s = Some (v', r) -> length r < length s.
Proof.
  intros Hw. unfold Json.literal.
  destruct (startswith (py word) s) eqn:E; [|done].
  apply startswith_length in E. intros [= <- <-]. rewrite length_drop. lia.
Qed.

(** Take again, with another bound, the branch that the hypotheses record. *)
Ltac same_branch :=
  let f := fresh "f" in
  let Hf := fresh "Hf" in
  intros f Hf; destruct f as [|f]; [cbn [length] in *; lia|];
  cbn [Json.scan_once Json.parse_members Json.parse_items];
  repeat first
    [ match goal with
      | H : ?t = _ |- context [?t] => rewrite H
      end
    | progress cbn [mbind option_bind] ].

(** A scanner that succeeds with some bound reads at least one character,
    and succeeds with the same result under every bound above twice the
    number of characters it read. *)
Lemma scanners_bound (F : nat) :
  (forall s v r,
     Json.scan_once F s = Some (v, r) ->
     length r < length s /\
     forall f, 2 * (length s - length r) <= f -> Json.scan_once f s = Some (v, r)) /\
  (forall acc s v r,
     Json.parse_members F acc s = Some (v, r) ->
     length r < length s /\
     forall f, 2 * (length s - length r) + 1 <= f ->
               Json.parse_members f acc s = Some (v, r)) /\
  (forall acc s v r,
     Json.parse_items F acc s = Some (v, r) ->
     length r < length s /\
     forall f, 2 * (length s - length r) + 1 <= f ->
               Json.parse_items f acc s = Some (v, r)).
Proof.
  induction F as [|F (IHs & IHm & IHi)]; [by repeat split|].
  split; [|split].
  - intros s v r. cbn [Json.scan_once]. destruct s as [|c rest]; [done|].
    destruct (c =? Json.quote)%N eqn:E1.
    { destruct (Json.scanstring [] rest) as [[str r']|] eqn:Es; cbn [mbind option_bind];
        [|done].
      intros [= <- <-]. apply scanstring_length in Es as Hl.
      split; [simpl; lia|]. same_branch. done. }
    destruct (c =? chr "{")%N eqn:E2.
    { pose proof (skip_ws_length rest) as Hws.
      destruct (Json.skip_ws rest) as [|c' r0] eqn:Ews; [done|].
      destruct (c' =? chr "}")%N eqn:E3.
      { intros [= <- <-]. cbn [length] in *. split; [lia|]. same_branch. done. }
      intros Hm. apply IHm in Hm as [Hl Hfuel]. cbn [length] in *. split; [lia|].
      same_branch. apply Hfuel. cbn [length] in *. lia. }
    destruct (c =? chr "[")%N eqn:E3.
    { pose proof (skip_ws_length rest) as Hws.
      destruct (Json.skip_ws rest) as [|c' r0] eqn:Ews; [done|].
      destruct (c' =? chr "]")%N eqn:E4.
      { intros [= <- <-]. cbn [length] in *. split; [lia|]. same_branch. done. }
      intros Hm. apply IHi in Hm as [Hl Hfuel]. cbn [length] in *. split; [lia|].
      same_branch. apply Hfuel. cbn [length] in *. lia. }
    destruct (startswith (py "null") (c :: rest)) eqn:L1.
    { intros Hl. apply literal_length in Hl as Hlen; [|vm_compute; lia].
      split; [done|]. same_branch. done. }
    destruct (startswith (py "true") (c :: rest)) eqn:L2.
    { intros Hl. apply literal_length in Hl as Hlen; [|vm_compute; lia].
      split; [done|]. same_branch. done. }
    destruct (startswith (py "false") (c :: rest)) eqn:L3.
    { intros Hl. apply literal_length in Hl as Hlen; [|vm_compute; lia].
      split; [done|]. same_branch. done. }
    destruct (startswith (py "NaN") (c :: rest)) eqn:L4.
    { intros Hl. apply literal_length in Hl as Hlen; [|vm_compute; lia].
      split; [done|]. same_branch. done. }
    destruct (startswith (py "Infinity") (c :: rest)) eqn:L5.
    { intros Hl. apply literal_length in Hl as Hlen; [|vm_compute; lia].
      split; [done|]. same_branch. done. }
    destruct (startswith (py "-Infinity") (c :: rest)) eqn:L6.
    { intros Hl. apply literal_length in Hl as Hlen; [|vm_compute; lia].
      split; [done|]. same_branch. done. }
    intros Hn. apply match_number_length in Hn as Hlen.
    split; [done|]. same_branch. done.
  - intros acc s v r. cbn [Json.parse_members]. destruct s as [|c rest]; [done|].
    destruct (c =? Json.quote)%N eqn:E1; [|done].
    destruct (Json.scanstring [] rest) as [[key r1]|] eqn:Es; cbn [mbind option_bind];
      [|done].
    apply scanstring_length in Es as Hl1.
    pose proof (skip_ws_length r1) as Hws1.
    destruct (Json.skip_ws r1) as [|c2 r2] eqn:Ews1; [done|].
    destruct (c2 =? chr ":")%N eqn:E2; [|done].
    pose proof (skip_ws_length r2) as Hws2.
    destruct (Json.scan_once F (Json.skip_ws r2)) as [[v0 r3]|] eqn:Ev;
      cbn [mbind option_bind]; [|done].
    apply IHs in Ev as [Hl3 Hfuel3].
    pose proof (skip_ws_length r3) as Hws3.
    destruct (Json.skip_ws r3) as [|c3 r4] eqn:Ews3; [done|].
    destruct (c3 =? chr "}")%N eqn:E3.
    { intros [= <- <-]. cbn [length] in *. split; [lia|].
      same_branch. rewrite Hfuel3 by (cbn [length] in *; lia). cbn [mbind option_bind].
      by rewrite Ews3, E3. }
    destruct (c3 =? chr ",")%N eqn:E4; [|done].
    pose proof (skip_ws_length r4) as Hws4.
    intros Hm. apply IHm in Hm as [Hl5 Hfuel5]. cbn [length] in *. split; [lia|].
    same_branch. rewrite Hfuel3 by (cbn [length] in *; lia). cbn [mbind option_bind].
    rewrite Ews3, E3, E4. apply Hfuel5. cbn [length] in *. lia.
  - intros acc s v r. cbn [Json.parse_items].
    destruct (Json.scan_once F s) as [[v0 r1]|] eqn:Ev; cbn [mbind option_bind]; [|done].
    apply IHs in Ev as [Hl1 Hfuel1].
    pose proof (skip_ws_length r1) as Hws1.
    destruct (Json.skip_ws r1) as [|c r'] eqn:Ews1; [done|].
    destruct (c =? chr "]")%N eqn:E1.
    { intros [= <- <-]. cbn [length] in *. split; [lia|].
      same_branch. rewrite Hfuel1 by (cbn [length] in *; lia). cbn [mbind option_bind].
      by rewrite Ews1, E1. }
    destruct (c =? chr ",")%N eqn:E2; [|done].
    pose proof (skip_ws_length r') as Hws2.
    intros Hi. apply IHi in Hi as [Hl3 Hfuel3]. cbn [length] in *. split; [lia|].
    same_branch. rewrite Hfuel1 by (cbn [length] in *; lia). cbn [mbind option_bind].
    rewrite Ews1, E1, E2. apply Hfuel3. cbn [length] in *. lia.
Qed.

(** The scanner of a whole text succeeds under some bound exactly when it
    does under the bound that [loads] gives it, and then with the same
    result: [loads] refuses a text only when the scanners would under every
    bound. *)
Lemma scan_once_any_bound (s : text) (F : nat) (v : json) (r : text) :
  Json.scan_once F (Json.skip_ws s) = Some (v, r) ->
  Json.scan_once (2 * length s + 2) (Json.skip_ws s) = Some (v, r).
Proof.
  intros Hs. destruct (scanners_bound F) as (Hb & _ & _).
  apply Hb in Hs as [Hl Hf]. apply Hf.
  pose proof (skip_ws_length s). lia.
Qed.

(** [loads] without its bound: it answers [v] exactly when the text does not
    start with a byte order mark and the scanners, under some bound, read [v]
    from it up to white space. *)
Lemma loads_ok_iff (s : text) (v : json) :
  Json.loads s = Ok v <->
  startswith [0xFEFF%N] s = false /\
  exists F rest, Json.scan_once F (Json.skip_ws s) = Some (v, rest) /\
                 Json.skip_ws rest = [].
Proof.
  unfold Json.loads. split.
  - destruct (startswith _ s); [done|].
    destruct (Json.scan_once _ _) as [[v' rest]|] eqn:E; [|done].
    destruct (Json.skip_ws rest) eqn:Er; [|done].
    intros [= <-]. split; [done|]. eauto.
  - intros (-> & F & rest & Hs & Hr).
    by rewrite (scan_once_any_bound s F v rest Hs), Hr.
Qed.

(* ===================================================================== *)
(** * The validator                                                        *)
(* ===================================================================== *)

Arguments check_field : simpl never.
Arguments validate_line : simpl never.
Arguments _validate_document : simpl never.
Arguments _collect_stats : simpl never.
Arguments py : simpl never.

Section ValidatorFacts.
Context `{UnicodeData}.

Lemma same_core_refl a : same_core a a.
Proof. done. Qed.

Lemma same_core_warning m a b : same_core a b -> same_core (add_warning m a) b.
Proof. done. Qed.

Lemma same_core_trans a b c : same_core a b -> same_core b c -> same_core a c.
Proof. unfold same_core. intros (-> & -> & ->) (-> & -> & ->). done. Qed.

Lemma check_field_core data n m self f m' self' :
  check_field data n (m, self) f = Ok (m', self') -> same_core self' self.
Proof.
  unfold check_field.
  destruct (py_contains data f) as [[]|]; simpl; [| |done].
  - destruct (py_getitem data f) as [v|]; simpl; [|done].
    destruct v; try (intros [= <- <-]; done).
    destruct (blank s); intros [= <- <-]; done.
  - intros [= <- <-]. done.
Qed.

Lemma check_fields_core data n fs m self m' self' :
  check_fields data n fs (m, self) = Ok (m', self') -> same_core self' self.
Proof.
  revert m self. induction fs as [|f fs IH]; simpl; intros m self.
  - intros [= <- <-]. done.
  - destruct (check_field data n (m, self) f) as [[m1 self1]|] eqn:E; simpl; [|done].
    intros E2. apply IH in E2. apply check_field_core in E.
    eapply same_core_trans; eauto.
Qed.

(** [_validate_document] changes no counter; it records one error exactly when
    it answers that the document is not valid. *)
Lemma validate_document_core self data n b self' :
  _validate_document self data n = Ok (b, self') ->
  stats self' = stats self /\
  length (errors self') = length (errors self) + (if b then 0 else 1).
Proof.
  unfold _validate_document.
  destruct (check_fields data n required_fields ([], self)) as [[m self1]|] eqn:E;
    simpl; [|done].
  apply check_fields_core in E. destruct E as (E1 & E2 & _).
  destruct m as [|f m].
  - destruct (py_getitem data (py "text")) as [t|]; simpl; [|done].
    destruct (py_len t) as [len|]; simpl; [|done].
    destruct (py_getitem data (py "id")) as [i|]; simpl; [|done].
    destruct i; try done.
    assert (forall v : DataValidator,
      same_core v self1 -> stats v = stats self /\ length (errors v) = length (errors self) + 0)
      as Hv.
    { intros v (-> & -> & _). rewrite E1, E2. split; [done|lia]. }
    destruct (id_pattern_matches s), (len <? 10), (max_text_length <? len);
      intros [= <- <-]; apply Hv; done.
  - intros [= <- <-]. simpl. split; [done|]. rewrite length_app, E1. simpl. lia.
Qed.

Lemma collect_stats_core self data self' :
  _collect_stats self data = Ok self' ->
  errors self' = errors self /\
  total_lines (stats self') = total_lines (stats self) /\
  valid_docs (stats self') = valid_docs (stats self) /\
  empty_lines (stats self') = empty_lines (stats self) /\
  json_errors (stats self') = json_errors (stats self) /\
  missing_fields (stats self') = missing_fields (stats self) /\
  duplicate_ids (stats self') = duplicate_ids (stats self).
Proof.
  unfold _collect_stats.
  destruct (py_getitem data (py "text")) as [t|]; simpl; [|done].
  destruct (py_len t) as [len|]; simpl; [|done].
  destruct (py_getitem data (py "id")) as [i|]; simpl; [|done].
  destruct (_extract_pattern i) as [ip|]; simpl; [|done].
  destruct (py_getitem data (py "source")) as [s|]; simpl; [|done].
  destruct (_extract_pattern s) as [sp|]; simpl; [|done].
  intros [= <-]. done.
Qed.

(** Every line that the loop gets past goes to exactly one bucket. *)
Lemma validate_line_partitioned n line self seen self' seen' :
  validate_line n line (self, seen) = Ok (self', seen') ->
  partitioned (stats self) -> partitioned (stats self').
Proof.
  unfold validate_line, partitioned.
  destruct (blank line).
  { intros [= <- <-]. simpl. lia. }
  destruct (Json.loads line) as [data|e].
  2:{ destruct e; try done. intros [= <- <-]. simpl. lia. }
  destruct (_validate_document (set_stats incr_total_lines self) data n)
    as [[b self1]|] eqn:E; simpl; [|done].
  apply validate_document_core in E. destruct E as [E _].
  destruct b.
  - destruct (py_getitem data (py "id")) as [i|]; simpl; [|done].
    destruct i; try done.
    destruct (decide (s ∈ seen)).
    + destruct (_collect_stats _ data) as [self2|] eqn:E2; simpl; [|done].
      apply collect_stats_core in E2.
      destruct E2 as (_ & E3 & E4 & E5 & E6 & E7 & _).
      intros [= <- <-]. rewrite E3, E4, E5, E6, E7. simpl. rewrite E. simpl. lia.
    + destruct (_collect_stats _ data) as [self2|] eqn:E2; simpl; [|done].
      apply collect_stats_core in E2.
      destruct E2 as (_ & E3 & E4 & E5 & E6 & E7 & _).
      intros [= <- <-]. rewrite E3, E4, E5, E6, E7. simpl. rewrite E. simpl. lia.
  - intros [= <- <-]. simpl. rewrite E. simpl. lia.
Qed.

Lemma validate_lines_partitioned lines n self seen self' seen' :
  validate_lines lines n (self, seen) = Ok (self', seen') ->
  partitioned (stats self) -> partitioned (stats self').
Proof.
  revert n self seen. induction lines as [|l lines IH]; simpl; intros n self seen.
  - intros [= <- <-]. done.
  - destruct (validate_line n l (self, seen)) as [[self1 seen1]|] eqn:E; simpl; [|done].
    intros E2 Hp. eapply IH; [exact E2|]. eapply validate_line_partitioned; eauto.
Qed.

End ValidatorFacts.

Section ValidatorKinds.
Context `{UnicodeData}.

Lemma check_field_obj d n m self f :
  check_field (JObj d) n (m, self) f =
  Ok (match dict_get f d with
      | None => (m ++ [f], self)
      | Some (JStr s) =>
          (m, if blank s then add_warning (FieldEmpty n f) self else self)
      | Some _ => (m, add_warning (FieldNotString n f) self)
      end).
Proof.
  unfold check_field, py_contains, py_getitem.
  destruct (dict_get f d) as [[]|]; simpl; try reflexivity.
  destruct (blank s); reflexivity.
Qed.

Lemma same_core_if (b : bool) m self : same_core (if b then add_warning m self else self) self.
Proof. destruct b; done. Qed.

Lemma check_field_present d n m self f v :
  dict_get f d = Some v ->
  exists self1, check_field (JObj d) n (m, self) f = Ok (m, self1) /\ same_core self1 self.
Proof.
  intros Hv. rewrite check_field_obj, Hv.
  destruct v; try (eexists; split; [reflexivity|done]).
  eexists; split; [reflexivity|apply same_core_if].
Qed.

(** On an array or a string a field that is found makes the next step raise,
    and a field that is not found is listed as missing. *)
Lemma check_field_flat data n m self f :
  (exists l, data = JArr l) \/ (exists s, data = JStr s) ->
  check_field data n (m, self) f =
  if has_field data f then Raise TypeError else Ok (m ++ [f], self).
Proof.
  intros [[l ->]|[s ->]]; unfold check_field, has_field; simpl;
    match goal with |- context [if negb ?b then _ else _] => destruct b end; done.
Qed.

(** What [_validate_document] answers for an object that has the three
    fields: it raises unless the text has a length and the id is a string. *)
Lemma validate_document_present self d n i t s :
  dict_get (py "id") d = Some i ->
  dict_get (py "text") d = Some t ->
  dict_get (py "source") d = Some s ->
  match py_len t, i with
  | Ok _, JStr _ =>
      exists self', _validate_document self (JObj d) n = Ok (true, self') /\
                    same_core self' self
  | Ok _, _ => _validate_document self (JObj d) n = Raise TypeError
  | Raise e, _ => _validate_document self (JObj d) n = Raise e
  end.
Proof.
  intros Hi Ht Hs. unfold _validate_document, required_fields. simpl check_fields.
  destruct (check_field_present d n [] self _ _ Hi) as (self1 & -> & C1). simpl.
  destruct (check_field_present d n [] self1 _ _ Ht) as (self2 & -> & C2). simpl.
  destruct (check_field_present d n [] self2 _ _ Hs) as (self3 & -> & C3). simpl.
  assert (same_core self3 self) as C.
  { eapply same_core_trans; [exact C3|]. eapply same_core_trans; eauto. }
  rewrite Ht. simpl. destruct (py_len t) as [len|e]; simpl; [|done].
  rewrite Hi. simpl. destruct i; try done.
  destruct (id_pattern_matches s0), (len <? 10), (max_text_length <? len);
    eexists; (split; [reflexivity|]); done.
Qed.

(** A document passes [_validate_document] with at most new warnings. *)
Lemma validate_document_doc self d n i t len s :
  dict_get (py "id") d = Some (JStr i) ->
  dict_get (py "text") d = Some t -> py_len t = Ok len ->
  dict_get (py "source") d = Some (JStr s) ->
  exists self', _validate_document self (JObj d) n = Ok (true, self') /\ same_core self' self.
Proof.
  intros Hi Ht Hl Hs.
  pose proof (validate_document_present self d n _ _ _ Hi Ht Hs) as Hp.
  by rewrite Hl in Hp.
Qed.

(** An object that lacks a required field is answered as not valid. *)
Lemma validate_document_missing self d n :
  (dict_get (py "id") d = None \/ dict_get (py "text") d = None \/
   dict_get (py "source") d = None) ->
  exists self', _validate_document self (JObj d) n = Ok (false, self').
Proof.
  intros Hm. unfold _validate_document, required_fields.
  simpl check_fields. rewrite check_field_obj.
  destruct (dict_get (py "id") d) as [[]|] eqn:Hi; simpl; rewrite check_field_obj;
    destruct (dict_get (py "text") d) as [[]|] eqn:Ht; simpl; rewrite check_field_obj;
    destruct (dict_get (py "source") d) as [[]|] eqn:Hs; simpl;
    first [ by eexists | by destruct Hm as [?|[?|?]] ].
Qed.

(** An array or a string: not valid when none of the names is found in it,
    and a raise otherwise. *)
Lemma validate_document_flat self data n :
  (exists l, data = JArr l) \/ (exists s, data = JStr s) ->
  if existsb (has_field data) required_fields
  then _validate_document self data n = Raise TypeError
  else exists self', _validate_document self data n = Ok (false, self').
Proof.
  intros Hd. unfold _validate_document, required_fields. simpl check_fields. simpl existsb.
  rewrite (check_field_flat _ _ _ _ _ Hd).
  destruct (has_field data (py "id")); simpl; [done|].
  rewrite (check_field_flat _ _ _ _ _ Hd).
  destruct (has_field data (py "text")); simpl; [done|].
  rewrite (check_field_flat _ _ _ _ _ Hd).
  destruct (has_field data (py "source")); simpl; [done|].
  by eexists.
Qed.

Lemma collect_stats_doc self d i t len s :
  dict_get (py "id") d = Some (JStr i) ->
  dict_get (py "text") d = Some t -> py_len t = Ok len ->
  dict_get (py "source") d = Some (JStr s) ->
  exists self', _collect_stats self (JObj d) = Ok self'.
Proof.
  intros Hi Ht Hl Hs. unfold _collect_stats, py_getitem.
  rewrite Ht. simpl. rewrite Hl. simpl. rewrite Hi. simpl. rewrite Hs. simpl.
  by eexists.
Qed.

Lemma data_kind_doc data i :
  data_kind data = Some (Doc i) ->
  exists d t len s,
    data = JObj d /\ dict_get (py "id") d = Some (JStr i) /\
    dict_get (py "text") d = Some t /\ py_len t = Ok len /\
    dict_get (py "source") d = Some (JStr s).
Proof.
  unfold data_kind. destruct data; try done.
  - destruct (existsb _ _); done.
  - destruct (existsb _ _); done.
  - destruct (dict_get (py "id") members) as [[]|] eqn:Hi; try done;
      destruct (dict_get (py "text") members) as [t|] eqn:Ht; try done;
      destruct (dict_get (py "source") members) as [[]|] eqn:Hs; try done.
    destruct (py_len t) as [len|] eqn:E; [|done].
    intros [= ->]. exists members, t, len, s0. done.
Qed.

Lemma data_kind_missing data self n :
  data_kind data = Some MissingField ->
  exists self', _validate_document self data n = Ok (false, self').
Proof.
  unfold data_kind. destruct data; try done.
  - intros Hk. pose proof (validate_document_flat self (JStr s) n) as Hf.
    destruct (existsb _ _); [done|]. apply Hf. right. by eexists.
  - intros Hk. pose proof (validate_document_flat self (JArr items) n) as Hf.
    destruct (existsb _ _); [done|]. apply Hf. left. by eexists.
  - intros Hk. apply validate_document_missing.
    destruct (dict_get (py "id") members) as [[]|]; eauto;
      destruct (dict_get (py "text") members) as [t|]; eauto;
      destruct (dict_get (py "source") members) as [[]|]; eauto;
      try done; destruct (is_ok (py_len t)); done.
Qed.

Lemma data_kind_not_other data k : data_kind data = Some k -> k = MissingField \/ is_doc k = true.
Proof.
  unfold data_kind. destruct data; try done.
  - destruct (existsb _ _); [done|]. intros [= <-]. by left.
  - destruct (existsb _ _); [done|]. intros [= <-]. by left.
  - destruct (dict_get (py "id") members) as [[]|];
      destruct (dict_get (py "text") members) as [t|];
      destruct (dict_get (py "source") members) as [[]|];
      try destruct (is_ok (py_len t)); intros [= <-]; auto.
Qed.

Lemma classify_data line k :
  blank line = false -> (k = MissingField \/ is_doc k = true) ->
  classify line = Some k ->
  exists data, Json.loads line = Ok data /\ data_kind data = Some k.
Proof.
  unfold classify. intros -> Hk. destruct (Json.loads line) as [data|[]]; try done.
  - eauto.
  - intros [= <-]. by destruct Hk.
Qed.

Lemma classify_not_blank line k :
  classify line = Some k -> k <> Blank -> blank line = false.
Proof.
  unfold classify. destruct (blank line); [|done]. by intros [= <-].
Qed.

Lemma classify_malformed line :
  classify line = Some Malformed -> malformed_line line.
Proof.
  unfold classify, malformed_line. destruct (blank line); [done|].
  destruct (Json.loads line) as [data|[]] eqn:E; try done.
  intros Hk. by destruct (data_kind_not_other _ _ Hk).
Qed.

Lemma classify_blank line : classify line = Some Blank -> blank line = true.
Proof.
  unfold classify. destruct (blank line); [done|].
  destruct (Json.loads line) as [data|[]]; try done.
  intros Hk. by destruct (data_kind_not_other _ _ Hk).
Qed.

(** What one line of a known kind does to the validator. *)
Lemma validate_line_kind n line k self seen :
  classify line = Some k ->
  exists self',
    validate_line n line (self, seen) = Ok (self', seen_after k seen) /\
    advanced self self' seen [k].
Proof.
  intros Hk. unfold validate_line, advanced, count_kind. destruct k.
  - apply classify_blank in Hk. rewrite Hk.
    eexists; split; [reflexivity|]. simpl. lia.
  - apply classify_malformed in Hk as [Hb Hl]. rewrite Hb, Hl.
    eexists; split; [reflexivity|]. simpl. rewrite length_app. simpl. lia.
  - pose proof (classify_not_blank _ _ Hk ltac:(done)) as Hb.
    apply classify_data in Hk as (data & Hl & Hd); [|done|by left].
    rewrite Hb, Hl.
    destruct (data_kind_missing data (set_stats incr_total_lines self) n Hd) as [self1 E].
    rewrite E. simpl. apply validate_document_core in E as [E1 E2].
    eexists; split; [reflexivity|]. simpl in *. rewrite E1, E2. simpl. lia.
  - pose proof (classify_not_blank _ _ Hk ltac:(done)) as Hb.
    apply classify_data in Hk as (data & Hl & Hd); [|done|by right].
    apply data_kind_doc in Hd as (d & t & len & s & -> & Hi & Ht & Hlen & Hs).
    rewrite Hb, Hl.
    destruct (validate_document_doc (set_stats incr_total_lines self) d n _ _ _ _
                Hi Ht Hlen Hs) as (self1 & E & C1 & C2 & _).
    rewrite E. simpl. rewrite Hi. simpl.
    destruct (decide (doc_id ∈ seen)) as [Hin|Hin].
    + destruct (collect_stats_doc
                  (add_error (DuplicateId n doc_id)
                     (set_stats incr_duplicate_ids (set_stats incr_valid_docs self1)))
                  d _ _ _ _ Hi Ht Hlen Hs) as [self2 E2].
      rewrite E2. simpl.
      rewrite (union_seen seen doc_id) by done.
      eexists; split; [reflexivity|].
      apply collect_stats_core in E2 as (-> & -> & -> & -> & -> & -> & ->).
      simpl. rewrite length_app, C1, C2. simpl. lia.
    + destruct (collect_stats_doc (set_stats incr_valid_docs self1)
                  d _ _ _ _ Hi Ht Hlen Hs) as [self2 E2].
      rewrite E2. simpl.
      eexists; split; [reflexivity|].
      apply collect_stats_core in E2 as (-> & -> & -> & -> & -> & -> & ->).
      simpl. rewrite C1, C2. simpl. lia.
Qed.

(** The other way round: a line over which the loop does not raise has a
    kind. *)
Lemma validate_line_has_kind n line st st' :
  validate_line n line st = Ok st' -> is_Some (classify line).
Proof.
  destruct st as [self seen]. unfold validate_line, classify.
  destruct (blank line); [by eexists|].
  destruct (Json.loads line) as [data|[]]; try done.
  set (self0 := set_stats incr_total_lines self).
  destruct data.
  - unfold _validate_document, required_fields. simpl. unfold check_field. simpl. done.
  - unfold _validate_document, required_fields. simpl. unfold check_field. simpl. done.
  - unfold _validate_document, required_fields. simpl. unfold check_field. simpl. done.
  - unfold _validate_document, required_fields. simpl. unfold check_field. simpl. done.
  - pose proof (validate_document_flat self0 (JStr s) n) as Hf. unfold data_kind.
    destruct (existsb _ _); [|by eexists].
    rewrite Hf by (right; by eexists). done.
  - pose proof (validate_document_flat self0 (JArr items) n) as Hf. unfold data_kind.
    destruct (existsb _ _); [|by eexists].
    rewrite Hf by (left; by eexists). done.
  - unfold data_kind.
    destruct (dict_get (py "id") members) as [i|] eqn:Hi; [|by eexists].
    destruct (dict_get (py "text") members) as [t|] eqn:Ht; [|by destruct i; eexists].
    destruct (dict_get (py "source") members) as [s|] eqn:Hs; [|by destruct i; eexists].
    pose proof (validate_document_present self0 members n _ _ _ Hi Ht Hs) as Hp.
    destruct (py_len t) as [len|e] eqn:Hlen.
    2:{ rewrite Hp. done. }
    destruct i; try (rewrite Hp; done).
    destruct Hp as (self1 & -> & _). simpl. rewrite Hi. simpl.
    destruct s; try by eexists.
    all: destruct (decide (s0 ∈ seen)); unfold _collect_stats, py_getitem;
      rewrite Ht; simpl; rewrite Hlen; simpl; rewrite Hi; simpl; rewrite Hs; simpl; done.
Qed.

Lemma validate_lines_have_kinds lines n st st' :
  validate_lines lines n st = Ok st' -> Forall (fun l => is_Some (classify l)) lines.
Proof.
  revert n st. induction lines as [|l lines IH]; intros n st; simpl; [by constructor|].
  destruct (validate_line n l st) as [st1|] eqn:E; simpl; [|done].
  intros E2. constructor; [by eapply validate_line_has_kind|by eapply IH].
Qed.

Lemma repeats_cons k ks seen :
  repeats seen (doc_ids (k :: ks)) =
  repeats seen (doc_ids [k]) + repeats (seen_after k seen) (doc_ids ks).
Proof.
  destruct k; simpl; try done.
  destruct (decide (doc_id ∈ seen)); simpl; [|done].
  by rewrite (union_seen seen doc_id).
Qed.

Lemma advanced_cons self self1 self' seen k ks :
  advanced self self1 seen [k] ->
  advanced self1 self' (seen_after k seen) ks ->
  advanced self self' seen (k :: ks).
Proof.
  unfold advanced, count_kind.
  intros (A1 & A2 & A3 & A4 & A5 & A6 & A7) (-> & -> & -> & -> & -> & -> & ->).
  rewrite (repeats_cons k ks), A1, A2, A3, A4, A5, A6, A7.
  destruct k; simpl; lia.
Qed.

(** The loop over lines of known kinds ends, and adds what the kinds say. *)
Lemma validate_lines_kinds lines kinds :
  Forall2 (fun l k => classify l = Some k) lines kinds ->
  forall n self seen,
    exists self' seen',
      validate_lines lines n (self, seen) = Ok (self', seen') /\
      advanced self self' seen kinds.
Proof.
  induction 1 as [|l k lines kinds Hk _ IH]; intros n self seen.
  - exists self, seen. split; [done|]. unfold advanced, count_kind. simpl. lia.
  - destruct (validate_line_kind n l k self seen Hk) as (self1 & E & A).
    simpl. rewrite E. simpl.
    destruct (IH (S n) self1 (seen_after k seen)) as (self' & seen' & E' & A').
    exists self', seen'. split; [done|]. by eapply advanced_cons.
Qed.

End ValidatorKinds.

(** ** Counting over kinds *)

Lemma count_kind_app p (a b : list line_kind) :
  count_kind p (a ++ b) = count_kind p a + count_kind p b.
Proof. unfold count_kind. by rewrite List.filter_app, length_app. Qed.

Lemma count_kind_cons p k (ks : list line_kind) :
  count_kind p (k :: ks) = (if p k then 1 else 0) + count_kind p ks.
Proof. unfold count_kind. simpl. by destruct (p k). Qed.

Lemma count_docs_is_doc (ids : list (list N)) :
  count_kind is_doc (map Doc ids) = length ids.
Proof. induction ids as [|i ids IH]; simpl; [done|]. unfold count_kind in *. simpl. lia. Qed.

Lemma count_docs_other p (ids : list (list N)) :
  (forall i, p (Doc i) = false) -> count_kind p (map Doc ids) = 0.
Proof.
  intros Hp. induction ids as [|i ids IH]; [done|].
  unfold count_kind in *. simpl. by rewrite Hp.
Qed.

Lemma doc_ids_app (a b : list line_kind) : doc_ids (a ++ b) = doc_ids a ++ doc_ids b.
Proof.
  induction a as [|k a IH]; simpl; [done|]. destruct k; simpl; by rewrite ?IH.
Qed.

Lemma doc_ids_docs (ids : list (list N)) : doc_ids (map Doc ids) = ids.
Proof. induction ids as [|i ids IH]; simpl; [done|]. by rewrite IH. Qed.

Lemma repeats_app (seen : gset (list N)) (a b : list (list N)) :
  repeats seen (a ++ b) = repeats seen a + repeats (seen ∪ list_to_set a) b.
Proof.
  revert seen. induction a as [|i a IH]; intros seen; simpl.
  - by rewrite (right_id_L ∅ (∪)).
  - destruct (decide (i ∈ seen)) as [Hi|Hi].
    + rewrite IH. rewrite (assoc_L (∪)), (union_seen seen i Hi). done.
    + rewrite IH. by rewrite (assoc_L (∪)).
Qed.

Lemma repeats_fresh (seen : gset (list N)) (ids : list (list N)) :
  NoDup ids -> (forall i, i ∈ ids -> i ∉ seen) -> repeats seen ids = 0.
Proof.
  intros Hnd. revert seen. induction Hnd as [|i ids Hi Hnd IH]; intros seen Hs; simpl.
  - done.
  - destruct (decide (i ∈ seen)) as [Hin|Hin].
    + exfalso. apply (Hs i); [left|done].
    + apply IH. intros j Hj. rewrite elem_of_union, elem_of_singleton.
      intros [Hj'| ->]; [|done]. apply (Hs j); [by right|done].
Qed.

(** Two occurrences of one id among otherwise distinct ids: one repeat. *)
Lemma repeats_pair (x : list N) (a b c : list (list N)) :
  NoDup (x :: a ++ b ++ c) -> repeats ∅ (a ++ x :: b ++ x :: c) = 1.
Proof.
  intros Hnd. apply NoDup_cons in Hnd as [Hx Hnd].
  apply NoDup_app in Hnd as (Ha & Hab & Hbc).
  apply NoDup_app in Hbc as (Hb & Hbc & Hc).
  rewrite !not_elem_of_app in Hx. destruct Hx as (Hxa & Hxb & Hxc).
  assert (forall j, j ∈ a -> j ∉ b) as Hab1.
  { intros j Hj Hj'. apply (Hab j Hj). apply elem_of_app. by left. }
  assert (forall j, j ∈ a -> j ∉ c) as Hab2.
  { intros j Hj Hj'. apply (Hab j Hj). apply elem_of_app. by right. }
  rewrite repeats_app, (repeats_fresh ∅ a Ha).
  2:{ intros j _. apply not_elem_of_empty. }
  simpl. rewrite decide_False.
  2:{ rewrite elem_of_union, elem_of_list_to_set. intros [Hin|Hin]; [|done].
      by apply not_elem_of_empty in Hin. }
  rewrite repeats_app, (repeats_fresh _ b Hb).
  2:{ intros j Hj. rewrite !elem_of_union, elem_of_list_to_set, elem_of_singleton.
      intros [[Hin|Hin]| ->]; [by apply not_elem_of_empty in Hin| |done].
      by apply (Hab1 j). }
  simpl. rewrite decide_True.
  2:{ rewrite !elem_of_union, elem_of_singleton. left. by right. }
  rewrite (repeats_fresh _ c Hc); [done|].
  intros j Hj. rewrite !elem_of_union, !elem_of_list_to_set, elem_of_singleton.
  intros [[[Hin|Hin]| ->]|Hin]; [by apply not_elem_of_empty in Hin| |done|].
  - by apply (Hab2 j).
  - by apply (Hbc j).
Qed.

(** ** Runs of the validator *)

Section ValidatorRuns.
Context `{UnicodeData}.

Lemma well_formed_classify line i : well_formed_line line i -> classify line = Some (Doc i).
Proof.
  unfold well_formed_line, record_id, classify. intros Hr.
  destruct (blank line) eqn:Hb.
  { apply loads_blank in Hb. by rewrite Hb in Hr. }
  destruct (Json.loads line) as [[]|]; try done. unfold data_kind.
  destruct (dict_get (py "id") members) as [[]|]; try done;
    destruct (dict_get (py "text") members) as [[]|]; try done;
    destruct (dict_get (py "source") members) as [[]|]; try done.
  simpl. congruence.
Qed.

Lemma malformed_classify line : malformed_line line -> classify line = Some Malformed.
Proof. unfold classify. intros [-> ->]. done. Qed.

Lemma well_formed_kinds lines ids :
  Forall2 well_formed_line lines ids ->
  Forall2 (fun l k => classify l = Some k) lines (map Doc ids).
Proof.
  induction 1; simpl; constructor; auto using well_formed_classify.
Qed.

(** The run on a file all of whose lines have a kind. *)
Lemma validate_kinds (fs : gmap (list N) (list N)) path content kinds :
  fs !! path = Some content ->
  Forall2 (fun l k => classify l = Some k) (file_lines content) kinds ->
  exists self',
    validate fs (DataValidator_init path) = Ok (_generate_report self') /\
    advanced (DataValidator_init path) self' ∅ kinds.
Proof.
  intros Hf Hk. unfold validate, path_exists, open_lines. simpl. rewrite Hf. simpl.
  destruct (validate_lines_kinds _ _ Hk 1 (DataValidator_init path) ∅)
    as (self' & seen' & E & A).
  rewrite E. simpl. eauto.
Qed.

Lemma kinds_exist lines :
  Forall (fun l => is_Some (classify l)) lines ->
  exists kinds, Forall2 (fun l k => classify l = Some k) lines kinds.
Proof.
  induction 1 as [|l ls [k Hl] _ [ks IH]]; [by exists []|].
  exists (k :: ks). by constructor.
Qed.

(** The validator returns a report for a file exactly when every line of the
    file has a kind. *)
Lemma validate_returns_iff (fs : gmap (list N) (list N)) path content :
  fs !! path = Some content ->
  (exists r, validate fs (DataValidator_init path) = Ok r) <->
  Forall (fun l => is_Some (classify l)) (file_lines content).
Proof.
  intros Hf. split.
  - intros [r Hr]. revert Hr. unfold validate, path_exists, open_lines. simpl.
    rewrite Hf. simpl.
    destruct (validate_lines (file_lines content) 1 (DataValidator_init path, ∅))
      as [st|] eqn:E; simpl; [|done].
    intros _. by eapply validate_lines_have_kinds.
  - intros Hall. destruct (kinds_exist _ Hall) as [kinds Hk].
    destruct (validate_kinds fs path content kinds Hf Hk) as (self' & E & _).
    eauto.
Qed.

Lemma report_failed self : errors self <> [] -> validation_passed (_generate_report self) = false.
Proof. simpl. by destruct (errors self). Qed.

End ValidatorRuns.

(** C1, as the code has it.  On a file of well-formed lines (objects with
    string fields id, text and source, all ids distinct) and exactly one
    malformed line among them, the validator returns a report with
    [json_errors] 1 and [valid_docs] the number of well-formed lines (9 for
    nine of them), and with [validation_passed] false: the parse error is in
    the list of errors, and the flag is true only when that list is empty. *)
Theorem validator_one_malformed_line `{UnicodeData}
    (fs : gmap (list N) (list N)) (path content : list N)
    (pre post : list (list N)) (bad : list N) (ids_pre ids_post : list (list N)) :
  fs !! path = Some content ->
  file_lines content = pre ++ bad :: post ->
  malformed_line bad ->
  Forall2 well_formed_line pre ids_pre ->
  Forall2 well_formed_line post ids_post ->
  NoDup (ids_pre ++ ids_post) ->
  exists r,
    validate fs (DataValidator_init path) = Ok r /\
    json_errors (report_stats r) = 1 /\
    valid_docs (report_stats r) = length pre + length post /\
    validation_passed r = false.
Proof.
  intros Hf Hl Hbad Hpre Hpost Hnd.
  set (kinds := map Doc ids_pre ++ Malformed :: map Doc ids_post).
  assert (Forall2 (fun l k => classify l = Some k) (file_lines content) kinds) as Hk.
  { rewrite Hl. apply Forall2_app; [by apply well_formed_kinds|].
    constructor; [by apply malformed_classify|by apply well_formed_kinds]. }
  destruct (validate_kinds fs path content kinds Hf Hk) as (self' & E & A).
  destruct A as (_ & _ & A3 & A4 & A5 & _ & A7).
  assert (repeats ∅ (doc_ids kinds) = 0) as Hrep.
  { subst kinds. rewrite doc_ids_app. simpl. rewrite !doc_ids_docs.
    apply repeats_fresh; [done|]. intros i _. apply not_elem_of_empty. }
  assert (count_kind is_malformed kinds = 1) as Hm.
  { subst kinds. rewrite count_kind_app, count_kind_cons.
    by rewrite !count_docs_other. }
  assert (count_kind is_doc kinds = length pre + length post) as Hd.
  { subst kinds. rewrite count_kind_app, count_kind_cons.
    rewrite !count_docs_is_doc.
    rewrite (Forall2_length _ _ _ Hpre), (Forall2_length _ _ _ Hpost).
    simpl. lia. }
  eexists. split; [exact E|]. simpl in *.
  rewrite A3, A5, Hm, Hd. split; [done|]. split; [done|].
  destruct (errors self'); [|done]. simpl in A7. lia.
Qed.

(** C1 at the sample file: nine well-formed lines and one malformed line. *)
Lemma validator_one_malformed_line_witness :
  exists r,
    validate {[ data_path := nine_and_one ]} (DataValidator_init data_path) = Ok r /\
    json_errors (report_stats r) = 1 /\
    valid_docs (report_stats r) = 3 + 6 /\
    validation_passed r = false.
Proof.
  apply (validator_one_malformed_line {[ data_path := nine_and_one ]} data_path nine_and_one
           [good_line "1"; good_line "2"; good_line "3"]
           [good_line "4"; good_line "5"; good_line "6"; good_line "7";
            good_line "8"; good_line "9"]
           bad_line
           [py "doc_000001"; py "doc_000002"; py "doc_000003"]
           [py "doc_000004"; py "doc_000005"; py "doc_000006"; py "doc_000007";
            py "doc_000008"; py "doc_000009"]).
  - vm_compute. reflexivity.
  - vm_compute. reflexivity.
  - split; vm_compute; reflexivity.
  - repeat constructor; vm_compute; reflexivity.
  - repeat constructor; vm_compute; reflexivity.
  - apply (bool_decide_unpack _). vm_compute. exact I.
Defined.

(** C1 as stated fails: on nine well-formed lines and one malformed line the
    counters are as claimed, but the pass flag is false. *)
Lemma validator_pass_flag_counterexample :
  exists r,
    validate {[ data_path := nine_and_one ]} (DataValidator_init data_path) = Ok r /\
    json_errors (report_stats r) = 1 /\
    valid_docs (report_stats r) = 9 /\
    validation_passed r <> true.
Proof.
  eexists. split; [vm_compute; reflexivity|]. vm_compute. repeat split. discriminate.
Qed.

(** C8.  On a file every line of which has a kind (blank, malformed, lacking
    a required field, or a document; the files for which the validator
    returns a report), where exactly two documents share an id and the ids
    are otherwise distinct, the report has [duplicate_ids] 1. *)
Theorem validator_duplicate_id `{UnicodeData}
    (fs : gmap (list N) (list N)) (path content : list N)
    (kinds : list line_kind) (x : list N) (a b c : list (list N)) :
  fs !! path = Some content ->
  Forall2 (fun l k => classify l = Some k) (file_lines content) kinds ->
  doc_ids kinds = a ++ x :: b ++ x :: c ->
  NoDup (x :: a ++ b ++ c) ->
  exists r,
    validate fs (DataValidator_init path) = Ok r /\
    duplicate_ids (report_stats r) = 1.
Proof.
  intros Hf Hk Hids Hnd.
  destruct (validate_kinds fs path content kinds Hf Hk) as (self' & E & A).
  destruct A as (_ & _ & _ & _ & _ & A6 & _).
  eexists. split; [exact E|]. simpl in *.
  by rewrite A6, Hids, repeats_pair.
Qed.

(** C8 at a sample file with two documents of id doc_000001. *)
Lemma validator_duplicate_id_witness :
  exists r,
    validate {[ data_path := with_duplicate ]} (DataValidator_init data_path) = Ok r /\
    duplicate_ids (report_stats r) = 1.
Proof.
  apply (validator_duplicate_id {[ data_path := with_duplicate ]} data_path with_duplicate
           [Doc (py "doc_000001"); Blank; Doc (py "doc_000002"); Malformed;
            Doc (py "doc_000001"); MissingField; Doc (py "doc_000003")]
           (py "doc_000001") [] [py "doc_000002"] [py "doc_000003"]).
  - vm_compute. reflexivity.
  - repeat constructor; vm_compute; reflexivity.
  - reflexivity.
  - apply (bool_decide_unpack _). vm_compute. exact I.
Defined.

(** C10.  Every report that the validator returns for an existing file
    counts every line of the file in exactly one of the four buckets: each
    line has one kind (blank, malformed, lacking a required field, or a
    document), [total_lines] is the number of lines, each of [empty_lines],
    [json_errors], [missing_fields] and [valid_docs] is the number of lines
    of its kind, and so
    [total_lines = empty_lines + json_errors + missing_fields + valid_docs].
    The validator returns a report exactly when every line of the file has
    a kind. *)
Theorem validator_counters_partition `{UnicodeData}
    (fs : gmap (list N) (list N)) (path content : list N) :
  fs !! path = Some content ->
  (forall r,
     validate fs (DataValidator_init path) = Ok r ->
     partitioned (report_stats r) /\
     total_lines (report_stats r) = length (file_lines content) /\
     exists kinds,
       Forall2 (fun l k => classify l = Some k) (file_lines content) kinds /\
       empty_lines (report_stats r) = count_kind is_blank kinds /\
       json_errors (report_stats r) = count_kind is_malformed kinds /\
       missing_fields (report_stats r) = count_kind is_missing kinds /\
       valid_docs (report_stats r) = count_kind is_doc kinds) /\
  ((exists r, validate fs (DataValidator_init path) = Ok r) <->
   Forall (fun l => is_Some (classify l)) (file_lines content)).
Proof.
  intros Hf. split; [|by apply validate_returns_iff].
  intros r Hr.
  assert (Forall (fun l => is_Some (classify l)) (file_lines content)) as Hall.
  { apply (validate_returns_iff fs path content Hf). eauto. }
  destruct (kinds_exist _ Hall) as [kinds Hk].
  destruct (validate_kinds fs path content kinds Hf Hk) as (self' & E & A).
  rewrite E in Hr. injection Hr as <-.
  destruct A as (A1 & A2 & A3 & A4 & A5 & _). simpl in *.
  assert (length kinds
          = count_kind is_blank kinds + count_kind is_malformed kinds
            + count_kind is_missing kinds + count_kind is_doc kinds) as Hsum.
  { clear. induction kinds as [|k ks IH]; [done|].
    rewrite !count_kind_cons. simpl. destruct k; simpl; lia. }
  split; [unfold partitioned; lia|].
  split; [by rewrite A1, (Forall2_length _ _ _ Hk)|].
  exists kinds. done.
Qed.

(** C10 at a sample file: seven lines, of which one is blank, one malformed,
    one lacks a field and four are documents. *)
Lemma validator_counters_partition_witness :
  exists r,
    validate {[ data_path := with_duplicate ]} (DataValidator_init data_path) = Ok r /\
    partitioned (report_stats r) /\
    total_lines (report_stats r) = 7 /\
    empty_lines (report_stats r) = 1 /\
    json_errors (report_stats r) = 1 /\
    missing_fields (report_stats r) = 1 /\
    valid_docs (report_stats r) = 4.
Proof.
  eexists. split; [vm_compute; reflexivity|].
  match goal with |- partitioned (report_stats ?r) /\ _ =>
    destruct (validator_counters_partition {[ data_path := with_duplicate ]} data_path
                with_duplicate) as [Hrep _]; [vm_compute; reflexivity|];
    destruct (Hrep r) as (Hp & _); [vm_compute; reflexivity|]
  end.
  split; [exact Hp|]. repeat split.
Defined.

(* ===================================================================== *)
(** * The chunk loader                                                     *)
(* ===================================================================== *)

Lemma loads_raises (s : text) (e : exn) : Json.loads s = Raise e -> e = JSONDecodeError.
Proof.
  unfold Json.loads. destruct (startswith _ s); [congruence|].
  destruct (Json.scan_once _ _) as [[v rest]|]; [|congruence].
  destruct (Json.skip_ws rest); congruence.
Qed.

Lemma malformedb_iff (line : text) : malformedb line = true <-> malformed_line line.
Proof.
  unfold malformedb, malformed_line. rewrite andb_true_iff, negb_true_iff.
  split; intros [Hb Hl]; split; try done.
  - destruct (Json.loads line) as [|e] eqn:E; [done|].
    by rewrite (loads_raises _ _ E).
  - by rewrite Hl.
Qed.

(** One malformed line is enough for the loop of the loader to raise. *)
Lemma parse_chunks_malformed (lines : list (list N)) :
  Exists malformed_line lines -> parse_chunks lines = Raise JSONDecodeError.
Proof.
  induction lines as [|l lines IH]; intros Hex.
  - by apply Exists_nil in Hex.
  - simpl. apply Exists_cons in Hex.
    destruct (blank l) eqn:Hb.
    { destruct Hex as [[Hb' _]|Hex]; [congruence|by apply IH]. }
    destruct (Json.loads l) as [v|e] eqn:Hl; simpl.
    + destruct Hex as [[_ Hl']|Hex]; [congruence|]. by rewrite IH.
    + by rewrite (loads_raises _ _ Hl).
Qed.

(** Where every line that is not blank parses, the loop returns the parsed
    values of those lines, in order. *)
Lemma parse_chunks_parsed (lines : list (list N)) (P : json -> Prop) :
  Forall (fun l => blank l = false -> exists v, Json.loads l = Ok v /\ P v) lines ->
  exists chunks,
    parse_chunks lines = Ok chunks /\
    map Ok chunks = map Json.loads (nonblank_lines lines) /\
    Forall P chunks.
Proof.
  induction 1 as [|l lines Hl _ (chunks & E & Hm & HP)]; simpl.
  - by exists [].
  - unfold nonblank_lines in *. simpl. destruct (blank l) eqn:Hb; simpl.
    + by exists chunks.
    + destruct (Hl eq_refl) as (v & -> & Hv). simpl. rewrite E. simpl.
      exists (v :: chunks). simpl. rewrite Hm. by repeat constructor.
Qed.

Lemma for_each_ok {A B} (f : A -> result B) (l : list A) :
  Forall (fun x => is_ok (f x) = true) l -> exists ys, for_each f l = Ok ys.
Proof.
  induction 1 as [|x l Hx _ [ys IH]]; simpl; [by eexists|].
  destruct (f x); [|done]. simpl. rewrite IH. simpl. by eexists.
Qed.

Lemma chunk_text_length_ok (chunk : json) :
  text_has_length chunk = true -> is_ok (chunk_text_length chunk) = true.
Proof.
  unfold text_has_length, chunk_text_length, py_get.
  destruct chunk; try done. simpl.
  destruct (dict_get (py "text") members); done.
Qed.

(** C7, as the code has it.  For every input file in which each non-blank
    line parses as a JSON object whose text field, when present, is a string,
    an array or an object, the chunk loader returns a sequence whose length is
    the number of non-blank lines, holding the parsed objects in file order;
    the world is left as it was.  (The statistics table of the loader takes
    the length of every text, which raises on a number, a boolean or null.) *)
Theorem load_chunks_length (self : ChunkVectorizer) (w : World) (content : list N) :
  files w !! input_file (config self) = Some content ->
  Forall (fun l => blank l = false ->
                   exists v, Json.loads l = Ok v /\ text_has_length v = true)
         (file_lines content) ->
  exists chunks,
    load_chunks self w = (Ok chunks, w) /\
    length chunks = length (nonblank_lines (file_lines content)) /\
    map Ok chunks = map Json.loads (nonblank_lines (file_lines content)).
Proof.
  intros Hf Hall. unfold load_chunks, open_lines. rewrite Hf. simpl.
  destruct (parse_chunks_parsed _ _ Hall) as (chunks & -> & Hm & HP). simpl.
  exists chunks.
  assert (length chunks = length (nonblank_lines (file_lines content))) as Hlen.
  { by rewrite <- (length_map Ok chunks), Hm, length_map. }
  destruct chunks as [|c chunks]; [done|].
  destruct (for_each_ok chunk_text_length (c :: chunks)) as [ys ->]; [|done].
  eapply Forall_impl; [exact HP|]. intros v Hv. by apply chunk_text_length_ok.
Qed.

(** C7 at a file of two well-formed lines with a blank line between them. *)
Lemma load_chunks_length_witness :
  exists chunks,
    load_chunks sample_vectorizer
      (mkWorld {[ data_path := good_line "1" ++ lf ++ good_line "2" ]} ∅)
    = (Ok chunks, mkWorld {[ data_path := good_line "1" ++ lf ++ good_line "2" ]} ∅) /\
    length chunks = 2 /\
    map Ok chunks = [Json.loads (good_line "1"); Json.loads (good_line "2")].
Proof.
  apply (load_chunks_length sample_vectorizer
           (mkWorld {[ data_path := good_line "1" ++ lf ++ good_line "2" ]} ∅)
           (good_line "1" ++ lf ++ good_line "2")).
  - vm_compute. reflexivity.
  - repeat constructor; vm_compute; intros Hb;
      first [discriminate Hb | eexists; split; reflexivity].
Defined.

(** C7 as stated fails: the one line of this file parses as a JSON object,
    and the loader raises. *)
Lemma load_chunks_counterexample :
  Forall (fun l => blank l = false -> exists d, Json.loads l = Ok (JObj d))
         (file_lines numeric_text) /\
  load_chunks sample_vectorizer (mkWorld {[ data_path := numeric_text ]} ∅)
  = (Raise TypeError, mkWorld {[ data_path := numeric_text ]} ∅).
Proof.
  split; [|vm_compute; reflexivity].
  repeat constructor. intros _. eexists. vm_compute. reflexivity.
Qed.

(** What the two programs do at a malformed line.  On every input file with
    a non-blank line that is not valid JSON the chunk loader raises a JSON
    decoding error.  The validator does not stop at such a line: it counts
    it in [json_errors], records an error and goes on with the lines after
    it.  Every report it returns for the file counts every malformed line
    and every line of the file, and has failed; it returns one exactly when
    every line of the file has a kind (blank, malformed, lacking a required
    field, or a document). *)
Lemma malformed_line_policy `{UnicodeData}
    (self : ChunkVectorizer) (w : World) (content : list N) :
  files w !! input_file (config self) = Some content ->
  Exists malformed_line (file_lines content) ->
  load_chunks self w = (Raise JSONDecodeError, w) /\
  (forall n bad rest v seen,
     malformed_line bad ->
     validate_lines (bad :: rest) n (v, seen) =
     validate_lines rest (S n)
       (add_error (JsonParseError n)
          (set_stats incr_json_errors (set_stats incr_total_lines v)), seen)) /\
  (forall r,
     validate (files w) (DataValidator_init (input_file (config self))) = Ok r ->
     json_errors (report_stats r) = length (List.filter malformedb (file_lines content)) /\
     1 <= json_errors (report_stats r) /\
     total_lines (report_stats r) = length (file_lines content) /\
     report_errors r <> [] /\
     validation_passed r = false) /\
  ((exists r, validate (files w) (DataValidator_init (input_file (config self))) = Ok r) <->
   Forall (fun l => is_Some (classify l)) (file_lines content)).
Proof.
  intros Hf Hex. split; [|split; [|split]].
  - unfold load_chunks, open_lines. rewrite Hf. simpl.
    by rewrite parse_chunks_malformed.
  - intros n bad rest v seen [Hb Hl]. simpl. unfold validate_line.
    by rewrite Hb, Hl.
  - intros r Hr.
    assert (Forall (fun l => is_Some (classify l)) (file_lines content)) as Hall.
    { apply (validate_returns_iff (files w) _ content Hf). eauto. }
    destruct (kinds_exist _ Hall) as [kinds Hk].
    destruct (validate_kinds (files w) _ content kinds Hf Hk) as (self' & E & A).
    rewrite E in Hr. injection Hr as <-.
    destruct A as (A1 & _ & A3 & _ & _ & _ & A7).
    assert (count_kind is_malformed kinds
            = length (List.filter malformedb (file_lines content))) as Hc.
    { clear -Hk. induction Hk as [|l k ls ks Hl _ IH]; [done|].
      rewrite count_kind_cons, IH. simpl.
      destruct (malformedb l) eqn:Hm.
      - apply malformedb_iff, malformed_classify in Hm.
        rewrite Hm in Hl. injection Hl as <-. done.
      - destruct k; simpl; try done.
        apply classify_malformed, malformedb_iff in Hl. congruence. }
    assert (1 <= length (List.filter malformedb (file_lines content))) as Hone.
    { clear -Hex. induction Hex as [l ls Hl|l ls _ IH]; simpl.
      - apply malformedb_iff in Hl. rewrite Hl. simpl. lia.
      - destruct (malformedb l); simpl; lia. }
    assert (errors self' <> []) as Hne.
    { intros He. rewrite He in A7. simpl in *. lia. }
    simpl in *. rewrite A3, A1, Hc, (Forall2_length _ _ _ Hk).
    repeat split; try done.
    by destruct (errors self').
  - by apply validate_returns_iff.
Qed.

(** The two programs at a sample file with one malformed line. *)
Lemma malformed_line_policy_witness :
  load_chunks sample_vectorizer (mkWorld {[ data_path := with_duplicate ]} ∅)
  = (Raise JSONDecodeError, mkWorld {[ data_path := with_duplicate ]} ∅) /\
  exists r,
    validate {[ data_path := with_duplicate ]} (DataValidator_init data_path) = Ok r /\
    json_errors (report_stats r) = 1 /\
    total_lines (report_stats r) = 7 /\
    validation_passed r = false.
Proof.
  destruct (malformed_line_policy sample_vectorizer
              (mkWorld {[ data_path := with_duplicate ]} ∅) with_duplicate)
    as (Hload & _ & Hval & Hret).
  - vm_compute. reflexivity.
  - apply Exists_exists. exists bad_line. split.
    + apply list_elem_of_In. vm_compute. tauto.
    + split; vm_compute; reflexivity.
  - split; [exact Hload|].
    destruct (proj2 Hret) as [r E].
    + repeat constructor; vm_compute; eexists; reflexivity.
    + destruct (Hval r E) as (Hj & _ & Ht & _ & Hp).
      exists r. split; [exact E|]. split; [exact Hj|]. split; [exact Ht|exact Hp].
Defined.

(** C6.  The input at which the validator breaks what C6 says: a file whose
    first line holds the number 5 and whose second line is malformed.  The
    loader raises the decoding error, as C6 says.  The validator raises
    [TypeError] at the first line, where it asks whether [id] is in 5, and
    returns no report: the malformed line is never counted.  With the array
    [[5]] or the string ["5"] in place of the number the validator does what
    C6 says: it reports the first line as lacking its fields, counts the
    malformed line in [json_errors] and returns a report, which has
    failed. *)
Theorem validator_aborts_before_malformed_line :
  Exists malformed_line (file_lines number_then_bad) /\
  load_chunks sample_vectorizer (mkWorld {[ data_path := number_then_bad ]} ∅)
  = (Raise JSONDecodeError, mkWorld {[ data_path := number_then_bad ]} ∅) /\
  validate {[ data_path := number_then_bad ]} (DataValidator_init data_path)
  = Raise TypeError /\
  Forall (fun content =>
            exists r,
              validate {[ data_path := content ]} (DataValidator_init data_path) = Ok r /\
              total_lines (report_stats r) = 2 /\
              missing_fields (report_stats r) = 1 /\
              json_errors (report_stats r) = 1 /\
              validation_passed r = false)
         [array_then_bad; string_then_bad].
Proof.
  split; [|split; [|split]].
  - apply Exists_exists. exists bad_line. split.
    + apply list_elem_of_In. vm_compute. tauto.
    + split; vm_compute; reflexivity.
  - vm_compute. reflexivity.
  - vm_compute. reflexivity.
  - repeat constructor; eexists; (split; [vm_compute; reflexivity|]); repeat split.
Qed.

(* ===================================================================== *)
(** * Batches                                                              *)
(* ===================================================================== *)

Lemma take_plus {A} (n m : nat) (l : list A) :
  take (n + m) l = take n l ++ take m (drop n l).
Proof.
  revert l. induction n as [|n IH]; intros l; simpl; [done|].
  destruct l; simpl; [by rewrite take_nil|]. by rewrite IH.
Qed.

(** For a positive step the loop of [range] yields [i], [i + b], ... below
    [n]: as many values as the quotient of [n - i + b - 1] by [b]. *)
Lemma range_loop_pos (fuel : nat) (i n b : Z) :
  (0 < b)%Z -> (n - i <= Z.of_nat fuel)%Z ->
  range_loop fuel i n b =
  map (fun k => (i + Z.of_nat k * b)%Z) (seq 0 (Z.to_nat ((n - i + b - 1) / b))).
Proof.
  intros Hb. revert i. induction fuel as [|f IH]; intros i Hf.
  - simpl. assert ((n - i + b - 1) / b < 1)%Z.
    { apply Z.div_lt_upper_bound; lia. }
    replace (Z.to_nat ((n - i + b - 1) / b)) with 0 by lia. done.
  - simpl. assert ((0 <? b)%Z = true) as -> by lia.
    assert ((b <? 0)%Z = false) as -> by lia. simpl. rewrite orb_false_r.
    destruct (Z.ltb_spec i n) as [Hlt|Hge].
    + rewrite IH by lia.
      replace (n - i + b - 1)%Z with ((n - (i + b) + b - 1) + 1 * b)%Z by lia.
      rewrite Z.div_add by lia.
      assert (0 <= (n - (i + b) + b - 1) / b)%Z by (apply Z.div_pos; lia).
      replace (Z.to_nat ((n - (i + b) + b - 1) / b + 1))
        with (S (Z.to_nat ((n - (i + b) + b - 1) / b))) by lia.
      simpl. f_equal; [lia|]. rewrite <- seq_shift, map_map.
      apply map_ext. intros k. lia.
    + assert ((n - i + b - 1) / b < 1)%Z.
      { apply Z.div_lt_upper_bound; lia. }
      replace (Z.to_nat ((n - i + b - 1) / b)) with 0 by lia. done.
Qed.

Lemma batch_at_mult {A} (l : list A) (b : Z) (k : nat) :
  (0 < b)%Z ->
  batch_at l b (0 + Z.of_nat k * b) = take (Z.to_nat b) (drop (k * Z.to_nat b) l).
Proof.
  intros Hb. unfold batch_at, slice. f_equal; [nia|f_equal; nia].
Qed.

Lemma concat_slices {A} (l : list A) (bn : nat) (K j : nat) :
  concat (map (fun k => take bn (drop (k * bn) l)) (seq j K)) =
  take (K * bn) (drop (j * bn) l).
Proof.
  revert j. induction K as [|K IH]; intros j; simpl; [done|].
  rewrite IH, take_plus, drop_drop. do 3 f_equal. lia.
Qed.

(** The quotient [(n + b - 1) / b] is the ceiling of [n / b]. *)
Lemma ceil_bounds (n b : Z) :
  (0 < b)%Z ->
  ((((n + b - 1) / b) - 1) * b < n <= ((n + b - 1) / b) * b)%Z.
Proof.
  intros Hb.
  pose proof (Z.mul_div_le (n + b - 1) b Hb).
  pose proof (Z.mul_succ_div_gt (n + b - 1) b Hb). lia.
Qed.

Lemma last_size (n b : Z) :
  (0 < b)%Z -> (0 < n)%Z ->
  (n - ((n + b - 1) / b - 1) * b = if n mod b =? 0 then b else n mod b)%Z.
Proof.
  intros Hb Hn.
  pose proof (Z.div_mod n b ltac:(lia)) as Hdm.
  pose proof (Z.mod_pos_bound n b Hb) as Hr.
  destruct (Z.eqb_spec (n mod b) 0) as [E|E].
  - replace (n + b - 1)%Z with ((b - 1) + (n / b) * b)%Z by lia.
    rewrite Z.div_add by lia. rewrite (Z.div_small (b - 1) b) by lia. lia.
  - replace (n + b - 1)%Z with ((n mod b - 1) + (n / b + 1) * b)%Z by lia.
    rewrite Z.div_add by lia. rewrite (Z.div_small (n mod b - 1) b) by lia. lia.
Qed.

(** C4.  For a non-empty sequence of length N and a batch size B >= 1 the
    batches are consecutive slices of the sequence: their number is the
    [total_batches] of the code, which is the ceiling of N/B; every batch but
    the last has length B; the last has length N mod B, or B when that is 0;
    and put end to end they are the sequence. *)
Theorem batch_partition {A} (l : list A) (b : Z) :
  l <> [] -> (1 <= b)%Z ->
  exists batches,
    batches_of l b = Ok batches /\
    total_batches (Z.of_nat (length l)) b = Ok (Z.of_nat (length batches)) /\
    ((Z.of_nat (length batches) - 1) * b < Z.of_nat (length l)
       <= Z.of_nat (length batches) * b)%Z /\
    concat batches = l /\
    (forall i x, S i < length batches -> batches !! i = Some x ->
                 Z.of_nat (length x) = b) /\
    (forall x, last batches = Some x ->
               Z.of_nat (length x)
               = if (Z.of_nat (length l) mod b =? 0)%Z then b
                 else (Z.of_nat (length l) mod b)%Z).
Proof.
  intros Hl Hb.
  set (n := Z.of_nat (length l)). set (bn := Z.to_nat b).
  set (K := Z.to_nat ((n + b - 1) / b)).
  assert (0 < n)%Z as Hn by (destruct l; [done|simpl in *; lia]).
  pose proof (ceil_bounds n b ltac:(lia)) as Hceil.
  assert (0 <= (n + b - 1) / b)%Z as HK by (apply Z.div_pos; lia).
  assert (Z.of_nat K = (n + b - 1) / b)%Z as HKz by lia.
  assert (batches_of l b = Ok (map (fun k => take bn (drop (k * bn) l)) (seq 0 K))) as E.
  { unfold batches_of, py_range. fold n.
    assert ((b =? 0)%Z = false) as -> by lia. simpl. f_equal.
    rewrite range_loop_pos by lia. rewrite map_map.
    replace (n - 0 + b - 1)%Z with (n + b - 1)%Z by lia. fold K.
    apply map_ext. intros k. by apply batch_at_mult; lia. }
  eexists. split; [exact E|].
  rewrite length_map, length_seq.
  split; [|split; [|split; [|split]]].
  - unfold total_batches. assert ((b =? 0)%Z = false) as -> by lia.
    by rewrite HKz.
  - rewrite HKz. exact Hceil.
  - rewrite concat_slices. simpl. rewrite drop_0. apply take_ge.
    rewrite <- HKz in Hceil. subst bn n. nia.
  - intros i x Hi Hx. rewrite list_lookup_fmap in Hx.
    rewrite lookup_seq_lt in Hx by lia. simpl in Hx. injection Hx as <-.
    rewrite length_take, length_drop. rewrite <- HKz in Hceil. subst bn n. nia.
  - intros x Hx. rewrite last_lookup in Hx. rewrite length_map, length_seq in Hx.
    rewrite list_lookup_fmap in Hx.
    assert (0 < K) by lia.
    rewrite lookup_seq_lt in Hx by lia. simpl in Hx. injection Hx as <-.
    rewrite length_take, length_drop.
    rewrite <- (last_size n b) by lia. rewrite <- HKz in *. subst bn n. nia.
Qed.

(** C4 on five elements in batches of two. *)
Lemma batch_partition_witness :
  exists batches,
    batches_of [1; 2; 3; 4; 5] 2 = Ok batches /\
    total_batches 5 2 = Ok (Z.of_nat (length batches)) /\
    concat batches = [1; 2; 3; 4; 5] /\
    (forall x, last batches = Some x -> Z.of_nat (length x) = 1%Z).
Proof.
  destruct (batch_partition [1; 2; 3; 4; 5] 2%Z) as (bs & E & Ht & _ & Hc & _ & Hlast).
  - discriminate.
  - lia.
  - exists bs. split; [exact E|]. split; [exact Ht|]. split; [exact Hc|exact Hlast].
Defined.

(* ===================================================================== *)
(** * The collection name                                                  *)
(* ===================================================================== *)

Lemma startswith_app (p s : text) : startswith p (p ++ s) = true.
Proof. induction p as [|c p IH]; simpl; [done|]. by rewrite N.eqb_refl. Qed.

(** [startswith p] looks at the first [length p] characters only. *)
Lemma startswith_take (p s : text) : startswith p s = startswith p (take (length p) s).
Proof.
  revert s. induction p as [|c p IH]; intros [|d s]; simpl; try done.
  by rewrite <- IH.
Qed.

Lemma replace_scan_skip (old new : text) (k : nat) (s : text) :
  replace_scan old new k s = replace_scan old new 0 (drop k s).
Proof.
  revert k. induction s as [|c s IH]; intros [|k]; simpl; done.
Qed.

(** The loop of [replace] at an occurrence, and elsewhere. *)
Lemma replace_scan_occurrence (old new s : text) :
  old <> [] ->
  replace_scan old new 0 (old ++ s) = new ++ replace_scan old new 0 s.
Proof.
  intros Ho. destruct old as [|c old]; [done|]. simpl.
  rewrite N.eqb_refl, startswith_app. simpl.
  rewrite replace_scan_skip. rewrite Nat.sub_0_r, drop_app_length. done.
Qed.

Lemma replace_scan_copy (old new : text) (c : N) (s : text) :
  startswith old (c :: s) = false ->
  replace_scan old new 0 (c :: s) = c :: replace_scan old new 0 s.
Proof. intros Hs. simpl replace_scan. rewrite Hs. done. Qed.

(** Text without an occurrence is left as it is. *)
Lemma replace_scan_absent (old new s : text) :
  contains old s = false -> replace_scan old new 0 s = s.
Proof.
  induction s as [|c s IH]; [done|].
  intros [Hs Hc]%orb_false_iff. rewrite replace_scan_copy by done.
  by rewrite IH.
Qed.

(** The first occurrence goes, and the scan goes on behind it: no rescan of
    what was already copied. *)
Lemma replace_scan_first (old new a b : text) :
  old <> [] ->
  contains old (a ++ removelast old) = false ->
  replace_scan old new 0 (a ++ old ++ b) = a ++ new ++ replace_scan old new 0 b.
Proof.
  intros Ho. induction a as [|c a IH]; intros Hc.
  - simpl. by apply replace_scan_occurrence.
  - change ((c :: a) ++ removelast old) with (c :: (a ++ removelast old)) in Hc.
    apply orb_false_iff in Hc as [Hs Hc].
    change ((c :: a) ++ old ++ b) with (c :: (a ++ old ++ b)).
    rewrite replace_scan_copy; [by rewrite IH|].
    rewrite startswith_take in Hs |- *.
    rewrite <- Hs. f_equal.
    rewrite (app_removelast_last 0%N Ho) at 2.
    rewrite <- !app_assoc, !app_comm_cons, (app_assoc _ (removelast old)).
    rewrite take_app_le; [done|].
    rewrite (app_removelast_last 0%N Ho) at 1.
    rewrite !length_app. simpl. lia.
Qed.

Lemma last_piece_absent (sep : N) (acc s : text) :
  has_char sep s = false -> last_piece sep acc s = rev acc ++ s.
Proof.
  revert acc. induction s as [|c s IH]; intros acc; simpl.
  - by rewrite app_nil_r.
  - rewrite N.eqb_sym. intros [Hc Hs]%orb_false_iff. rewrite Hc, IH by done.
    simpl. by rewrite <- app_assoc.
Qed.

Lemma last_piece_after (sep : N) (acc a b : text) :
  has_char sep b = false -> last_piece sep acc (a ++ sep :: b) = b.
Proof.
  intros Hb. revert acc. induction a as [|c a IH]; intros acc; simpl.
  - rewrite N.eqb_refl. by rewrite last_piece_absent.
  - destruct (c =? sep)%N; apply IH.
Qed.

Lemma has_char_app (c : N) (a b : text) :
  has_char c (a ++ b) = has_char c a || has_char c b.
Proof. apply existsb_app. Qed.

(** C5, as the code has it.  For the input file name x.jsonl and the model
    name org/model the collection name is x_model.  In general it is the
    base name of the input file with every occurrence of .jsonl removed,
    scanning from the left (which removes just the suffix when .jsonl occurs
    nowhere else in the base name), an underscore, and the part of the model
    name after its last slash (the whole model name when it has no slash),
    cut to at most 63 characters. *)
Theorem collection_name_rule (input model : list N) :
  derive_collection_name (py "x.jsonl") (py "org/model") = py "x_model" /\
  derive_collection_name input model
  = take 63 (replace (py ".jsonl") [] (basename input) ++ py "_"
             ++ (if has_char (chr "/") model then split_last (chr "/") model else model)) /\
  length (derive_collection_name input model) <= 63 /\
  (forall dir base, has_char (chr "/") base = false ->
     basename base = base /\ basename (dir ++ py "/" ++ base) = base) /\
  (forall org short, has_char (chr "/") short = false ->
     split_last (chr "/") (org ++ py "/" ++ short) = short) /\
  (forall s, contains (py ".jsonl") s = false -> replace (py ".jsonl") [] s = s) /\
  (forall a b, contains (py ".jsonl") (a ++ py ".json") = false ->
     replace (py ".jsonl") [] (a ++ py ".jsonl" ++ b) = a ++ replace (py ".jsonl") [] b) /\
  (forall dir stem org short,
     has_char (chr "/") stem = false -> has_char (chr "/") short = false ->
     contains (py ".jsonl") (stem ++ py ".json") = false ->
     derive_collection_name (dir ++ py "/" ++ stem ++ py ".jsonl") (org ++ py "/" ++ short)
     = take 63 (stem ++ py "_" ++ short)).
Proof.
  assert (forall a b, contains (py ".jsonl") (a ++ py ".json") = false ->
     replace (py ".jsonl") [] (a ++ py ".jsonl" ++ b) = a ++ replace (py ".jsonl") [] b)
    as Hfirst.
  { intros a b Hc. change (replace (py ".jsonl") []) with (replace_scan (py ".jsonl") [] 0).
    by rewrite replace_scan_first. }
  assert (forall dir base, has_char (chr "/") base = false ->
     basename base = base /\ basename (dir ++ py "/" ++ base) = base) as Hbase.
  { intros dir base Hb. unfold basename, split_last. split.
    - by rewrite last_piece_absent.
    - by apply last_piece_after. }
  split; [by vm_compute|]. split; [|split; [|split; [|split; [|split; [|split]]]]].
  - unfold derive_collection_name.
    destruct (Nat.ltb_spec 63 (length (replace (py ".jsonl") [] (basename input) ++ py "_" ++
        (if has_char (chr "/") model then split_last (chr "/") model else model))));
      [done|]. by rewrite take_ge.
  - unfold derive_collection_name.
    destruct (Nat.ltb_spec 63 (length (replace (py ".jsonl") [] (basename input) ++ py "_" ++
        (if has_char (chr "/") model then split_last (chr "/") model else model))));
      [|done]. rewrite length_take. lia.
  - exact Hbase.
  - intros org short Hs. unfold split_last. by apply last_piece_after.
  - intros s Hc. by apply replace_scan_absent.
  - exact Hfirst.
  - intros dir stem org short Hst Hsh Hc. unfold derive_collection_name.
    assert (has_char (chr "/") (stem ++ py ".jsonl") = false) as Hsl.
    { rewrite has_char_app, Hst. done. }
    destruct (Hbase dir (stem ++ py ".jsonl") Hsl) as [_ Hb]. rewrite Hb.
    assert (replace (py ".jsonl") [] (stem ++ py ".jsonl") = stem) as ->.
    { rewrite <- (app_nil_r (py ".jsonl")). rewrite Hfirst by done.
      change (replace (py ".jsonl") [] []) with (@nil N). by rewrite app_nil_r. }
    assert ((if has_char (chr "/") (org ++ py "/" ++ short)
             then split_last (chr "/") (org ++ py "/" ++ short)
             else org ++ py "/" ++ short) = short) as ->.
    { rewrite has_char_app. change (has_char (chr "/") (py "/" ++ short)) with true.
      rewrite orb_true_r. exact (last_piece_after (chr "/") [] org short Hsh). }
    destruct (Nat.ltb_spec 63 (length (stem ++ py "_" ++ short))); [done|].
    by rewrite take_ge.
Qed.

(** C5 on a path with a directory and a longer model name. *)
Lemma collection_name_rule_witness :
  derive_collection_name (py "data/chunks.v2.jsonl") (py "jinaai/jina-embeddings-v3")
  = py "chunks.v2_jina-embeddings-v3".
Proof.
  destruct (collection_name_rule [] []) as (_ & _ & _ & _ & _ & _ & _ & Hrule).
  apply (Hrule (py "data") (py "chunks.v2") (py "jinaai") (py "jina-embeddings-v3"));
    vm_compute; reflexivity.
Defined.

(** C5 as stated fails in its general part: a base name that holds .jsonl
    elsewhere than at its end loses it all the same. *)
Lemma collection_name_counterexample :
  derive_collection_name (py "chunks.jsonl.bak") (py "org/model") = py "chunks.bak_model" /\
  name_by_suffix_rule (py "chunks.jsonl.bak") (py "org/model") = py "chunks.jsonl.bak_model" /\
  derive_collection_name (py "chunks.jsonl.bak") (py "org/model")
  <> name_by_suffix_rule (py "chunks.jsonl.bak") (py "org/model").
Proof. repeat split; vm_compute; congruence. Qed.

(* ===================================================================== *)
(** * The vectorizer and the store                                         *)
(* ===================================================================== *)

Lemma db_at_set_db dir db w : Chroma.db_at (Chroma.set_db dir db w) dir = db.
Proof. unfold Chroma.db_at, Chroma.set_db. simpl. by rewrite lookup_insert_eq. Qed.

Lemma db_at_set_db_ne dir dir' db w :
  dir <> dir' -> Chroma.db_at (Chroma.set_db dir db w) dir' = Chroma.db_at w dir'.
Proof.
  intros Hne. unfold Chroma.db_at, Chroma.set_db. simpl. by rewrite lookup_insert_ne.
Qed.

Lemma set_db_set_db dir db db' w :
  Chroma.set_db dir db (Chroma.set_db dir db' w) = Chroma.set_db dir db w.
Proof. unfold Chroma.set_db. simpl. by rewrite insert_insert_eq. Qed.

Lemma files_set_db dir db w : files (Chroma.set_db dir db w) = files w.
Proof. done. Qed.

(** Bring nested updates and lookups of one database to a single one. *)
Ltac simpl_db :=
  repeat match goal with
         | |- context [Chroma.set_db ?a ?b (Chroma.set_db ?a ?d ?e)] =>
             rewrite (set_db_set_db a b d e)
         | |- context [Chroma.db_at (Chroma.set_db ?a ?b ?e) ?a] =>
             rewrite (db_at_set_db a b e)
         end.

Section VectorizerFacts.
Context `{VectorStore} `{EmbeddingModel}.

(** [_setup_collection] either stops at a name the store refuses, after it
    has deleted the collection of that name, or leaves the collection empty
    and the log file one line longer. *)
Lemma setup_collection_outcome (cfg : Config) (ts : list N) (w : World) :
  let name := derive_collection_name (input_file cfg) (model_name cfg) in
  let dir := db_directory cfg in
  _setup_collection cfg ts w =
  if name_ok name
  then (Ok (mkVectorizer cfg name dir), world_after_setup cfg ts w)
  else (Raise ValueError, Chroma.set_db dir (delete name (Chroma.db_at w dir)) w).
Proof.
  cbv zeta. unfold _setup_collection, world_after_setup.
  generalize (derive_collection_name (input_file cfg) (model_name cfg)) as name.
  generalize (db_directory cfg) as dir. intros dir name.
  unfold mbind, prog_bind, Chroma.PersistentClient, try_except.
  unfold Chroma.delete_collection, Chroma.create_collection.
  rewrite db_at_set_db.
  destruct (Chroma.db_at w dir !! name) as [c|] eqn:E.
  - simpl_db. rewrite lookup_delete_eq.
    destruct (name_ok name); simpl; [|done].
    simpl_db. by rewrite insert_delete_eq.
  - simpl. simpl_db. rewrite E.
    destruct (name_ok name); simpl.
    + by simpl_db.
    + by rewrite delete_id.
Qed.

End VectorizerFacts.

(** ** An input file that is the log of collections *)

(** A line that is being read is handed over with what was read of it. *)
Lemma read_lines_head (cur s : list N) :
  cur <> [] -> exists l ls, read_lines cur s = (rev cur ++ l) :: ls.
Proof.
  revert cur. induction s as [|c s IH]; intros cur Hne.
  - destruct cur as [|x cur]; [done|]. exists [], []. by rewrite app_nil_r.
  - cbn [read_lines]. destruct (c =? 10)%N.
    { eexists [10%N], _. reflexivity. }
    destruct (c =? 13)%N.
    { destruct s as [|c2 s]; [by exists [10%N], []|].
      destruct (c2 =? 10)%N; eexists [10%N], _; reflexivity. }
    destruct (IH (c :: cur)) as (l & ls & E); [done|].
    exists (c :: l), ls. rewrite E. cbn [rev]. by rewrite <- app_assoc.
Qed.

(** A text that starts with the letter c is not JSON. *)
Lemma loads_letter_c (l : list N) : Json.loads (chr "c" :: l) = Raise JSONDecodeError.
Proof. reflexivity. Qed.

Lemma blank_letter_c (l : list N) : blank (chr "c" :: l) = false.
Proof.
  destruct (blank (chr "c" :: l)) eqn:E; [|done].
  apply blank_iff in E. discriminate E.
Qed.

(** The name derived for the log of collections starts with the letter c,
    as the name of the file does. *)
Lemma log_collection_name (model : list N) :
  exists rest, derive_collection_name collections_file model = chr "c" :: rest.
Proof.
  unfold derive_collection_name.
  change (replace (py ".jsonl") [] (basename collections_file))
    with (chr "c" :: py "ollections.txt").
  cbn [app]. destruct (63 <? _); [cbn [take]|]; eexists; reflexivity.
Qed.

Section MissingInput.
Context `{VectorStore} `{EmbeddingModel}.

(** The loader on a log of collections that the constructor has just made:
    its first line is not JSON. *)
Lemma load_chunks_fresh_log (cfg : Config) (ts : list N) (w : World) :
  input_file cfg = collections_file ->
  files w !! collections_file = None ->
  let name := derive_collection_name (input_file cfg) (model_name cfg) in
  load_chunks (mkVectorizer cfg name (db_directory cfg)) (world_after_setup cfg ts w)
  = (Raise JSONDecodeError, world_after_setup cfg ts w).
Proof.
  intros Hin Hnone name. unfold load_chunks, open_lines, world_after_setup.
  cbn [files config]. rewrite Hin, lookup_insert_eq, Hnone. cbn [default app].
  destruct (log_collection_name (model_name cfg)) as [rest Hname].
  rewrite Hname. unfold collections_log_line. cbn [app].
  unfold file_lines. cbn [read_lines].
  change (chr "c" =? 10)%N with false. change (chr "c" =? 13)%N with false. cbv iota.
  destruct (read_lines_head [chr "c"] (rest ++ py " (" ++ ts ++ py ") - Model: "
              ++ model_name cfg ++ py ", Task: " ++ task cfg ++ [10%N]))
    as (l & ls & ->); [done|].
  cbn [rev app]. unfold mbind, result_bind.
  rewrite parse_chunks_malformed; [done|].
  apply Exists_cons_hd. split; [apply blank_letter_c|apply loads_letter_c].
Qed.

End MissingInput.

(** C2, as the code has it.  When the input file does not exist, the store
    accepts the derived name and the model loads, the run ends with an
    error, and by then the constructor has done its work: the collection of
    the derived name has been deleted if it was there and created empty, and
    a line has been appended to the file collections.txt.  The error is
    [FileNotFoundError], unless the input file is that log itself: the
    constructor has then just made it, and the run ends with the decoding
    error of its line.  No row is written. *)
Theorem missing_input_file `{VectorStore} `{EmbeddingModel}
    (cfg : Config) (ts : list N) (w : World) :
  files w !! input_file cfg = None ->
  name_ok (derive_collection_name (input_file cfg) (model_name cfg)) = true ->
  model_available (model_name cfg) = true ->
  vectorizer_main cfg ts w
  = (Raise (if decide (input_file cfg = collections_file)
            then JSONDecodeError else FileNotFoundError),
     world_after_setup cfg ts w) /\
  rows_of (world_after_setup cfg ts w) (db_directory cfg)
    (derive_collection_name (input_file cfg) (model_name cfg)) = Some [] /\
  is_Some (files (world_after_setup cfg ts w) !! collections_file).
Proof.
  intros Hf Hname Hmodel. split; [|split].
  - unfold vectorizer_main, ChunkVectorizer_init.
    unfold mbind at 1 2, prog_bind at 1 2.
    rewrite setup_collection_outcome, Hname.
    unfold _load_model, lift. rewrite Hmodel.
    unfold run, mbind, prog_bind, mret, prog_ret.
    destruct (decide (input_file cfg = collections_file)) as [Hin|Hne].
    + rewrite load_chunks_fresh_log; [done|done|]. by rewrite <- Hin.
    + unfold load_chunks, open_lines. simpl.
      rewrite lookup_insert_ne by done. by rewrite Hf.
  - unfold rows_of, world_after_setup, Chroma.db_at. simpl.
    rewrite lookup_insert_eq. simpl. by rewrite lookup_insert_eq.
  - unfold world_after_setup. simpl. rewrite lookup_insert_eq. by eexists.
Qed.

(** C2 at the sample world, which has no input file. *)
Lemma missing_input_file_witness :
  vectorizer_main sample_config sample_time world_without_input
  = (Raise FileNotFoundError, world_after_setup sample_config sample_time world_without_input).
Proof.
  destruct (missing_input_file sample_config sample_time world_without_input)
    as [Hrun _].
  - vm_compute. reflexivity.
  - vm_compute. reflexivity.
  - vm_compute. reflexivity.
  - rewrite Hrun. f_equal.
Defined.

(** C2 as stated fails: the input file is missing, and the run that ends
    with the error has emptied a collection that held a row and has written
    the file collections.txt, which was not there. *)
Lemma missing_input_file_counterexample :
  files world_without_input !! input_file sample_config = None /\
  rows_of world_without_input (py "db") (py "data_model") = Some [old_row] /\
  files world_without_input !! collections_file = None /\
  exists w',
    vectorizer_main sample_config sample_time world_without_input
    = (Raise FileNotFoundError, w') /\
    rows_of w' (py "db") (py "data_model") = Some [] /\
    files w' !! collections_file
    = Some (py "data_model (2025-01-01 00:00:00) - Model: org/model, Task: retrieval.passage" ++ lf).
Proof.
  split; [by vm_compute|]. split; [by vm_compute|]. split; [by vm_compute|].
  eexists. split; [vm_compute; reflexivity|]. split; vm_compute; reflexivity.
Qed.

Section StoreFacts.
Context `{VectorStore} `{EmbeddingModel}.

Lemma for_each_spec {A B} (g : A -> result B) (h : A -> B) (l : list A) (ys : list B) :
  (forall x y, g x = Ok y -> y = h x) -> for_each g l = Ok ys -> ys = map h l.
Proof.
  intros Hg. revert ys. induction l as [|x l IH]; intros ys; simpl.
  - by intros [= <-].
  - destruct (g x) as [y|] eqn:E; simpl; [|done].
    destruct (for_each g l) as [ys'|]; simpl; [|done].
    intros [= <-]. by rewrite (Hg x y E), (IH ys').
Qed.

Lemma getitem_field (c : json) (f : list N) (v : json) :
  py_getitem c f = Ok v -> v = chunk_field f c.
Proof.
  unfold py_getitem, chunk_field. destruct c; try done.
  destruct (dict_get f members); [|done]. by intros [= <-].
Qed.

Lemma as_id_text (j : json) (s : list N) : Chroma.as_id j = Ok s -> s = id_text j.
Proof. destruct j; try done. by intros [= <-]. Qed.

Lemma zip_rows_nil_2 a d m : Chroma.zip_rows a [] d m = [].
Proof. by destruct a. Qed.
Lemma zip_rows_nil_3 a e m : Chroma.zip_rows a e [] m = [].
Proof. by destruct a, e. Qed.
Lemma zip_rows_nil_4 a e d : Chroma.zip_rows a e d [] = [].
Proof. by destruct a, e, d. Qed.

Lemma zip_rows_take n a e d m :
  Chroma.zip_rows (take n a) (take n e) (take n d) (take n m)
  = take n (Chroma.zip_rows a e d m).
Proof.
  revert a e d m. induction n as [|n IH]; intros [|x a] [|y e] [|z d] [|u m];
    simpl; rewrite ?zip_rows_nil_2, ?zip_rows_nil_3, ?zip_rows_nil_4; try done.
  by rewrite IH.
Qed.

Lemma zip_rows_drop n a e d m :
  Chroma.zip_rows (drop n a) (drop n e) (drop n d) (drop n m)
  = drop n (Chroma.zip_rows a e d m).
Proof.
  revert a e d m. induction n as [|n IH]; intros [|x a] [|y e] [|z d] [|u m];
    simpl; rewrite ?drop_nil, ?zip_rows_nil_2, ?zip_rows_nil_3, ?zip_rows_nil_4;
    done.
Qed.

Lemma batch_at_zip (b i : Z) a e d m :
  Chroma.zip_rows (batch_at a b i) (batch_at e b i) (batch_at d b i) (batch_at m b i)
  = batch_at (Chroma.zip_rows a e d m) b i.
Proof. unfold batch_at, slice. by rewrite zip_rows_take, zip_rows_drop. Qed.

Lemma batch_at_map {A B} (f : A -> B) (l : list A) (b i : Z) :
  map f (batch_at l b i) = batch_at (map f l) b i.
Proof. unfold batch_at, slice. by rewrite skipn_map, firstn_map. Qed.

Lemma zip_rows_length a e d m :
  length e = length a -> length d = length a -> length m = length a ->
  length (Chroma.zip_rows a e d m) = length a.
Proof.
  revert e d m. induction a as [|x a IH]; intros [|y e] [|z d] [|u m]; simpl; try done.
  intros [=] [=] [=]. by rewrite IH.
Qed.

Lemma zip_rows_length_le a e d m : length (Chroma.zip_rows a e d m) <= length a.
Proof.
  revert e d m. induction a as [|x a IH]; intros [|y e] [|z d] [|u m]; simpl; try lia.
  specialize (IH e d m). lia.
Qed.

(** What a call of [add] that does not raise leaves in the collection. *)
Lemma add_rows_spec R ids embs docs metas R' :
  Chroma.add_rows R ids embs docs metas = Ok R' ->
  R' = R ++ filter (fun r => Chroma.has_id (row_id r) R = false)
              (Chroma.zip_rows (map id_text ids) embs docs metas).
Proof.
  unfold Chroma.add_rows.
  destruct (for_each Chroma.as_id ids) as [ids'|] eqn:E; simpl; [|done].
  apply (for_each_spec _ id_text) in E; [|apply as_id_text]. subst ids'.
  match goal with |- (if ?c then _ else _) = _ -> _ => destruct c end; [done|].
  by intros [= <-].
Qed.

Lemma has_id_false (i : list N) (R : list row) :
  i ∉ map row_id R -> Chroma.has_id i R = false.
Proof.
  induction R as [|r R IH]; simpl; [done|].
  rewrite not_elem_of_cons. intros [Hne Hi].
  by rewrite (text_eqb_neq _ _ Hne), IH.
Qed.

Lemma filter_all {A} (P : A -> Prop) `{!forall x, Decision (P x)} (l : list A) :
  Forall P l -> filter P l = l.
Proof.
  induction 1 as [|x l Hx _ IH]; [done|]. by rewrite filter_cons_True, IH.
Qed.

(** The loop that stores the batches: the collection ends with rows of the
    batches behind the rows it had, all of them when no id occurs twice. *)
Lemma store_loop (b : Z) (dir name : list N) ids embs docs metas (starts : list Z) :
  forall w w' c,
    Chroma.db_at w dir !! name = Some c ->
    for_each_prog
      (fun i => Chroma.add dir name (batch_at ids b i) (batch_at embs b i)
                  (batch_at docs b i) (batch_at metas b i)) starts w = (Ok tt, w') ->
    exists R',
      rows_of w' dir name = Some R' /\
      let added :=
        concat (map (batch_at (Chroma.zip_rows (map id_text ids) embs docs metas) b)
                  starts) in
      R' `sublist_of` coll_rows c ++ added /\
      (NoDup (map row_id (coll_rows c ++ added)) -> R' = coll_rows c ++ added).
Proof.
  induction starts as [|i starts IH]; intros w w' c Hc.
  - intros [= <-]. exists (coll_rows c). unfold rows_of. rewrite Hc. simpl.
    rewrite app_nil_r. done.
  - simpl. unfold mbind, prog_bind. unfold Chroma.add at 1. rewrite Hc.
    destruct (Chroma.add_rows _ _ _ _ _) as [R1|] eqn:E; [|done].
    apply add_rows_spec in E. rewrite batch_at_map, batch_at_zip in E.
    intros Hloop.
    apply (IH _ _ (mkCollection (coll_metadata c) R1)) in Hloop.
    2:{ rewrite db_at_set_db. by rewrite lookup_insert_eq. }
    destruct Hloop as (R' & Hrows & Hsub & Hnd). simpl in Hsub, Hnd.
    exists R'. split; [done|]. simpl. split.
    + etrans; [exact Hsub|]. rewrite E, (assoc_L (++)).
      apply sublist_app; [|done]. apply sublist_app; [done|apply sublist_filter].
    + intros Hno. rewrite filter_all in E.
      * rewrite E, <- (assoc_L (++)) in Hnd. by apply Hnd.
      * apply Forall_forall. intros r Hr. apply has_id_false.
        rewrite !map_app in Hno. apply NoDup_app in Hno as (_ & Hdisj & _).
        intros Hin. apply (Hdisj _ Hin). apply elem_of_app. left.
        by apply list_elem_of_fmap_2.
Qed.

(** What the loop leaves in the collection is decided by the rows the
    collection starts with, not by the rest of the world. *)
Lemma store_loop_same (b : Z) (dir name : list N) ids embs docs metas (starts : list Z) :
  forall w w' v v' c c',
    Chroma.db_at w dir !! name = Some c ->
    Chroma.db_at v dir !! name = Some c' ->
    coll_rows c = coll_rows c' ->
    for_each_prog
      (fun i => Chroma.add dir name (batch_at ids b i) (batch_at embs b i)
                  (batch_at docs b i) (batch_at metas b i)) starts w = (Ok tt, w') ->
    for_each_prog
      (fun i => Chroma.add dir name (batch_at ids b i) (batch_at embs b i)
                  (batch_at docs b i) (batch_at metas b i)) starts v = (Ok tt, v') ->
    rows_of w' dir name = rows_of v' dir name.
Proof.
  induction starts as [|i starts IH]; intros w w' v v' c c' Hc Hc' Hrows.
  - intros [= <-] [= <-]. unfold rows_of. rewrite Hc, Hc'. simpl. by rewrite Hrows.
  - simpl. unfold mbind, prog_bind. unfold Chroma.add at 1 3. rewrite Hc, Hc', Hrows.
    destruct (Chroma.add_rows _ _ _ _ _) as [R1|] eqn:E; [|done].
    apply IH with (c := mkCollection (coll_metadata c) R1)
                  (c' := mkCollection (coll_metadata c') R1); [| |done].
    + rewrite db_at_set_db. by rewrite lookup_insert_eq.
    + rewrite db_at_set_db. by rewrite lookup_insert_eq.
Qed.

(** For a positive step the slices at the values of [range(0, n, b)] make up
    any list that is not longer than [n]. *)
Lemma range_slices_concat {A} (l : list A) (n b : Z) (starts : list Z) :
  (0 < b)%Z -> (Z.of_nat (length l) <= n)%Z ->
  py_range 0 n b = Ok starts ->
  concat (map (batch_at l b) starts) = l.
Proof.
  intros Hb Hn. unfold py_range. assert ((b =? 0)%Z = false) as -> by lia.
  intros [= <-]. rewrite range_loop_pos by lia. rewrite map_map.
  rewrite (map_ext _ (fun k => take (Z.to_nat b) (drop (k * Z.to_nat b) l))).
  2:{ intros k. by apply batch_at_mult. }
  rewrite concat_slices. simpl. rewrite drop_0. apply take_ge.
  pose proof (ceil_bounds n b Hb) as Hc.
  assert (0 <= (n - 0 + b - 1) / b)%Z by (apply Z.div_pos; lia).
  replace (n - 0 + b - 1)%Z with (n + b - 1)%Z in * by lia. nia.
Qed.

Lemma py_range_backwards (n b : Z) : (b < 0)%Z -> (0 <= n)%Z -> py_range 0 n b = Ok [].
Proof.
  intros Hb Hn. unfold py_range. assert ((b =? 0)%Z = false) as -> by lia.
  f_equal. destruct (Z.to_nat _); simpl; [done|].
  assert ((0 <? b)%Z = false) as -> by lia.
  assert ((n <? 0)%Z = false) as -> by lia. by rewrite andb_false_r.
Qed.

(** The model answers every batch with as many vectors as texts. *)
Lemma embed_batches_length (cfg : Config) (batches : list (list json)) embs tokens :
  embed_batches cfg batches = Ok (embs, tokens) ->
  length embs = length (concat batches).
Proof.
  revert embs tokens. induction batches as [|bt batches IH]; intros embs tokens; simpl.
  - by intros [= <- <-].
  - destruct (tokenize bt); simpl; [|done].
    destruct (encode _ _ _ bt) as [vs|] eqn:E; simpl; [|done].
    destruct (embed_batches cfg batches) as [[es tk]|]; simpl; [|done].
    intros [= <- <-]. rewrite !length_app.
    by rewrite (encode_length _ _ _ _ _ E), (IH es tk).
Qed.

End StoreFacts.

Lemma prog_bind_ok {A B} (m : prog A) (f : A -> prog B) (w w2 : World) (r : B) :
  (m ≫= f) w = (Ok r, w2) -> exists a w1, m w = (Ok a, w1) /\ f a w1 = (Ok r, w2).
Proof.
  unfold mbind, prog_bind. destruct (m w) as [[a|e] w1]; [eauto|done].
Qed.

Lemma lift_ok {A} (x : result A) (w w1 : World) (a : A) :
  lift x w = (Ok a, w1) -> x = Ok a /\ w1 = w.
Proof. unfold lift. by intros [= -> ->]. Qed.

Section RunFacts.
Context `{VectorStore} `{EmbeddingModel}.

(** A run that ends well: it went through [_setup_collection], which left the
    collection empty, it loaded the chunks, and what the collection holds in
    the end are rows of these chunks. *)
Lemma run_outcome (cfg : Config) (ts : list N) (w w2 : World) :
  vectorizer_main cfg ts w = (Ok tt, w2) ->
  let name := derive_collection_name (input_file cfg) (model_name cfg) in
  let dir := db_directory cfg in
  let self := mkVectorizer cfg name dir in
  let wa := world_after_setup cfg ts w in
  (forall v, _setup_collection cfg ts v = (Ok self, world_after_setup cfg ts v) /\
             rows_of (world_after_setup cfg ts v) dir name = Some []) /\
  exists chunks embeddings rows,
    load_chunks self wa = (Ok chunks, wa) /\
    rows_of w2 dir name = Some rows /\
    rows `sublist_of` chunk_rows chunks embeddings /\
    (NoDup (map row_id (chunk_rows chunks embeddings)) -> (0 < batch_size cfg)%Z ->
     rows = chunk_rows chunks embeddings /\ length rows = length chunks).
Proof.
  intros Hrun name dir self wa.
  assert (forall v, rows_of (world_after_setup cfg ts v) dir name = Some []) as Hempty.
  { intros v. unfold rows_of, world_after_setup, Chroma.db_at. simpl.
    rewrite lookup_insert_eq. simpl. by rewrite lookup_insert_eq. }
  assert (Chroma.db_at wa dir !! name
          = Some (mkCollection [(py "hnsw:space", py "cosine")] [])) as Hdb.
  { unfold wa, world_after_setup, Chroma.db_at. simpl.
    rewrite lookup_insert_eq. simpl. by rewrite lookup_insert_eq. }
  revert Hrun. unfold vectorizer_main, ChunkVectorizer_init.
  unfold mbind at 1 2, prog_bind at 1 2.
  rewrite setup_collection_outcome. fold name dir self wa.
  destruct (name_ok name) eqn:Hname; [|done].
  assert (forall v, _setup_collection cfg ts v = (Ok self, world_after_setup cfg ts v))
    as Hsetup.
  { intros v. rewrite setup_collection_outcome. fold name. by rewrite Hname. }
  unfold _load_model, lift. destruct (model_available (model_name cfg)); [|done].
  simpl. unfold run. unfold mbind at 1, prog_bind at 1.
  destruct (load_chunks self wa) as [r wl] eqn:Hload.
  assert (wl = wa) as -> by (unfold load_chunks in Hload; congruence).
  destruct r as [chunks|]; [|done].
  intros Hproc. split; [done|].
  destruct chunks as [|c0 chunks0].
  { injection Hproc as <-. exists [], [], []. repeat split; try done. apply Hempty. }
  revert Hproc. unfold process_and_store_chunks. cbv beta iota.
  set (chunks := c0 :: chunks0) in *. clearbody chunks. clear c0 chunks0.
  intros Hproc.
  apply prog_bind_ok in Hproc as (ids & ? & [Eids ->]%lift_ok & Hproc).
  apply prog_bind_ok in Hproc as (texts & ? & [Etexts ->]%lift_ok & Hproc).
  apply prog_bind_ok in Hproc as (metas & ? & [Emetas ->]%lift_ok & Hproc).
  apply prog_bind_ok in Hproc as (total & ? & [Etotal ->]%lift_ok & Hproc).
  apply prog_bind_ok in Hproc as (tb & ? & [Etb ->]%lift_ok & Hproc).
  apply prog_bind_ok in Hproc as ([embs tokens] & ? & [Eemb ->]%lift_ok & Hproc).
  apply prog_bind_ok in Hproc as (starts & ? & [Est ->]%lift_ok & Hloop).
  simpl in Etotal, Etb, Eemb, Est, Hloop.
  apply (for_each_spec _ (chunk_field (py "id"))) in Eids;
    [|intros; by apply getitem_field].
  apply (for_each_spec _ (chunk_field (py "text"))) in Etexts;
    [|intros; by apply getitem_field].
  apply (for_each_spec _ (fun c => [(py "source", chunk_field (py "source") c)]))
    in Emetas.
  2:{ intros x y. destruct (py_getitem x (py "source")) as [s|] eqn:Es; simpl; [|done].
      intros [= <-]. by rewrite (getitem_field _ _ _ Es). }
  destruct (store_loop _ _ _ _ _ _ _ _ _ _ _ Hdb Hloop) as (rows & Hrows & Hsub & Hnd).
  simpl in Hsub, Hnd.
  assert (Chroma.zip_rows (map id_text ids) embs texts metas = chunk_rows chunks embs)
    as Hall.
  { unfold chunk_rows. by rewrite Eids, Etexts, Emetas, map_map. }
  rewrite Hall in Hsub, Hnd.
  assert (batch_size cfg <> 0)%Z as Hb0.
  { unfold total_batches in Etotal. destruct (Z.eqb_spec (batch_size cfg) 0); [done|done]. }
  exists chunks, embs, rows. split; [done|]. split; [done|].
  destruct (Z.lt_trichotomy (batch_size cfg) 0) as [Hneg|[Hz|Hpos]]; [|done|].
  - rewrite py_range_backwards in Est by lia. injection Est as <-.
    simpl in Hsub. apply sublist_nil_r in Hsub. subst rows.
    split; [apply sublist_nil_l|]. intros _ Hpos. lia.
  - assert (concat (map (batch_at (chunk_rows chunks embs) (batch_size cfg)) starts)
            = chunk_rows chunks embs) as Hcat.
    { apply (range_slices_concat _ (Z.of_nat (length chunks))); [done| |done].
      pose proof (zip_rows_length_le
                    (map (fun c => id_text (chunk_field (py "id") c)) chunks) embs
                    (map (chunk_field (py "text")) chunks)
                    (map (fun c => [(py "source", chunk_field (py "source") c)]) chunks))
        as Hle.
      rewrite length_map in Hle. unfold chunk_rows. lia. }
    rewrite Hcat in Hsub, Hnd. split; [done|].
    intros Hno _. rewrite (Hnd Hno). split; [done|].
    unfold chunk_rows. rewrite zip_rows_length; rewrite !length_map; try done.
    apply embed_batches_length in Eemb. rewrite Eemb.
    unfold batches_of in Etb. rewrite Etexts, length_map in Etb. rewrite Est in Etb.
    simpl in Etb. injection Etb as <-.
    rewrite (range_slices_concat _ (Z.of_nat (length chunks)) _ _ Hpos) by
      (rewrite ?length_map; done || lia).
    by rewrite length_map.
Qed.

End RunFacts.

Section RunSame.
Context `{VectorStore} `{EmbeddingModel}.

Lemma load_chunks_files (self : ChunkVectorizer) (w v : World) :
  files w = files v -> fst (load_chunks self w) = fst (load_chunks self v).
Proof. unfold load_chunks. simpl. by intros ->. Qed.

Lemma process_same (self : ChunkVectorizer) (chunks : list json) (w w' v v' : World) c c' :
  Chroma.db_at w (client self) !! collection_name self = Some c ->
  Chroma.db_at v (client self) !! collection_name self = Some c' ->
  coll_rows c = coll_rows c' ->
  process_and_store_chunks self chunks w = (Ok tt, w') ->
  process_and_store_chunks self chunks v = (Ok tt, v') ->
  rows_of w' (client self) (collection_name self)
  = rows_of v' (client self) (collection_name self).
Proof.
  intros Hc Hc' Hrows. unfold process_and_store_chunks.
  destruct chunks as [|c0 chunks0].
  { intros [= <-] [= <-]. unfold rows_of. rewrite Hc, Hc'. simpl. by rewrite Hrows. }
  cbv beta iota. set (chunks := c0 :: chunks0). clearbody chunks.
  intros Hw Hv.
  apply prog_bind_ok in Hw as (ids & ? & [Eids ->]%lift_ok & Hw).
  apply prog_bind_ok in Hw as (texts & ? & [Etexts ->]%lift_ok & Hw).
  apply prog_bind_ok in Hw as (metas & ? & [Emetas ->]%lift_ok & Hw).
  apply prog_bind_ok in Hw as (total & ? & [Etotal ->]%lift_ok & Hw).
  apply prog_bind_ok in Hw as (tb & ? & [Etb ->]%lift_ok & Hw).
  apply prog_bind_ok in Hw as ([embs tokens] & ? & [Eemb ->]%lift_ok & Hw).
  apply prog_bind_ok in Hw as (starts & ? & [Est ->]%lift_ok & Hw).
  apply prog_bind_ok in Hv as (ids' & ? & [Eids' ->]%lift_ok & Hv).
  apply prog_bind_ok in Hv as (texts' & ? & [Etexts' ->]%lift_ok & Hv).
  apply prog_bind_ok in Hv as (metas' & ? & [Emetas' ->]%lift_ok & Hv).
  apply prog_bind_ok in Hv as (total' & ? & [Etotal' ->]%lift_ok & Hv).
  apply prog_bind_ok in Hv as (tb' & ? & [Etb' ->]%lift_ok & Hv).
  apply prog_bind_ok in Hv as ([embs' tokens'] & ? & [Eemb' ->]%lift_ok & Hv).
  apply prog_bind_ok in Hv as (starts' & ? & [Est' ->]%lift_ok & Hv).
  rewrite Eids in Eids'. injection Eids' as <-.
  rewrite Etexts in Etexts'. injection Etexts' as <-.
  rewrite Emetas in Emetas'. injection Emetas' as <-.
  rewrite Etb in Etb'. injection Etb' as <-.
  rewrite Eemb in Eemb'. injection Eemb' as <- <-.
  rewrite Est in Est'. injection Est' as <-.
  exact (store_loop_same _ _ _ _ _ _ _ _ _ _ _ _ _ _ Hc Hc' Hrows Hw Hv).
Qed.

(** Two runs of one configuration that end well, from worlds with the same
    files, leave the same rows in the collection, whatever the databases of
    the two worlds held. *)
Lemma run_same (cfg : Config) (ts : list N) (w w2 v v2 : World) :
  files v = files w ->
  vectorizer_main cfg ts w = (Ok tt, w2) ->
  vectorizer_main cfg ts v = (Ok tt, v2) ->
  rows_of v2 (db_directory cfg) (derive_collection_name (input_file cfg) (model_name cfg))
  = rows_of w2 (db_directory cfg) (derive_collection_name (input_file cfg) (model_name cfg)).
Proof.
  intros Hfiles.
  set (name := derive_collection_name (input_file cfg) (model_name cfg)).
  set (dir := db_directory cfg).
  set (self := mkVectorizer cfg name dir).
  assert (forall u, Chroma.db_at (world_after_setup cfg ts u) dir !! name
          = Some (mkCollection [(py "hnsw:space", py "cosine")] [])) as Hdb.
  { intros u. unfold world_after_setup, Chroma.db_at. simpl. fold name dir.
    rewrite lookup_insert_eq. simpl. by rewrite lookup_insert_eq. }
  assert (forall u u2, vectorizer_main cfg ts u = (Ok tt, u2) ->
            exists chunks,
              fst (load_chunks self (world_after_setup cfg ts u)) = Ok chunks /\
              process_and_store_chunks self chunks (world_after_setup cfg ts u)
              = (Ok tt, u2)) as Hsteps.
  { intros u u2. unfold vectorizer_main, ChunkVectorizer_init.
    unfold mbind at 1 2, prog_bind at 1 2.
    rewrite setup_collection_outcome. fold name dir self.
    destruct (name_ok name); [|done].
    unfold _load_model, lift. destruct (model_available (model_name cfg)); [|done].
    simpl. unfold run. unfold mbind at 1, prog_bind at 1.
    destruct (load_chunks self (world_after_setup cfg ts u)) as [r wl] eqn:Hload.
    assert (wl = world_after_setup cfg ts u) as ->
      by (unfold load_chunks in Hload; congruence).
    destruct r as [chunks|]; [|done]. intros Hp. exists chunks.
    split; [exact (f_equal fst Hload)|exact Hp]. }
  intros Hw Hv.
  destruct (Hsteps _ _ Hw) as (chunks & Hl & Hp).
  destruct (Hsteps _ _ Hv) as (chunks' & Hl' & Hp').
  assert (chunks' = chunks) as ->.
  { rewrite (load_chunks_files self (world_after_setup cfg ts v)
               (world_after_setup cfg ts w)) in Hl'; [congruence|].
    unfold world_after_setup. simpl. by rewrite Hfiles. }
  symmetry.
  exact (process_same self chunks _ _ _ _ _ _ (Hdb w) (Hdb v) eq_refl Hp Hp').
Qed.

End RunSame.

(** C3.  Of two runs that end well on one database directory and one derived
    collection name, the second starts with [_setup_collection], which from
    every world leaves the collection of that name empty, whatever it held,
    before any row is written; so in the end the rows of the collection are
    rows of the chunks of the second run, in order, and they are exactly
    those rows, one for each chunk, when the ids of these chunks are distinct
    and the batch size is positive.  Nothing is carried over: the second run
    leaves the same rows from every world that has the same files, whatever
    its database held. *)
Theorem rerun_replaces_collection `{VectorStore} `{EmbeddingModel}
    (cfg1 cfg2 : Config) (ts1 ts2 : list N) (w0 w1 w2 : World) :
  vectorizer_main cfg1 ts1 w0 = (Ok tt, w1) ->
  vectorizer_main cfg2 ts2 w1 = (Ok tt, w2) ->
  db_directory cfg2 = db_directory cfg1 ->
  derive_collection_name (input_file cfg2) (model_name cfg2)
  = derive_collection_name (input_file cfg1) (model_name cfg1) ->
  let name := derive_collection_name (input_file cfg1) (model_name cfg1) in
  let dir := db_directory cfg1 in
  let self := mkVectorizer cfg2 name dir in
  let wa := world_after_setup cfg2 ts2 w1 in
  (forall v, _setup_collection cfg2 ts2 v = (Ok self, world_after_setup cfg2 ts2 v) /\
             rows_of (world_after_setup cfg2 ts2 v) dir name = Some []) /\
  exists chunks embeddings rows,
    load_chunks self wa = (Ok chunks, wa) /\
    rows_of w2 dir name = Some rows /\
    rows `sublist_of` chunk_rows chunks embeddings /\
    (NoDup (map row_id (chunk_rows chunks embeddings)) -> (0 < batch_size cfg2)%Z ->
     rows = chunk_rows chunks embeddings /\ length rows = length chunks) /\
    (forall v v2,
       files v = files w1 -> vectorizer_main cfg2 ts2 v = (Ok tt, v2) ->
       rows_of v2 dir name = Some rows).
Proof.
  intros _ Hrun2 Hdir Hname. cbv zeta. rewrite <- Hdir, <- Hname.
  destruct (run_outcome cfg2 ts2 w1 w2 Hrun2)
    as (Hsetup & chunks & embeddings & rows & Hload & Hrows & Hsub & Hall).
  split; [exact Hsetup|]. exists chunks, embeddings, rows.
  repeat (split; [done|]).
  intros v v2 Hfiles Hv. rewrite <- Hrows.
  exact (run_same cfg2 ts2 w1 w2 v v2 Hfiles Hrun2 Hv).
Qed.

(** C3 at two runs of the sample configuration on the sample world, whose
    collection starts with a row of an earlier run. *)
Lemma rerun_replaces_collection_witness :
  let wa := world_after_setup sample_config (py "2025-01-02 00:00:00") (snd first_run) in
  (forall v,
     _setup_collection sample_config (py "2025-01-02 00:00:00") v
     = (Ok sample_vectorizer, world_after_setup sample_config (py "2025-01-02 00:00:00") v) /\
     rows_of (world_after_setup sample_config (py "2025-01-02 00:00:00") v)
       (py "db") (py "data_model") = Some []) /\
  exists chunks embeddings rows,
    load_chunks sample_vectorizer wa = (Ok chunks, wa) /\
    rows_of (snd second_run) (py "db") (py "data_model") = Some rows /\
    rows `sublist_of` chunk_rows chunks embeddings /\
    (NoDup (map row_id (chunk_rows chunks embeddings)) ->
     (0 < batch_size sample_config)%Z ->
     rows = chunk_rows chunks embeddings /\ length rows = length chunks) /\
    (forall v v2,
       files v = files (snd first_run) ->
       vectorizer_main sample_config (py "2025-01-02 00:00:00") v = (Ok tt, v2) ->
       rows_of v2 (py "db") (py "data_model") = Some rows).
Proof.
  apply (rerun_replaces_collection sample_config sample_config sample_time
           (py "2025-01-02 00:00:00") world_with_input (snd first_run) (snd second_run)).
  - vm_compute. reflexivity.
  - vm_compute. reflexivity.
  - reflexivity.
  - reflexivity.
Defined.

(** The same two runs, computed: the three documents of the second run and
    nothing of what the collection held before. *)
Example second_run_rows :
  fst second_run = Ok tt /\
  (map row_id <$> rows_of (snd second_run) (py "db") (py "data_model"))
  = Some [py "doc_000001"; py "doc_000002"; py "doc_000003"].
Proof. split; vm_compute; reflexivity. Qed.

(* ===================================================================== *)
(** * The memory server                                                    *)
(* ===================================================================== *)

Section McpFacts.
Context `{VectorStore} `{EmbeddingModel}.

Lemma memory_rows_set srv c w :
  memory_rows srv
    (Chroma.set_db (server_client srv)
       (<[server_memory_collection srv := c]> (Chroma.db_at w (server_client srv))) w)
  = coll_rows c.
Proof. unfold memory_rows. rewrite db_at_set_db. by rewrite lookup_insert_eq. Qed.

(** What [remember] does, case by case. *)
Lemma remember_outcome srv token ts memory_text w :
  let memory_id := py "memory_" ++ token in
  (exists e, remember srv token ts memory_text w = (Ok (error_response e), w)) \/
  (exists e c rows',
     encode_one memory_text = Ok e /\
     Chroma.db_at w (server_client srv) !! server_memory_collection srv = Some c /\
     Chroma.add_rows (coll_rows c) [JStr memory_id] [e] [JStr memory_text]
       [memory_metadata ts] = Ok rows' /\
     remember srv token ts memory_text w
     = (Ok (memory_stored memory_id),
        Chroma.set_db (server_client srv)
          (<[server_memory_collection srv := mkCollection (coll_metadata c) rows']>
             (Chroma.db_at w (server_client srv))) w)).
Proof.
  intros memory_id. unfold remember, try_except, mbind, prog_bind, lift.
  destruct (encode_one memory_text) as [e|err]; [|left; by eexists].
  unfold Chroma.add. fold memory_id.
  destruct (Chroma.db_at w (server_client srv) !! server_memory_collection srv)
    as [c|] eqn:Ec; [|left; by eexists].
  destruct (Chroma.add_rows _ _ _ _ _) as [rows'|err] eqn:Ea; [|left; by eexists].
  right. exists e, c, rows'. done.
Qed.

End McpFacts.




(* ===================================================================== *)
(** * More on the validator                                                *)
(* ===================================================================== *)

Lemma repeats_size (seen : gset (list N)) (ids : list (list N)) :
  repeats seen ids + size (seen ∪ list_to_set ids) = length ids + size seen.
Proof.
  revert seen. induction ids as [|i ids IH]; intros seen; simpl.
  - rewrite (right_id_L ∅ (∪)). lia.
  - destruct (decide (i ∈ seen)) as [Hi|Hi].
    + specialize (IH seen).
      replace (seen ∪ ({[i]} ∪ list_to_set ids)) with (seen ∪ list_to_set ids).
      * lia.
      * rewrite (assoc_L (∪)). by rewrite (union_seen seen i Hi).
    + specialize (IH (seen ∪ {[ i ]})). rewrite (assoc_L (∪)).
      assert (size (seen ∪ {[ i ]}) = S (size seen)) as Hs.
      { rewrite size_union, size_singleton; [lia|].
        intros j Hj Hj'. apply elem_of_singleton in Hj'. by subst. }
      lia.
Qed.

Lemma repeats_zero (seen : gset (list N)) (ids : list (list N)) :
  repeats seen ids = 0 -> NoDup ids.
Proof.
  revert seen. induction ids as [|i ids IH]; intros seen; simpl; [constructor|].
  destruct (decide (i ∈ seen)) as [Hi|Hi]; [done|].
  intros Hr. constructor; [|by eapply IH].
  intros Hin. apply list_elem_of_split in Hin as (a & b & ->).
  rewrite repeats_app in Hr. simpl in Hr.
  rewrite decide_True in Hr by set_solver. lia.
Qed.

Lemma doc_ids_line_ids lines kinds :
  Forall2 (fun l k => classify l = Some k) lines kinds -> doc_ids kinds = line_ids lines.
Proof.
  unfold line_ids. induction 1 as [|l k lines kinds Hk _ IH]; simpl; [done|].
  rewrite Hk. destruct k; simpl; by rewrite ?IH.
Qed.

Lemma count_doc_ids kinds : count_kind is_doc kinds = length (doc_ids kinds).
Proof.
  induction kinds as [|k ks IH]; [done|].
  rewrite count_kind_cons, IH. by destruct k.
Qed.

Lemma clean_lines_kinds lines kinds :
  Forall2 (fun l k => classify l = Some k) lines kinds ->
  Forall clean_line lines <->
  count_kind is_malformed kinds = 0 /\ count_kind is_missing kinds = 0.
Proof.
  induction 1 as [|l k lines kinds Hk _ IH]; [done|].
  rewrite Forall_cons, !count_kind_cons, IH. unfold clean_line. rewrite Hk.
  destruct k; simpl; split.
  - intros [_ ?]. done.
  - intros ?. split; [by left|done].
  - intros [[|[i ?]] _]; done.
  - lia.
  - intros [[|[i ?]] _]; done.
  - lia.
  - intros [_ ?]. done.
  - intros ?. split; [right; by eexists|done].
Qed.

Section ValidatorReports.
Context `{UnicodeData}.

(** A report for an existing file comes from lines that all have a kind, and
    its counters are what the kinds say. *)
Lemma validate_report_inv (fs : gmap (list N) (list N)) path content r :
  fs !! path = Some content ->
  validate fs (DataValidator_init path) = Ok r ->
  exists kinds self',
    Forall2 (fun l k => classify l = Some k) (file_lines content) kinds /\
    r = _generate_report self' /\
    advanced (DataValidator_init path) self' ∅ kinds.
Proof.
  intros Hf Hr.
  assert (Forall (fun l => is_Some (classify l)) (file_lines content)) as Hall.
  { apply (validate_returns_iff fs path content Hf). eauto. }
  destruct (kinds_exist _ Hall) as [kinds Hk].
  destruct (validate_kinds fs path content kinds Hf Hk) as (self' & E & A).
  exists kinds, self'. split; [done|]. split; [congruence|done].
Qed.

Lemma path_exists_content (fs : gmap (list N) (list N)) path :
  path_exists fs path = true -> exists content, fs !! path = Some content.
Proof. unfold path_exists. destruct (fs !! path); [eauto|done]. Qed.

End ValidatorReports.

(** X1.  For an existing file, every report the validator returns lists as
    many errors as [json_errors], [missing_fields] and [duplicate_ids] add up
    to, and [validation_passed] is true exactly when the three counters are
    zero; warnings play no part in it. *)
Theorem validator_pass_criterion `{UnicodeData}
    (fs : gmap (list N) (list N)) (path : list N) (r : Report) :
  path_exists fs path = true ->
  validate fs (DataValidator_init path) = Ok r ->
  length (report_errors r)
  = json_errors (report_stats r) + missing_fields (report_stats r)
    + duplicate_ids (report_stats r) /\
  (validation_passed r = true <->
   json_errors (report_stats r) = 0 /\ missing_fields (report_stats r) = 0 /\
   duplicate_ids (report_stats r) = 0).
Proof.
  intros [content Hf]%path_exists_content Hr.
  destruct (validate_report_inv fs path content r Hf Hr) as (kinds & self' & _ & -> & A).
  destruct A as (_ & _ & A3 & A4 & _ & A6 & A7). simpl in *.
  split; [lia|]. destruct (errors self'); simpl in *; split; try done; lia.
Qed.

(** X1 at a sample file: three errors, and the flag is false. *)
Lemma validator_pass_criterion_witness :
  exists r,
    validate {[ data_path := with_duplicate ]} (DataValidator_init data_path) = Ok r /\
    length (report_errors r) = 3 /\ validation_passed r = false.
Proof.
  eexists. split; [vm_compute; reflexivity|].
  match goal with |- length (report_errors ?r) = _ /\ _ =>
    destruct (validator_pass_criterion {[ data_path := with_duplicate ]} data_path r)
      as [Hlen Hpass]
  end.
  - vm_compute. reflexivity.
  - vm_compute. reflexivity.
  - split; [rewrite Hlen; vm_compute; reflexivity|].
    apply not_true_is_false. intros Ht. apply Hpass in Ht as (Hj & _). vm_compute in Hj.
    discriminate.
Defined.

(** X2.  The validator passes a file exactly when the file exists, each of
    its lines is blank or a document (an object with a string id, a string
    source and a text that has a length), and no two documents have the same
    id. *)
Theorem validator_accepts_iff `{UnicodeData}
    (fs : gmap (list N) (list N)) (path : list N) :
  (exists r, validate fs (DataValidator_init path) = Ok r /\ validation_passed r = true)
  <->
  (exists content,
     fs !! path = Some content /\
     Forall clean_line (file_lines content) /\
     NoDup (line_ids (file_lines content))).
Proof.
  split.
  - intros (r & Hr & Hp).
    destruct (fs !! path) as [content|] eqn:Hf.
    2:{ revert Hr Hp. unfold validate, path_exists. simpl. rewrite Hf. simpl.
        intros [= <-]. done. }
    exists content. split; [done|].
    destruct (validate_report_inv fs path content r Hf Hr) as (kinds & self' & Hk & -> & A).
    destruct A as (_ & _ & A3 & A4 & _ & A6 & A7). simpl in *.
    destruct (errors self'); [|done]. simpl in A7.
    split.
    + apply (clean_lines_kinds _ _ Hk). lia.
    + rewrite <- (doc_ids_line_ids _ _ Hk). apply (repeats_zero ∅). lia.
  - intros (content & Hf & Hclean & Hnd).
    assert (Forall (fun l => is_Some (classify l)) (file_lines content)) as Hall.
    { eapply Forall_impl; [exact Hclean|]. intros l [->|[i ->]]; by eexists. }
    destruct (kinds_exist _ Hall) as [kinds Hk].
    destruct (validate_kinds fs path content kinds Hf Hk) as (self' & E & A).
    exists (_generate_report self'). split; [done|].
    destruct A as (_ & _ & A3 & A4 & _ & A6 & A7). simpl in *.
    apply (clean_lines_kinds _ _ Hk) in Hclean as [Hm Hs].
    rewrite <- (doc_ids_line_ids _ _ Hk) in Hnd.
    rewrite (repeats_fresh ∅ _ Hnd) in A7.
    2:{ intros i _. apply not_elem_of_empty. }
    destruct (errors self'); [done|]. simpl in A7. lia.
Qed.

(** X3.  In every report for an existing file, [valid_docs] is
    [duplicate_ids] plus the number of distinct ids among the documents. *)
Theorem validator_distinct_ids `{UnicodeData}
    (fs : gmap (list N) (list N)) (path content : list N) (r : Report) :
  fs !! path = Some content ->
  validate fs (DataValidator_init path) = Ok r ->
  valid_docs (report_stats r)
  = duplicate_ids (report_stats r)
    + size (list_to_set (line_ids (file_lines content)) : gset (list N)).
Proof.
  intros Hf Hr.
  destruct (validate_report_inv fs path content r Hf Hr) as (kinds & self' & Hk & -> & A).
  destruct A as (_ & _ & _ & _ & A5 & A6 & _). simpl in *.
  rewrite A5, A6, count_doc_ids, <- (doc_ids_line_ids _ _ Hk).
  pose proof (repeats_size ∅ (doc_ids kinds)) as Hs.
  rewrite (left_id_L ∅ (∪)), size_empty in Hs. lia.
Qed.

(** X3 at a sample file: four documents, one repeated id, three ids. *)
Lemma validator_distinct_ids_witness :
  exists r,
    validate {[ data_path := with_duplicate ]} (DataValidator_init data_path) = Ok r /\
    valid_docs (report_stats r) = duplicate_ids (report_stats r) + 3.
Proof.
  eexists. split; [vm_compute; reflexivity|].
  match goal with |- valid_docs (report_stats ?r) = _ =>
    rewrite (validator_distinct_ids {[ data_path := with_duplicate ]} data_path
               with_duplicate r)
  end.
  - f_equal.
  - vm_compute. reflexivity.
  - vm_compute. reflexivity.
Defined.

(** ** The statistics of the documents *)

Lemma counter_total_incr (key : list N) (c : gmap (list N) nat) :
  counter_total (counter_incr key c) = S (counter_total c).
Proof.
  unfold counter_total, counter_incr.
  destruct (c !! key) as [n|] eqn:E; simpl.
  - rewrite <- (insert_delete_eq c key (S n)).
    rewrite map_fold_insert_L; [|intros; lia|apply lookup_delete_eq].
    rewrite (map_fold_delete_L _ _ key n c); [lia|intros; lia|done].
  - rewrite map_fold_insert_L; [lia|intros; lia|done].
Qed.

Section ValidatorStatistics.
Context `{UnicodeData}.

Lemma collect_stats_tallied self data self' :
  _collect_stats self data = Ok self' ->
  length (text_lengths (stats self')) = S (length (text_lengths (stats self))) /\
  counter_total (id_patterns (stats self')) = S (counter_total (id_patterns (stats self))) /\
  counter_total (source_patterns (stats self'))
  = S (counter_total (source_patterns (stats self))).
Proof.
  unfold _collect_stats.
  destruct (py_getitem data (py "text")) as [t|]; simpl; [|done].
  destruct (py_len t) as [len|]; simpl; [|done].
  destruct (py_getitem data (py "id")) as [i|]; simpl; [|done].
  destruct (_extract_pattern i) as [ip|]; simpl; [|done].
  destruct (py_getitem data (py "source")) as [s|]; simpl; [|done].
  destruct (_extract_pattern s) as [sp|]; simpl; [|done].
  intros [= <-]. simpl. rewrite length_app, !counter_total_incr. simpl. lia.
Qed.

Lemma validate_line_tallied n line self seen self' seen' :
  validate_line n line (self, seen) = Ok (self', seen') ->
  tallied (stats self) -> tallied (stats self').
Proof.
  unfold validate_line, tallied.
  destruct (blank line).
  { intros [= <- <-]. done. }
  destruct (Json.loads line) as [data|e].
  2:{ destruct e; try done. intros [= <- <-]. done. }
  destruct (_validate_document (set_stats incr_total_lines self) data n)
    as [[b self1]|] eqn:E; simpl; [|done].
  apply validate_document_core in E. destruct E as [E _].
  destruct b.
  - destruct (py_getitem data (py "id")) as [i|]; simpl; [|done].
    destruct i; try done.
    destruct (decide (s ∈ seen)).
    + destruct (_collect_stats _ data) as [self2|] eqn:E2; simpl; [|done].
      pose proof (collect_stats_tallied _ _ _ E2) as (T1 & T2 & T3).
      apply collect_stats_core in E2. destruct E2 as (_ & _ & E4 & _).
      intros [= <- <-]. rewrite T1, T2, T3, E4. simpl. rewrite E. simpl. lia.
    + destruct (_collect_stats _ data) as [self2|] eqn:E2; simpl; [|done].
      pose proof (collect_stats_tallied _ _ _ E2) as (T1 & T2 & T3).
      apply collect_stats_core in E2. destruct E2 as (_ & _ & E4 & _).
      intros [= <- <-]. rewrite T1, T2, T3, E4. simpl. rewrite E. simpl. lia.
  - intros [= <- <-]. simpl. rewrite E. done.
Qed.

Lemma validate_lines_tallied lines n self seen self' seen' :
  validate_lines lines n (self, seen) = Ok (self', seen') ->
  tallied (stats self) -> tallied (stats self').
Proof.
  revert n self seen. induction lines as [|l lines IH]; simpl; intros n self seen.
  - intros [= <- <-]. done.
  - destruct (validate_line n l (self, seen)) as [[self1 seen1]|] eqn:E; simpl; [|done].
    intros E2 Hp. eapply IH; [exact E2|]. eapply validate_line_tallied; eauto.
Qed.

(** Every report comes from a validator whose statistics are in step. *)
Lemma validate_tallied (fs : gmap (list N) (list N)) path r :
  validate fs (DataValidator_init path) = Ok r ->
  exists self, r = _generate_report self /\ tallied (stats self).
Proof.
  unfold validate. simpl.
  assert (tallied (mkStats 0 0 0 0 0 0 [] ∅ ∅)) as H0.
  { unfold tallied, counter_total. simpl. by rewrite map_fold_empty. }
  destruct (path_exists fs path); simpl.
  - destruct (open_lines fs path) as [lines|]; simpl; [|done].
    destruct (validate_lines lines 1 (DataValidator_init path, ∅))
      as [[self' seen']|] eqn:E; simpl; [|done].
    intros [= <-]. exists self'. split; [done|].
    eapply validate_lines_tallied; [exact E|]. exact H0.
  - intros [= <-]. eexists. split; [done|]. exact H0.
Qed.

End ValidatorStatistics.

(** X4.  In every report of the validator the list of text lengths has one
    entry for each valid document, the counts of the id patterns and of the
    source patterns each add up to [valid_docs], and the statistics of the
    text lengths are left out exactly when there is no valid document. *)
Theorem validator_statistics_in_step `{UnicodeData}
    (fs : gmap (list N) (list N)) (path : list N) (r : Report) :
  validate fs (DataValidator_init path) = Ok r ->
  length (text_lengths (report_stats r)) = valid_docs (report_stats r) /\
  counter_total (id_patterns (report_stats r)) = valid_docs (report_stats r) /\
  counter_total (source_patterns (report_stats r)) = valid_docs (report_stats r) /\
  (text_length_stats r = None <-> valid_docs (report_stats r) = 0).
Proof.
  intros Hr. destruct (validate_tallied fs path r Hr) as (self & -> & T1 & T2 & T3).
  simpl. repeat (split; [done|]).
  destruct (text_lengths (stats self)); simpl in *; split; try done; lia.
Qed.

(** X4 at a sample file with four documents. *)
Lemma validator_statistics_in_step_witness :
  exists r,
    validate {[ data_path := with_duplicate ]} (DataValidator_init data_path) = Ok r /\
    length (text_lengths (report_stats r)) = 4 /\
    counter_total (id_patterns (report_stats r)) = 4.
Proof.
  eexists. split; [vm_compute; reflexivity|].
  match goal with |- length (text_lengths (report_stats ?r)) = _ /\ _ =>
    destruct (validator_statistics_in_step {[ data_path := with_duplicate ]} data_path r)
      as (H1 & H2 & _)
  end.
  - vm_compute. reflexivity.
  - rewrite H1, H2. split; vm_compute; reflexivity.
Defined.

(** ** The statistics of the text lengths *)

Lemma list_min_spec (x : nat) (l : list nat) :
  list_min (x :: l) ∈ x :: l /\ Forall (fun y => list_min (x :: l) <= y) (x :: l).
Proof.
  unfold list_min. induction l as [|y l [IHin IHle]]; simpl.
  - split; [left|by repeat constructor].
  - apply Forall_cons in IHle as [Hx Hl]. split.
    + destruct (Nat.min_spec y (foldr Nat.min x l)) as [[_ ->]|[_ ->]].
      * right. left.
      * apply elem_of_cons in IHin as [->|Hin]; [left|right; by right].
    + repeat constructor; [lia|lia|].
      eapply Forall_impl; [exact Hl|]. simpl. intros z Hz. lia.
Qed.

Lemma list_max_spec (x : nat) (l : list nat) :
  list_max (x :: l) ∈ x :: l /\ Forall (fun y => y <= list_max (x :: l)) (x :: l).
Proof.
  unfold list_max. revert x. induction l as [|y l IH]; intros x; simpl.
  - rewrite Nat.max_0_r. split; [left|by repeat constructor].
  - destruct (IH y) as [IHin IHle]. simpl in *. split.
    + destruct (Nat.max_spec x (Nat.max y (foldr Nat.max 0 l))) as [[_ ->]|[_ ->]].
      * by right.
      * left.
    + constructor; [lia|].
      eapply Forall_impl; [exact IHle|]. simpl. intros z Hz. lia.
Qed.

(** The element in the middle of the sorted list splits the list: as many
    elements as half the length, rounded down, are at most it, and the
    others are at least it. *)
Lemma middle_of_sorted (l : list nat) :
  l <> [] ->
  let m := nth (length l / 2) (merge_sort Nat.le l) 0 in
  exists lo hi,
    l ≡ₚ lo ++ m :: hi /\ length lo = length l / 2 /\
    Forall (fun y => y <= m) lo /\ Forall (fun y => m <= y) hi.
Proof.
  intros Hne m.
  pose proof (merge_sort_Permutation Nat.le l) as Hp.
  pose proof (StronglySorted_merge_sort Nat.le l) as Hs.
  set (s := merge_sort Nat.le l) in *.
  assert (length s = length l) as Hlen by (by rewrite Hp).
  assert (length l / 2 < length s) as Hk.
  { rewrite Hlen. destruct l; [done|]. apply Nat.div_lt; simpl; lia. }
  assert (s !! (length l / 2) = Some m) as Hm.
  { unfold m. destruct (lookup_lt_is_Some_2 s _ Hk) as [y Hy].
    rewrite Hy. f_equal. symmetry. by apply nth_lookup_Some. }
  exists (take (length l / 2) s), (drop (S (length l / 2)) s).
  pose proof (take_drop_middle s _ m Hm) as Hsplit.
  split; [by rewrite Hsplit|]. split; [rewrite length_take; lia|].
  rewrite <- Hsplit in Hs. apply StronglySorted_app in Hs as (Hlo & _ & Hhi).
  apply StronglySorted_cons in Hhi as [Hhi _]. split; [|done].
  apply Forall_forall. intros y Hy. apply Hlo; [done|left].
Qed.

(** X5.  When a report has statistics of the text lengths, its minimum and
    maximum are lengths of the list that bound all of them, the average is
    kept as their sum over [valid_docs], and the median is the length in the
    middle of the sorted list (for an even number of lengths the upper one of
    the two in the middle): half of the others, rounded down, are at most it
    and the rest are at least it. *)
Theorem length_statistics `{UnicodeData}
    (fs : gmap (list N) (list N)) (path : list N) (r : Report) (ls : LengthStats) :
  validate fs (DataValidator_init path) = Ok r ->
  text_length_stats r = Some ls ->
  let lengths := text_lengths (report_stats r) in
  len_min ls ∈ lengths /\ len_max ls ∈ lengths /\
  Forall (fun l => len_min ls <= l <= len_max ls) lengths /\
  len_avg ls = (sum_list lengths, valid_docs (report_stats r)) /\
  exists lo hi,
    lengths ≡ₚ lo ++ len_median ls :: hi /\ length lo = length lengths / 2 /\
    Forall (fun l => l <= len_median ls) lo /\ Forall (fun l => len_median ls <= l) hi.
Proof.
  intros Hr. destruct (validate_tallied fs path r Hr) as (self & -> & T1 & _).
  simpl. destruct (text_lengths (stats self)) as [|x l] eqn:El; [done|].
  intros [= <-]. simpl len_min. simpl len_max. simpl len_avg. simpl len_median.
  destruct (list_min_spec x l) as [Hmin Hle].
  destruct (list_max_spec x l) as [Hmax Hge].
  split; [done|]. split; [done|]. split.
  { apply Forall_forall. intros y Hy.
    rewrite Forall_forall in Hle, Hge. split; [by apply Hle|by apply Hge]. }
  split; [by rewrite <- T1|].
  by apply (middle_of_sorted (x :: l)).
Qed.

(** X5 at a sample file: the lengths are 20 four times over. *)
Lemma length_statistics_witness :
  exists r ls,
    validate {[ data_path := with_duplicate ]} (DataValidator_init data_path) = Ok r /\
    text_length_stats r = Some ls /\
    len_min ls ∈ text_lengths (report_stats r) /\
    len_avg ls = (80, 4).
Proof.
  eexists. eexists. split; [vm_compute; reflexivity|]. split; [vm_compute; reflexivity|].
  match goal with |- len_min ?ls ∈ text_lengths (report_stats ?r) /\ _ =>
    destruct (length_statistics {[ data_path := with_duplicate ]} data_path r ls)
      as (H1 & _ & _ & H4 & _)
  end.
  - vm_compute. reflexivity.
  - vm_compute. reflexivity.
  - split; [exact H1|]. rewrite H4. vm_compute. reflexivity.
Defined.

(** ** The patterns of ids and sources *)

Section Patterns.
Context `{UnicodeData}.

(** The two substitutions of [_extract_pattern], one after the other, are one
    substitution over digits and letters together: the N that stands for a
    run of digits is a letter, and becomes part of a run of letters. *)
Lemma sub_runs_twice (s : list N) (in_digits in_letters : bool) :
  (in_digits = true -> in_letters = true) ->
  sub_runs ascii_letter (chr "A") in_letters
    (sub_runs decimal_digit (chr "N") in_digits s)
  = sub_runs alphanumeric (chr "A") in_letters s.
Proof.
  revert in_digits in_letters. induction s as [|c s IH]; intros r1 r2 Hr; [done|].
  simpl. unfold alphanumeric at 1. destruct (decimal_digit c); simpl.
  - destruct r1.
    + rewrite (Hr eq_refl). by apply IH.
    + simpl. change (ascii_letter (chr "N")) with true. cbv iota.
      destruct r2; by rewrite IH.
  - destruct (ascii_letter c); destruct r2; by rewrite IH.
Qed.

Lemma sub_runs_letters (p : N -> bool) (rep : N) (in_run : bool) (s : list N) :
  Forall (fun c => p c = true -> c = rep) (sub_runs p rep in_run s).
Proof.
  revert in_run. induction s as [|c s IH]; intros r; simpl; [constructor|].
  destruct (p c) eqn:E.
  - destruct r; [apply IH|]. constructor; [done|apply IH].
  - constructor; [congruence|apply IH].
Qed.

Lemma sub_runs_length (p : N -> bool) (rep : N) (in_run : bool) (s : list N) :
  length (sub_runs p rep in_run s) <= length s.
Proof.
  revert in_run. induction s as [|c s IH]; intros r; simpl; [done|].
  pose proof (IH true). pose proof (IH false).
  destruct (p c); [destruct r|]; simpl; lia.
Qed.

End Patterns.

(** X6.  [_extract_pattern] puts one A for every run of decimal digits and
    ASCII letters taken together: the N it first puts for a run of digits is
    itself a letter and is swept up by the second substitution.  So a pattern
    tells digits from letters nowhere, every digit or letter in it is an A,
    and it is never longer than the string. *)
Theorem extract_pattern_one_class `{UnicodeData} (s : list N) :
  _extract_pattern (JStr s) = Ok (sub_runs alphanumeric (chr "A") false s) /\
  Forall (fun c => alphanumeric c = true -> c = chr "A")
    (sub_runs alphanumeric (chr "A") false s) /\
  length (sub_runs alphanumeric (chr "A") false s) <= length s.
Proof.
  split; [|split].
  - unfold _extract_pattern. f_equal. by apply sub_runs_twice.
  - apply sub_runs_letters.
  - apply sub_runs_length.
Qed.

(* ===================================================================== *)
(** * More on the vectorizer                                               *)
(* ===================================================================== *)

(** ** The name of the collection *)

Lemma has_char_rev (c : N) (s : list N) : has_char c (rev s) = has_char c s.
Proof.
  induction s as [|x s IH]; simpl; [done|].
  rewrite has_char_app, IH. simpl. rewrite orb_false_r. apply orb_comm.
Qed.

Lemma last_piece_no_sep (sep : N) (acc s : list N) :
  has_char sep acc = false -> has_char sep (last_piece sep acc s) = false.
Proof.
  revert acc. induction s as [|c s IH]; intros acc Hacc; simpl.
  - by rewrite has_char_rev.
  - destruct (N.eqb_spec c sep) as [->|Hne].
    + by apply IH.
    + apply IH. simpl. rewrite Hacc, orb_false_r. by apply N.eqb_neq.
Qed.

Lemma split_last_no_sep (sep : N) (s : list N) : has_char sep (split_last sep s) = false.
Proof. by apply last_piece_no_sep. Qed.

Lemma split_last_idem (sep : N) (s : list N) :
  split_last sep (split_last sep s) = split_last sep s.
Proof.
  unfold split_last at 1. rewrite last_piece_absent; [done|apply split_last_no_sep].
Qed.

Lemma model_short_name (model : list N) :
  (if has_char (chr "/") model then split_last (chr "/") model else model)
  = split_last (chr "/") model.
Proof.
  destruct (has_char (chr "/") model) eqn:E; [done|].
  unfold split_last. by rewrite last_piece_absent.
Qed.

(** X7.  The collection name depends on the input path only through its base
    name and on the model name only through the part after its last slash,
    and it is never longer than 63 characters: input files of one name in
    different directories, run with models of one short name, share one
    collection. *)
Theorem collection_name_of_base_names (input model : list N) :
  derive_collection_name input model
  = derive_collection_name (basename input) (split_last (chr "/") model) /\
  length (derive_collection_name input model) <= 63 /\
  (forall input' model',
     basename input' = basename input ->
     split_last (chr "/") model' = split_last (chr "/") model ->
     derive_collection_name input' model' = derive_collection_name input model).
Proof.
  assert (forall i m,
    derive_collection_name i m
    = (let n := replace (py ".jsonl") [] (basename i) ++ py "_" ++ split_last (chr "/") m in
       if 63 <? length n then take 63 n else n)) as Hd.
  { intros i m. unfold derive_collection_name. by rewrite model_short_name. }
  split; [|split].
  - rewrite !Hd. unfold basename. by rewrite !split_last_idem.
  - rewrite Hd. cbv zeta.
    match goal with |- context [if ?c then _ else _] => destruct c eqn:E end.
    + rewrite length_take. lia.
    + apply Nat.ltb_ge in E. lia.
  - intros input' model' Hi Hm. by rewrite !Hd, Hi, Hm.
Qed.

(** ** The steps of a run *)

Lemma only_touches_refl dir name w : only_touches dir name w w.
Proof. split; [|split; [|split]]; done. Qed.

Lemma only_touches_trans dir name w1 w2 w3 :
  only_touches dir name w1 w2 -> only_touches dir name w2 w3 ->
  only_touches dir name w1 w3.
Proof.
  intros (A1 & A2 & A3 & A4) (B1 & B2 & B3 & B4). split; [|split; [|split]].
  - intros d Hd. by rewrite B1, A1.
  - intros n Hn. by rewrite B2, A2.
  - intros p Hp. by rewrite B3, A3.
  - by etrans.
Qed.

Lemma only_touches_set_db dir name db w :
  (forall n, n <> name -> db !! n = Chroma.db_at w dir !! n) ->
  only_touches dir name w (Chroma.set_db dir db w).
Proof.
  intros Hdb. split; [|split; [|split]].
  - intros d Hd. simpl. by rewrite lookup_insert_ne.
  - intros n Hn. rewrite db_at_set_db. by apply Hdb.
  - done.
  - done.
Qed.

Section VectorizerSteps.
Context `{VectorStore} `{EmbeddingModel}.

(** [process_and_store_chunks] step by step: the three lists, the number of
    batches, the embeddings of all batches, and only then the calls of the
    store. *)
Lemma process_unfold (self : ChunkVectorizer) (chunks : list json) (w : World) :
  chunks <> [] ->
  process_and_store_chunks self chunks w =
  match for_each (fun c => py_getitem c (py "id")) chunks with
  | Raise e => (Raise e, w)
  | Ok ids =>
  match for_each (fun c => py_getitem c (py "text")) chunks with
  | Raise e => (Raise e, w)
  | Ok texts =>
  match for_each (fun c => s ← py_getitem c (py "source"); Ok [(py "source", s)]) chunks with
  | Raise e => (Raise e, w)
  | Ok metas =>
  match total_batches (Z.of_nat (length chunks)) (batch_size (config self)) with
  | Raise e => (Raise e, w)
  | Ok _ =>
  match batches_of texts (batch_size (config self)) with
  | Raise e => (Raise e, w)
  | Ok tb =>
  match embed_batches (config self) tb with
  | Raise e => (Raise e, w)
  | Ok (embs, _) =>
  match py_range 0 (Z.of_nat (length chunks)) (batch_size (config self)) with
  | Raise e => (Raise e, w)
  | Ok starts =>
      store_batches self (batch_size (config self)) ids embs texts metas starts w
  end end end end end end end.
Proof.
  intros Hne. destruct chunks as [|c0 chunks0]; [done|].
  unfold process_and_store_chunks. cbv beta iota zeta.
  set (chunks := c0 :: chunks0). clearbody chunks.
  unfold mbind, prog_bind, lift.
  destruct (for_each (fun c => py_getitem c (py "id")) chunks); [|done].
  destruct (for_each (fun c => py_getitem c (py "text")) chunks); [|done].
  destruct (for_each _ chunks); [|done].
  destruct (total_batches _ _); [|done].
  destruct (batches_of _ _); [|done].
  destruct (embed_batches _ _) as [[embs tokens]|]; [|done].
  destruct (py_range _ _ _); [|done].
  done.
Qed.

Lemma add_only_touches client name ids embs docs metas w r w' :
  Chroma.add client name ids embs docs metas w = (r, w') ->
  only_touches client name w w'.
Proof.
  unfold Chroma.add.
  destruct (Chroma.db_at w client !! name) as [c|];
    [|intros [= <- <-]; apply only_touches_refl].
  destruct (Chroma.add_rows _ _ _ _ _); intros [= <- <-]; [|apply only_touches_refl].
  apply only_touches_set_db. intros n Hn. by rewrite lookup_insert_ne.
Qed.

Lemma store_batches_only_touches self b ids embs docs metas starts w r w' :
  store_batches self b ids embs docs metas starts w = (r, w') ->
  only_touches (client self) (collection_name self) w w'.
Proof.
  unfold store_batches. revert w. induction starts as [|i starts IH]; intros w; simpl.
  - intros [= <- <-]. apply only_touches_refl.
  - unfold mbind, prog_bind.
    destruct (Chroma.add _ _ _ _ _ _ w) as [[[]|e] w1] eqn:E.
    + intros Hrest. eapply only_touches_trans; [by eapply add_only_touches|by eapply IH].
    + intros [= <- <-]. by eapply add_only_touches.
Qed.

Lemma process_only_touches self chunks w r w' :
  process_and_store_chunks self chunks w = (r, w') ->
  only_touches (client self) (collection_name self) w w'.
Proof.
  destruct chunks as [|c0 chunks0].
  { intros [= <- <-]. apply only_touches_refl. }
  rewrite process_unfold by done.
  repeat match goal with
         | |- context [match ?x with Ok _ => _ | Raise _ => _ end] =>
             destruct x as [?|?]; [|intros [= <- <-]; apply only_touches_refl]
         | |- context [let '(_, _) := ?p in _] => destruct p
         end.
  apply store_batches_only_touches.
Qed.

Lemma load_chunks_world self w : snd (load_chunks self w) = w.
Proof. done. Qed.

Lemma setup_only_touches cfg ts w r w' :
  _setup_collection cfg ts w = (r, w') ->
  only_touches (db_directory cfg)
    (derive_collection_name (input_file cfg) (model_name cfg)) w w'.
Proof.
  rewrite setup_collection_outcome.
  set (name := derive_collection_name (input_file cfg) (model_name cfg)).
  set (dir := db_directory cfg).
  destruct (name_ok name); intros [= <- <-].
  - unfold world_after_setup. fold name dir. split; [|split; [|split]].
    + intros d Hd. simpl. by rewrite lookup_insert_ne.
    + intros n Hn. unfold Chroma.db_at at 1. simpl. rewrite lookup_insert_eq. simpl.
      by rewrite lookup_insert_ne.
    + intros p Hp. simpl. by rewrite lookup_insert_ne.
    + simpl. rewrite lookup_insert_eq. simpl. by apply prefix_app_r.
  - apply only_touches_set_db. intros n Hn. by rewrite lookup_delete_ne.
Qed.

End VectorizerSteps.

(** X8.  Whatever its outcome, a run of the vectorizer changes nothing but
    the collection of the derived name in its database directory and the log
    file collections.txt, which only grows: every other collection, every
    other database and every other file is as before. *)
Theorem run_touches_one_collection `{VectorStore} `{EmbeddingModel}
    (cfg : Config) (ts : list N) (w w' : World) (r : result unit) :
  vectorizer_main cfg ts w = (r, w') ->
  let name := derive_collection_name (input_file cfg) (model_name cfg) in
  (forall d, d <> db_directory cfg -> stores w' !! d = stores w !! d) /\
  (forall n, n <> name ->
     Chroma.db_at w' (db_directory cfg) !! n = Chroma.db_at w (db_directory cfg) !! n) /\
  (forall p, p <> collections_file -> files w' !! p = files w !! p) /\
  default [] (files w !! collections_file)
    `prefix_of` default [] (files w' !! collections_file).
Proof.
  intros Hrun name.
  change (only_touches (db_directory cfg) name w w').
  revert Hrun. unfold vectorizer_main, ChunkVectorizer_init.
  unfold mbind at 1 2, prog_bind at 1 2.
  destruct (_setup_collection cfg ts w) as [[self|e] w1] eqn:Es.
  2:{ intros [= <- <-]. by eapply setup_only_touches. }
  pose proof (setup_only_touches _ _ _ _ _ Es) as T1.
  assert (client self = db_directory cfg /\ collection_name self = name) as [Hc Hn].
  { rewrite setup_collection_outcome in Es. fold name in Es.
    destruct (name_ok name); [|done]. by injection Es as <- <-. }
  unfold _load_model, lift. destruct (model_available (model_name cfg)).
  2:{ intros [= <- <-]. done. }
  simpl. unfold run, mbind, prog_bind.
  destruct (load_chunks self w1) as [[chunks|e] w2] eqn:El.
  - assert (w2 = w1) as -> by (unfold load_chunks in El; congruence).
    intros Hp. apply process_only_touches in Hp. rewrite Hc, Hn in Hp.
    by eapply only_touches_trans.
  - assert (w2 = w1) as -> by (unfold load_chunks in El; congruence).
    intros [= <- <-]. done.
Qed.

(** X8 at the sample run: the log file grows and the input file stays. *)
Lemma run_touches_one_collection_witness :
  files (snd first_run) !! data_path = Some three_docs /\
  [] `prefix_of` default [] (files (snd first_run) !! collections_file).
Proof.
  destruct (run_touches_one_collection sample_config sample_time world_with_input
              (snd first_run) (fst first_run)) as (_ & _ & Hf & Hlog).
  - unfold first_run. by destruct (vectorizer_main _ _ _).
  - split.
    + rewrite Hf; [vm_compute; reflexivity|]. vm_compute. discriminate.
    + exact Hlog.
Defined.

(** ** Runs that store nothing *)

Lemma parse_chunks_blank (lines : list (list N)) :
  Forall (fun l => blank l = true) lines -> parse_chunks lines = Ok [].
Proof. induction 1 as [|l lines Hl _ IH]; simpl; [done|]. by rewrite Hl. Qed.

Lemma for_each_length {A B} (f : A -> result B) (l : list A) (ys : list B) :
  for_each f l = Ok ys -> length ys = length l.
Proof.
  revert ys. induction l as [|x l IH]; intros ys; simpl.
  - by intros [= <-].
  - destruct (f x); simpl; [|done]. destruct (for_each f l) as [zs|]; simpl; [|done].
    intros [= <-]. simpl. by rewrite (IH zs).
Qed.

Lemma for_each_Forall {A B} (f : A -> result B) (l : list A) (ys : list B) :
  for_each f l = Ok ys -> Forall (fun x => is_ok (f x) = true) l.
Proof.
  revert ys. induction l as [|x l IH]; intros ys; simpl; [constructor|].
  destruct (f x) eqn:E; simpl; [|done]. destruct (for_each f l); simpl; [|done].
  intros _. constructor; [by rewrite E|by eapply IH].
Qed.

(** Reading one field of every chunk, where all chunks are objects: the
    values, or [KeyError] when a chunk has no such field. *)
Lemma getitem_all (f : list N) (chunks : list json) :
  Forall (fun c => exists d, c = JObj d) chunks ->
  for_each (fun c => py_getitem c f) chunks =
  if forallb (fun c => has_field c f) chunks
  then Ok (map (chunk_field f) chunks) else Raise KeyError.
Proof.
  induction 1 as [|c chunks [d ->] _ IH]; simpl; [done|].
  unfold has_field at 1. simpl. destruct (dict_get f d) as [v|]; simpl; [|done].
  rewrite IH. by destruct (forallb _ chunks).
Qed.

Lemma getitem_all_source (chunks : list json) :
  Forall (fun c => exists d, c = JObj d) chunks ->
  for_each (fun c => s ← py_getitem c (py "source"); Ok [(py "source", s)]) chunks =
  if forallb (fun c => has_field c (py "source")) chunks
  then Ok (map (fun c => [(py "source", chunk_field (py "source") c)]) chunks)
  else Raise KeyError.
Proof.
  induction 1 as [|c chunks [d ->] _ IH]; simpl; [done|].
  unfold has_field at 1. simpl. destruct (dict_get (py "source") d) as [v|]; simpl; [|done].
  rewrite IH. by destruct (forallb _ chunks).
Qed.

Lemma has_fields_all (chunks : list json) :
  forallb has_fields chunks =
  forallb (fun c => has_field c (py "id")) chunks
  && forallb (fun c => has_field c (py "text")) chunks
  && forallb (fun c => has_field c (py "source")) chunks.
Proof.
  induction chunks as [|c chunks IH]; simpl; [done|]. rewrite IH.
  unfold has_fields, required_fields. simpl. rewrite andb_true_r.
  destruct (has_field c (py "id")), (has_field c (py "text")),
    (has_field c (py "source")); simpl; try done;
    destruct (forallb (fun c => has_field c (py "id")) chunks); simpl; try done;
    destruct (forallb (fun c => has_field c (py "text")) chunks); simpl; done.
Qed.

Section QuietRuns.
Context `{VectorStore} `{EmbeddingModel}.

(** The chunks that [load_chunks] returns are objects. *)
Lemma load_chunks_objects (self : ChunkVectorizer) (w w' : World) (chunks : list json) :
  load_chunks self w = (Ok chunks, w') ->
  w' = w /\ Forall (fun c => exists d, c = JObj d) chunks.
Proof.
  unfold load_chunks, mbind, result_bind.
  destruct (open_lines _ _) as [lines|]; [|done].
  destruct (parse_chunks lines) as [cs|]; [|done].
  destruct cs as [|c cs].
  { intros [= <- <-]. done. }
  destruct (for_each chunk_text_length (c :: cs)) as [ys|] eqn:E; [|done].
  intros [= <- <-]. split; [done|].
  apply for_each_Forall in E. eapply Forall_impl; [exact E|].
  intros x. unfold chunk_text_length, py_get. destruct x; try done. by eexists.
Qed.

End QuietRuns.

(** X9.  On an input file that is empty or holds blank lines only, and that
    is not the log of collections, a run with a name the store accepts and a
    model that loads ends without an error once [_setup_collection] has done
    its work: the collection of the derived name is left empty, whatever it
    held before. *)
Theorem blank_input_stores_nothing `{VectorStore} `{EmbeddingModel}
    (cfg : Config) (ts : list N) (w : World) (content : list N) :
  files w !! input_file cfg = Some content ->
  Forall (fun l => blank l = true) (file_lines content) ->
  input_file cfg <> collections_file ->
  name_ok (derive_collection_name (input_file cfg) (model_name cfg)) = true ->
  model_available (model_name cfg) = true ->
  vectorizer_main cfg ts w = (Ok tt, world_after_setup cfg ts w) /\
  rows_of (world_after_setup cfg ts w) (db_directory cfg)
    (derive_collection_name (input_file cfg) (model_name cfg)) = Some [].
Proof.
  intros Hf Hblank Hne Hname Hmodel. split.
  - unfold vectorizer_main, ChunkVectorizer_init.
    unfold mbind at 1 2, prog_bind at 1 2.
    rewrite setup_collection_outcome, Hname.
    unfold _load_model, lift. rewrite Hmodel. simpl.
    unfold run, mbind, prog_bind, load_chunks, open_lines. simpl.
    rewrite lookup_insert_ne by done. rewrite Hf. simpl.
    by rewrite (parse_chunks_blank _ Hblank).
  - unfold rows_of, world_after_setup, Chroma.db_at. simpl.
    rewrite lookup_insert_eq. simpl. by rewrite lookup_insert_eq.
Qed.

(** X9 at a file of three blank lines. *)
Lemma blank_input_stores_nothing_witness :
  vectorizer_main sample_config sample_time world_with_blank_input
  = (Ok tt, world_after_setup sample_config sample_time world_with_blank_input).
Proof.
  apply (blank_input_stores_nothing sample_config sample_time world_with_blank_input
           blank_file).
  - vm_compute. reflexivity.
  - repeat constructor.
  - vm_compute. discriminate.
  - vm_compute. reflexivity.
  - reflexivity.
Defined.

(** X10.  When a chunk that [load_chunks] returned lacks an id, a text or a
    source, the run raises [KeyError] while it builds its three lists: no
    text has been handed to the model and nothing has been stored. *)
Theorem missing_field_stops_run `{VectorStore} `{EmbeddingModel}
    (self : ChunkVectorizer) (w : World) (chunks : list json) :
  load_chunks self w = (Ok chunks, w) ->
  Exists (fun c => has_fields c = false) chunks ->
  run self w = (Raise KeyError, w).
Proof.
  intros Hload Hex. unfold run, mbind, prog_bind. rewrite Hload.
  apply load_chunks_objects in Hload as [_ Hobj].
  assert (chunks <> []) as Hne by (by destruct Hex).
  assert (forallb has_fields chunks = false) as Hall.
  { apply not_true_is_false. intros Ht. rewrite forallb_forall in Ht.
    apply Exists_exists in Hex as (c & Hc & Hf). apply list_elem_of_In in Hc.
    rewrite (Ht c Hc) in Hf. done. }
  rewrite has_fields_all in Hall.
  rewrite process_unfold by done.
  rewrite (getitem_all _ _ Hobj).
  destruct (forallb (fun c => has_field c (py "id")) chunks); [|done].
  rewrite (getitem_all _ _ Hobj).
  destruct (forallb (fun c => has_field c (py "text")) chunks); [|done].
  rewrite (getitem_all_source _ Hobj).
  destruct (forallb (fun c => has_field c (py "source")) chunks); done.
Qed.

(** X10 at a file whose second line has no source. *)
Lemma missing_field_stops_run_witness :
  run sample_vectorizer (world_ready (good_line "1" ++ no_source_line))
  = (Raise KeyError, world_ready (good_line "1" ++ no_source_line)).
Proof.
  eapply (missing_field_stops_run sample_vectorizer).
  - vm_compute. reflexivity.
  - apply Exists_cons_tl. apply Exists_cons_hd. vm_compute. reflexivity.
Defined.

(** ** The batch size, and failures of the model *)

Lemma forallb_has_fields (chunks : list json) :
  Forall (fun c => has_fields c = true) chunks -> forallb has_fields chunks = true.
Proof. intros Hall. apply forallb_forall. intros c Hc%list_elem_of_In.
  rewrite Forall_forall in Hall. by apply Hall. Qed.

Section BatchSize.
Context `{VectorStore} `{EmbeddingModel}.

(** With objects that have the three fields, the run gets as far as the
    number of batches. *)
Lemma process_with_fields (self : ChunkVectorizer) (chunks : list json) (w : World) :
  chunks <> [] ->
  Forall (fun c => exists d, c = JObj d) chunks ->
  Forall (fun c => has_fields c = true) chunks ->
  process_and_store_chunks self chunks w =
  match total_batches (Z.of_nat (length chunks)) (batch_size (config self)) with
  | Raise e => (Raise e, w)
  | Ok _ =>
  match batches_of (map (chunk_field (py "text")) chunks) (batch_size (config self)) with
  | Raise e => (Raise e, w)
  | Ok tb =>
  match embed_batches (config self) tb with
  | Raise e => (Raise e, w)
  | Ok (embs, _) =>
  match py_range 0 (Z.of_nat (length chunks)) (batch_size (config self)) with
  | Raise e => (Raise e, w)
  | Ok starts =>
      store_batches self (batch_size (config self))
        (map (chunk_field (py "id")) chunks) embs
        (map (chunk_field (py "text")) chunks)
        (map (fun c => [(py "source", chunk_field (py "source") c)]) chunks) starts w
  end end end end.
Proof.
  intros Hne Hobj Hall. apply forallb_has_fields in Hall.
  rewrite has_fields_all in Hall.
  apply andb_true_iff in Hall as [[Hi Ht]%andb_true_iff Hs].
  rewrite process_unfold by done.
  by rewrite !(getitem_all _ _ Hobj), (getitem_all_source _ Hobj), Hi, Ht, Hs.
Qed.

End BatchSize.

(** X11.  With a batch size of zero the run raises [ZeroDivisionError] when
    it computes the number of batches; with a negative batch size it ends
    without an error and without having embedded or stored anything, since
    [range(0, n, b)] is empty.  In both cases the collection is left as it
    was. *)
Theorem nonpositive_batch_size `{VectorStore} `{EmbeddingModel}
    (self : ChunkVectorizer) (w : World) (chunks : list json) :
  load_chunks self w = (Ok chunks, w) ->
  chunks <> [] ->
  Forall (fun c => has_fields c = true) chunks ->
  (batch_size (config self) = 0%Z -> run self w = (Raise ZeroDivisionError, w)) /\
  ((batch_size (config self) < 0)%Z -> run self w = (Ok tt, w)).
Proof.
  intros Hload Hne Hall. unfold run, mbind, prog_bind. rewrite Hload.
  apply load_chunks_objects in Hload as [_ Hobj].
  rewrite (process_with_fields self chunks w Hne Hobj Hall). split.
  - intros ->. done.
  - intros Hb. unfold total_batches, batches_of.
    assert ((batch_size (config self) =? 0)%Z = false) as -> by lia.
    rewrite length_map, !py_range_backwards by lia. done.
Qed.

(** X11 at the sample file of three documents, with batch sizes 0 and -2. *)
Lemma nonpositive_batch_size_witness :
  run (sample_vectorizer_with 0) (world_ready three_docs)
  = (Raise ZeroDivisionError, world_ready three_docs) /\
  run (sample_vectorizer_with (-2)) (world_ready three_docs)
  = (Ok tt, world_ready three_docs).
Proof.
  split.
  - eapply (nonpositive_batch_size (sample_vectorizer_with 0)).
    + vm_compute. reflexivity.
    + discriminate.
    + repeat constructor.
    + reflexivity.
  - eapply (nonpositive_batch_size (sample_vectorizer_with (-2))).
    + vm_compute. reflexivity.
    + discriminate.
    + repeat constructor.
    + reflexivity.
Defined.

(** X12.  All batches are embedded before the first one is stored: when the
    model (or its tokenizer) raises on any batch, the run raises and the
    collection holds nothing of the batches embedded before. *)
Theorem embedding_failure_stores_nothing `{VectorStore} `{EmbeddingModel}
    (self : ChunkVectorizer) (chunks : list json) (w : World)
    (texts : list json) (tb : list (list json)) (e : exn) :
  for_each (fun c => py_getitem c (py "text")) chunks = Ok texts ->
  batches_of texts (batch_size (config self)) = Ok tb ->
  embed_batches (config self) tb = Raise e ->
  exists e', process_and_store_chunks self chunks w = (Raise e', w).
Proof.
  intros Ht Hb He.
  assert (batch_size (config self) <> 0%Z) as Hb0.
  { intros Hz. unfold batches_of, py_range in Hb. by rewrite Hz in Hb. }
  assert (chunks <> []) as Hne.
  { intros ->. injection Ht as <-. unfold batches_of, py_range in Hb. simpl in Hb.
    destruct (batch_size (config self) =? 0)%Z; [done|].
    injection Hb as <-. done. }
  rewrite process_unfold by done. rewrite Ht, Hb, He.
  destruct (for_each (fun c => py_getitem c (py "id")) chunks); [|by eexists].
  destruct (for_each (fun c => s ← py_getitem c (py "source"); Ok [(py "source", s)])
              chunks); [|by eexists].
  unfold total_batches. destruct (Z.eqb_spec (batch_size (config self)) 0); [done|].
  by eexists.
Qed.

(** X12 at a file whose third text is a list, which the model refuses: the
    first batch of two was embedded, and the collection is empty. *)
Lemma embedding_failure_stores_nothing_witness :
  exists e',
    @process_and_store_chunks text_store text_model (sample_vectorizer_with 2)
      [chunk_of_line (good_line "1"); chunk_of_line (good_line "2");
       chunk_of_line list_text_line]
      (world_ready two_and_list)
    = (Raise e', world_ready two_and_list).
Proof.
  eapply (@embedding_failure_stores_nothing text_store text_model
            (sample_vectorizer_with 2)).
  - vm_compute. reflexivity.
  - vm_compute. reflexivity.
  - vm_compute. reflexivity.
Defined.

(** ** A failure of the store part of the way *)

Lemma zip_rows_ids a e d m :
  length e = length a -> length d = length a -> length m = length a ->
  map row_id (Chroma.zip_rows a e d m) = a /\
  map row_document (Chroma.zip_rows a e d m) = d.
Proof.
  revert e d m. induction a as [|i a IH]; intros [|x e] [|y d] [|z m]; simpl; try done.
  intros [= He] [= Hd] [= Hm]. destruct (IH e d m He Hd Hm) as [-> ->]. done.
Qed.

Section StoreFailure.
Context `{VectorStore} `{EmbeddingModel}.

(** The loop that stores the batches, whatever its outcome: with ids that do
    not repeat, the collection ends with the rows of the first [k] batches
    behind the rows it had, [k] being the number of calls of [add] that went
    through. *)
Lemma store_batches_any self (b : Z) ids embs docs metas (starts : list Z) :
  forall w r w' c,
    Chroma.db_at w (client self) !! collection_name self = Some c ->
    NoDup (map row_id
             (coll_rows c ++
              concat (map (batch_at (Chroma.zip_rows (map id_text ids) embs docs metas) b)
                        starts))) ->
    store_batches self b ids embs docs metas starts w = (r, w') ->
    exists k,
      rows_of w' (client self) (collection_name self)
      = Some (coll_rows c ++
              concat (map (batch_at (Chroma.zip_rows (map id_text ids) embs docs metas) b)
                        (take k starts))) /\
      (if is_ok r then k = length starts else k < length starts).
Proof.
  unfold store_batches.
  induction starts as [|i starts IH]; intros w r w' c Hc Hnd.
  - intros [= <- <-]. exists 0. unfold rows_of. rewrite Hc. simpl.
    by rewrite app_nil_r.
  - simpl. unfold mbind, prog_bind. unfold Chroma.add at 1. rewrite Hc.
    destruct (Chroma.add_rows _ _ _ _ _) as [R1|err] eqn:E.
    2:{ intros [= <- <-]. exists 0. unfold rows_of. rewrite Hc. simpl.
        rewrite app_nil_r. split; [done|lia]. }
    apply add_rows_spec in E. rewrite batch_at_map, batch_at_zip in E.
    simpl in Hnd. rewrite (assoc_L (++)) in Hnd.
    rewrite filter_all in E.
    2:{ apply Forall_forall. intros x Hx. apply has_id_false.
        rewrite map_app in Hnd. apply NoDup_app in Hnd as (Hnd & _).
        rewrite map_app in Hnd. apply NoDup_app in Hnd as (_ & Hdisj & _).
        intros Hin. apply (Hdisj _ Hin). by apply list_elem_of_fmap_2. }
    intros Hloop.
    apply (IH _ _ _ (mkCollection (coll_metadata c) R1)) in Hloop.
    2:{ rewrite db_at_set_db. by rewrite lookup_insert_eq. }
    2:{ simpl. by rewrite E. }
    destruct Hloop as (k & Hrows & Hk). simpl in Hrows.
    exists (S k). simpl. split.
    + by rewrite Hrows, E, (assoc_L (++)).
    + destruct (is_ok r); lia.
Qed.

End StoreFailure.

(** X13.  Nothing is rolled back when the store raises part of the way.  A
    run that starts on the empty collection, with a positive batch size and
    chunks whose ids are distinct, leaves in the collection the rows of the
    chunks of the first [k] batches, in order, where [k] is the number of
    batches stored: all chunks when the run ends well, and fewer than all
    when it raises. *)
Theorem store_failure_keeps_batches `{VectorStore} `{EmbeddingModel}
    (self : ChunkVectorizer) (chunks : list json) (w w' : World) (r : result unit)
    (c : collection) :
  Chroma.db_at w (client self) !! collection_name self = Some c ->
  coll_rows c = [] ->
  (0 < batch_size (config self))%Z ->
  NoDup (map (fun ch => id_text (chunk_field (py "id") ch)) chunks) ->
  process_and_store_chunks self chunks w = (r, w') ->
  exists k rows,
    rows_of w' (client self) (collection_name self) = Some rows /\
    map row_id rows
    = take (k * Z.to_nat (batch_size (config self)))
        (map (fun ch => id_text (chunk_field (py "id") ch)) chunks) /\
    map row_document rows
    = take (k * Z.to_nat (batch_size (config self)))
        (map (chunk_field (py "text")) chunks) /\
    (if is_ok r then length rows = length chunks
     else k * Z.to_nat (batch_size (config self)) < length chunks).
Proof.
  intros Hc Hempty Hb Hnd.
  assert (rows_of w (client self) (collection_name self) = Some []) as Hrows0.
  { unfold rows_of. rewrite Hc. simpl. by rewrite Hempty. }
  destruct chunks as [|c0 chunks0].
  { intros [= <- <-]. exists 0, []. done. }
  set (chunks := c0 :: chunks0) in *.
  assert (chunks <> []) as Hne by done.
  assert (0 < length chunks) as Hlen by (simpl; lia).
  clearbody chunks. clear c0 chunks0.
  rewrite process_unfold by done.
  assert (forall e, exists k rows,
    rows_of w (client self) (collection_name self) = Some rows /\
    map row_id rows
    = take (k * Z.to_nat (batch_size (config self)))
        (map (fun ch => id_text (chunk_field (py "id") ch)) chunks) /\
    map row_document rows
    = take (k * Z.to_nat (batch_size (config self)))
        (map (chunk_field (py "text")) chunks) /\
    (if is_ok (Raise e : result unit) then length rows = length chunks
     else k * Z.to_nat (batch_size (config self)) < length chunks)) as Hearly.
  { intros e. exists 0, []. simpl. done. }
  destruct (for_each (fun c => py_getitem c (py "id")) chunks) as [ids|] eqn:Eids;
    [|intros [= <- <-]; apply Hearly].
  destruct (for_each (fun c => py_getitem c (py "text")) chunks) as [texts|] eqn:Etexts;
    [|intros [= <- <-]; apply Hearly].
  destruct (for_each (fun c => s ← py_getitem c (py "source"); Ok [(py "source", s)])
              chunks) as [metas|] eqn:Emetas; [|intros [= <- <-]; apply Hearly].
  destruct (total_batches _ _) as [total|]; [|intros [= <- <-]; apply Hearly].
  destruct (batches_of texts _) as [tb|] eqn:Etb; [|intros [= <- <-]; apply Hearly].
  destruct (embed_batches _ tb) as [[embs tokens]|] eqn:Eemb;
    [|intros [= <- <-]; apply Hearly].
  destruct (py_range _ _ _) as [starts|] eqn:Est; [|intros [= <- <-]; apply Hearly].
  clear Hearly.
  apply (for_each_spec _ (chunk_field (py "id"))) in Eids;
    [|intros; by apply getitem_field].
  apply (for_each_spec _ (chunk_field (py "text"))) in Etexts;
    [|intros; by apply getitem_field].
  apply (for_each_spec _ (fun c => [(py "source", chunk_field (py "source") c)]))
    in Emetas.
  2:{ intros x y. destruct (py_getitem x (py "source")) as [s|] eqn:Es; simpl; [|done].
      intros [= <-]. by rewrite (getitem_field _ _ _ Es). }
  set (bn := Z.to_nat (batch_size (config self))).
  set (allrows := Chroma.zip_rows (map id_text ids) embs texts metas).
  assert (length embs = length chunks) as Hembs.
  { apply embed_batches_length in Eemb. rewrite Eemb.
    unfold batches_of in Etb. rewrite Etexts, length_map, Est in Etb.
    simpl in Etb. injection Etb as <-.
    rewrite (range_slices_concat _ (Z.of_nat (length chunks)) _ _ Hb) by
      (rewrite ?length_map; done || lia).
    by rewrite length_map. }
  assert (map row_id allrows = map (fun ch => id_text (chunk_field (py "id") ch)) chunks /\
          map row_document allrows = map (chunk_field (py "text")) chunks) as [Zids Zdocs].
  { unfold allrows. rewrite Eids, Etexts, Emetas, map_map.
    apply zip_rows_ids; rewrite !length_map; done. }
  assert (length allrows = length chunks) as Zlen.
  { by rewrite <- (length_map row_id allrows), Zids, length_map. }
  assert (concat (map (batch_at allrows (batch_size (config self))) starts) = allrows) as Hcat.
  { apply (range_slices_concat _ (Z.of_nat (length chunks))); [done|lia|done]. }
  intros Hloop.
  assert (NoDup (map row_id
            (coll_rows c ++ concat (map (batch_at allrows (batch_size (config self))) starts))))
    as HndZ.
  { rewrite Hempty. simpl. by rewrite Hcat, Zids. }
  destruct (store_batches_any _ _ _ _ _ _ _ _ _ _ _ Hc HndZ Hloop) as (k & Hrows & Hk).
  fold allrows in Hrows. rewrite Hempty in Hrows. simpl in Hrows.
  unfold py_range in Est.
  assert ((batch_size (config self) =? 0)%Z = false) as Hb0 by lia.
  rewrite Hb0 in Est. injection Est as <-.
  rewrite range_loop_pos in Hrows, Hk by lia.
  replace (Z.of_nat (length chunks) - 0 + batch_size (config self) - 1)%Z
    with (Z.of_nat (length chunks) + batch_size (config self) - 1)%Z in Hrows, Hk by lia.
  set (q := ((Z.of_nat (length chunks) + batch_size (config self) - 1)
             / batch_size (config self))%Z) in *.
  set (K := Z.to_nat q) in *.
  rewrite length_map, length_seq in Hk.
  assert (k <= K) as HkK by (destruct (is_ok r); lia).
  rewrite firstn_map, take_seq, Nat.min_l, map_map in Hrows by done.
  rewrite (map_ext _ (fun j => take bn (drop (j * bn) allrows))) in Hrows.
  2:{ intros j. by apply batch_at_mult. }
  rewrite concat_slices in Hrows. simpl in Hrows. rewrite drop_0 in Hrows.
  exists k, (take (k * bn) allrows). split; [done|].
  rewrite <- Zids, <- Zdocs, <- !firstn_map. split; [done|]. split; [done|].
  pose proof (ceil_bounds (Z.of_nat (length chunks)) (batch_size (config self)) Hb) as Hc2.
  fold q in Hc2.
  assert (0 <= q)%Z by (apply Z.div_pos; lia).
  assert (Z.of_nat (K * bn) = (q * batch_size (config self))%Z) as HK.
  { unfold K, bn. rewrite Nat2Z.inj_mul, !Z2Nat.id; lia. }
  assert (Z.of_nat (k * bn) = (Z.of_nat k * batch_size (config self))%Z) as Hkb.
  { unfold bn. rewrite Nat2Z.inj_mul, Z2Nat.id; lia. }
  destruct (is_ok r).
  - subst k. rewrite length_take, Zlen. lia.
  - assert (Z.of_nat k <= q - 1)%Z by lia. nia.
Qed.

(** X13 at a file whose third text is a list, stored in batches of two by a
    store that takes strings only: the second call of [add] raises, and the
    two rows of the first batch stay. *)
Lemma store_failure_keeps_batches_witness :
  fst picky_run = Raise ValueError /\
  exists k rows,
    rows_of (snd picky_run) (py "db") (py "data_model") = Some rows /\
    map row_id rows = take (k * 2) [py "doc_000001"; py "doc_000002"; py "doc_000003"] /\
    k * 2 < 3 /\ length rows = 2.
Proof.
  split; [vm_compute; reflexivity|].
  destruct (@store_failure_keeps_batches text_store sample_model
              (sample_vectorizer_with 2) chunks_two_and_list (world_ready two_and_list)
              (snd picky_run) (fst picky_run)
              (mkCollection [(py "hnsw:space", py "cosine")] []))
    as (k & rows & Hrows & Hids & _ & Hk).
  - vm_compute. reflexivity.
  - reflexivity.
  - reflexivity.
  - apply (bool_decide_unpack _). vm_compute. exact I.
  - unfold picky_run. by destruct (process_and_store_chunks _ _ _).
  - exists k, rows. split; [exact Hrows|]. split; [exact Hids|].
    split; [exact Hk|].
    assert (Some rows
            = Some (take 2 (chunk_rows chunks_two_and_list [[0%Z]; [0%Z]; [0%Z]]))) as Hc.
    { rewrite <- Hrows. vm_compute. reflexivity. }
    injection Hc as ->. reflexivity.
Defined.

(** ** From the validator to the loader *)

Lemma classify_doc_loads line i :
  classify line = Some (Doc i) ->
  blank line = false /\
  exists data, Json.loads line = Ok data /\ data_kind data = Some (Doc i).
Proof.
  intros Hk. pose proof (classify_not_blank _ _ Hk ltac:(done)) as Hb.
  split; [done|]. apply classify_data in Hk; [done|done|by right].
Qed.

Lemma data_kind_doc_chunk data i :
  data_kind data = Some (Doc i) ->
  has_fields data = true /\ text_has_length data = true /\
  id_text (chunk_field (py "id") data) = i /\
  chunk_field (py "id") data = JStr i.
Proof.
  intros Hd. apply data_kind_doc in Hd as (d & t & len & s & -> & Hi & Ht & Hlen & Hs).
  unfold has_fields, required_fields, has_field, text_has_length. simpl.
  rewrite Hi, Ht, Hs, Hlen. done.
Qed.

(** The loop of the loader over lines that are blank or documents. *)
Lemma parse_chunks_clean lines kinds :
  Forall2 (fun l k => classify l = Some k) lines kinds ->
  count_kind is_malformed kinds = 0 -> count_kind is_missing kinds = 0 ->
  exists chunks,
    parse_chunks lines = Ok chunks /\
    Forall2 (fun c i => data_kind c = Some (Doc i)) chunks (doc_ids kinds).
Proof.
  induction 1 as [|l k lines kinds Hk _ IH]; [by exists []|].
  rewrite !count_kind_cons. intros Hm Hs.
  destruct IH as (chunks & E & Hall); [lia|lia|].
  destruct k; simpl in Hm, Hs; try lia.
  - apply classify_blank in Hk. simpl. rewrite Hk. by exists chunks.
  - apply classify_doc_loads in Hk as (Hb & data & Hl & Hd).
    simpl. rewrite Hb, Hl. simpl. rewrite E. simpl.
    exists (data :: chunks). split; [done|]. by constructor.
Qed.

(** X14.  A file that the validator passes is one the loader takes: it
    returns as many chunks as the report has [valid_docs], every chunk has
    the three fields a run reads, and the ids of the chunks are strings, no
    two of them the same. *)
Theorem validated_file_loads `{UnicodeData} `{VectorStore} `{EmbeddingModel}
    (self : ChunkVectorizer) (w : World) (r : Report) :
  validate (files w) (DataValidator_init (input_file (config self))) = Ok r ->
  validation_passed r = true ->
  exists chunks,
    load_chunks self w = (Ok chunks, w) /\
    length chunks = valid_docs (report_stats r) /\
    Forall (fun c => has_fields c = true) chunks /\
    Forall (fun c => exists i, chunk_field (py "id") c = JStr i) chunks /\
    NoDup (map (fun c => id_text (chunk_field (py "id") c)) chunks).
Proof.
  intros Hr Hp.
  destruct (files w !! input_file (config self)) as [content|] eqn:Hf.
  2:{ revert Hr Hp. unfold validate, path_exists. simpl. rewrite Hf. simpl.
      intros [= <-]. done. }
  destruct (validate_report_inv _ _ content r Hf Hr) as (kinds & self' & Hk & -> & A).
  destruct A as (_ & _ & A3 & A4 & A5 & A6 & A7). simpl in *.
  destruct (errors self'); [|done]. simpl in A7.
  destruct (parse_chunks_clean _ _ Hk) as (chunks & E & Hall); [lia|lia|].
  assert (Forall (fun c => has_fields c = true /\ text_has_length c = true /\
                           exists i, chunk_field (py "id") c = JStr i) chunks) as Hc.
  { clear -Hall. induction Hall as [|c i chunks ids Hd _ IH]; constructor; [|done].
    apply data_kind_doc_chunk in Hd as (? & ? & _ & ?). eauto. }
  assert (map (fun c => id_text (chunk_field (py "id") c)) chunks = doc_ids kinds) as Hids.
  { clear -Hall. induction Hall as [|c i chunks ids Hd _ IH]; simpl; [done|].
    apply data_kind_doc_chunk in Hd as (_ & _ & -> & _). by rewrite IH. }
  exists chunks. split; [|split; [|split; [|split]]].
  - unfold load_chunks, open_lines. rewrite Hf. simpl. rewrite E. simpl.
    destruct chunks as [|c chunks]; [done|].
    destruct (for_each_ok chunk_text_length (c :: chunks)) as [ys ->]; [|done].
    eapply Forall_impl; [exact Hc|]. intros v (_ & Hv & _). by apply chunk_text_length_ok.
  - rewrite A5, count_doc_ids, <- Hids. by rewrite length_map.
  - eapply Forall_impl; [exact Hc|]. by intros v (? & _).
  - eapply Forall_impl; [exact Hc|]. by intros v (_ & _ & ?).
  - rewrite Hids. apply (repeats_zero ∅). lia.
Qed.

(** X14 at the sample file of three documents. *)
Lemma validated_file_loads_witness :
  exists chunks,
    load_chunks sample_vectorizer world_with_input = (Ok chunks, world_with_input) /\
    length chunks = 3.
Proof.
  destruct (validated_file_loads sample_vectorizer world_with_input
              (match validate (files world_with_input) (DataValidator_init data_path) with
               | Ok r => r
               | Raise _ => _generate_report (DataValidator_init data_path)
               end)) as (chunks & Hl & Hn & _).
  - vm_compute. reflexivity.
  - vm_compute. reflexivity.
  - exists chunks. split; [exact Hl|]. rewrite Hn. vm_compute. reflexivity.
Defined.

(** ** When the loader returns *)

Lemma parse_chunks_iff (lines : list (list N)) (chunks : list json) :
  parse_chunks lines = Ok chunks <->
  map Ok chunks = map Json.loads (nonblank_lines lines).
Proof.
  unfold nonblank_lines. revert chunks.
  induction lines as [|l lines IH]; intros chunks; simpl.
  - split; [by intros [= <-]|]. by destruct chunks.
  - destruct (blank l); simpl; [apply IH|].
    destruct (Json.loads l) as [v|e]; simpl.
    + destruct (parse_chunks lines) as [cs|e] eqn:E; simpl.
      * split.
        -- intros [= <-]. simpl. f_equal. by apply IH.
        -- destruct chunks as [|c chunks]; [done|]. simpl. intros [= -> Hm].
           apply IH in Hm. congruence.
      * split; [done|]. destruct chunks as [|c chunks]; [done|]. simpl.
        intros [= -> Hm]. apply IH in Hm. done.
    + split; [done|]. by destruct chunks.
Qed.

Lemma chunk_text_length_iff (chunk : json) :
  is_ok (chunk_text_length chunk) = text_has_length chunk.
Proof.
  unfold text_has_length, chunk_text_length, py_get.
  destruct chunk; try done. simpl.
  destruct (dict_get (py "text") members); done.
Qed.

(** X15.  The loader returns a list of chunks exactly when the input file
    exists, every line of it that is not blank is JSON, and, unless there is
    no such line, each of these values is an object whose text, when it has
    one, has a length; the chunks are then these values in file order.  In
    every other case it raises, and in no case does it change anything. *)
Theorem load_chunks_returns_iff `{VectorStore} `{EmbeddingModel}
    (self : ChunkVectorizer) (w : World) (chunks : list json) :
  (load_chunks self w = (Ok chunks, w) <->
   exists content,
     files w !! input_file (config self) = Some content /\
     map Ok chunks = map Json.loads (nonblank_lines (file_lines content)) /\
     (chunks = [] \/ Forall (fun c => text_has_length c = true) chunks)) /\
  snd (load_chunks self w) = w.
Proof.
  split; [|done]. unfold load_chunks, open_lines.
  destruct (files w !! input_file (config self)) as [content|]; simpl.
  2:{ split; [done|]. by intros (? & ? & _). }
  split.
  - intros Hl. exists content. split; [done|].
    destruct (parse_chunks (file_lines content)) as [cs|] eqn:E; simpl in Hl; [|done].
    destruct cs as [|c cs].
    + injection Hl as <-. apply parse_chunks_iff in E. split; [done|by left].
    + destruct (for_each chunk_text_length (c :: cs)) as [ys|] eqn:Ef; [|done].
      injection Hl as <-. apply parse_chunks_iff in E. split; [done|]. right.
      apply for_each_Forall in Ef. eapply Forall_impl; [exact Ef|].
      intros x Hx. by rewrite <- chunk_text_length_iff.
  - intros (content' & [= <-] & Hm & Hlen). apply parse_chunks_iff in Hm.
    rewrite Hm. simpl. destruct chunks as [|c chunks]; [done|].
    destruct Hlen as [|Hlen]; [done|].
    destruct (for_each_ok chunk_text_length (c :: chunks)) as [ys ->]; [|done].
    eapply Forall_impl; [exact Hlen|]. intros x Hx. by rewrite chunk_text_length_iff.
Qed.

(* ===================================================================== *)
(** * More on the memory server                                            *)
(* ===================================================================== *)

Lemma set_db_same dir w db :
  stores w !! dir = Some db -> Chroma.set_db dir db w = w.
Proof.
  intros Hs. unfold Chroma.set_db. destruct w as [fs st]. simpl in *.
  by rewrite insert_id.
Qed.

Ltac same_world := do 4 (split; [done|]); done.

(** X16.  A call of a tool of the server changes nothing but the rows of the
    memory collection: the files, the other databases, the other collections
    and the metadata of the memory collection stay.  The three tools that
    read, and every call that answers with a failure, change nothing at
    all. *)
Theorem tools_touch_memory_only `{VectorStore} `{EmbeddingModel}
    (srv : Server) (token ts : list N) (call : tool_call) (w w' : World)
    (resp : response) :
  handle srv token ts call w = (Ok resp, w') ->
  files w' = files w /\
  (forall d, d <> server_client srv -> stores w' !! d = stores w !! d) /\
  (forall n, n <> server_memory_collection srv ->
     Chroma.db_at w' (server_client srv) !! n = Chroma.db_at w (server_client srv) !! n) /\
  (coll_metadata <$> Chroma.db_at w' (server_client srv) !! server_memory_collection srv)
  = (coll_metadata <$> Chroma.db_at w (server_client srv) !! server_memory_collection srv) /\
  ((forall t, call <> call_remember t) \/ success resp = false -> w' = w).
Proof.
  destruct call; simpl.
  - unfold list_collections, try_except, mbind, prog_bind, Chroma.list_collections.
    simpl. intros [= <- <-]. same_world.
  - unfold query, try_except, mbind, prog_bind, lift, Chroma.query.
    destruct (encode_one query_text); [|intros [= <- <-]; same_world].
    destruct (Chroma.db_at w _ !! _) eqn:E; [|intros [= <- <-]; rewrite ?E; same_world].
    destruct (n_results <=? 0)%Z; [intros [= <- <-]; rewrite ?E; same_world|].
    destruct (nearest _ _ _); intros [= <- <-]; rewrite ?E; same_world.
  - unfold search_memory, try_except, mbind, prog_bind, lift, Chroma.query.
    destruct (encode_one query_text); [|intros [= <- <-]; same_world].
    destruct (Chroma.db_at w _ !! _) eqn:E; [|intros [= <- <-]; rewrite ?E; same_world].
    destruct (n_results <=? 0)%Z; [intros [= <- <-]; rewrite ?E; same_world|].
    destruct (nearest _ _ _); intros [= <- <-]; rewrite ?E; same_world.
  - destruct (remember_outcome srv token ts memory_text w)
      as [[e He]|(e & c & rows' & He & Hc & Ha & Hr)].
    + rewrite He. intros [= <- <-]. same_world.
    + rewrite Hr. intros [= <- <-]. split; [done|]. split; [|split; [|split]].
      * intros d Hd. simpl. by rewrite lookup_insert_ne.
      * intros n Hn. rewrite db_at_set_db. by rewrite lookup_insert_ne.
      * rewrite db_at_set_db, lookup_insert_eq, Hc. done.
      * intros [Hno|Hf]; [|done]. by destruct (Hno memory_text).
Qed.

(** X16 at a sample call that stores a memory. *)
Lemma tools_touch_memory_only_witness :
  files (snd (handle sample_server (py "7d9f") (py "2025-01-02T08:00:00")
                (call_remember (py "prefers short answers")) world_with_memories))
  = files world_with_memories.
Proof.
  destruct (handle sample_server (py "7d9f") (py "2025-01-02T08:00:00")
              (call_remember (py "prefers short answers")) world_with_memories)
    as [r w'] eqn:E.
  destruct r as [resp|e].
  - by destruct (tools_touch_memory_only sample_server _ _ _ _ _ _ E) as (Hf & _).
  - vm_compute in E. discriminate.
Defined.

(** ** The start of the server *)

Section StartFacts.
Context `{VectorStore} `{EmbeddingModel}.

(** The start of the server, case by case. *)
Lemma server_startup_outcome (path coll mem model : list N) (w : World) :
  server_startup path coll mem model w =
  if negb (dir_exists w path) then (Raise FileNotFoundError, w)
  else if negb (model_available model) then (Raise ModelError, w)
  else match Chroma.db_at w path !! coll with
       | None => (Raise ValueError, w)
       | Some _ =>
           if negb (name_ok mem) then (Raise ValueError, w)
           else match Chroma.db_at w path !! mem with
                | Some _ => (Ok (mkServer path coll mem), w)
                | None =>
                    (Ok (mkServer path coll mem),
                     Chroma.set_db path
                       (<[mem := mkCollection [] []]> (Chroma.db_at w path)) w)
                end
       end.
Proof.
  unfold server_startup, dir_exists.
  destruct (stores w !! path) as [db|] eqn:Es; simpl; [|done].
  try (rewrite bool_decide_eq_true_2 by eauto); simpl.
  unfold mbind, prog_bind, Chroma.PersistentClient, lift.
  assert (Chroma.db_at w path = db) as Hdb by (unfold Chroma.db_at; by rewrite Es).
  rewrite Hdb, (set_db_same path w db Es).
  destruct (model_available model); simpl; [|done].
  unfold get_collection. rewrite Hdb.
  destruct (db !! coll); [|done].
  unfold Chroma.get_or_create_collection. rewrite Hdb.
  destruct (name_ok mem); simpl; [|done].
  destruct (db !! mem); done.
Qed.

End StartFacts.

(** X17.  The server gets to serve exactly when the database directory
    exists, the model loads, the main collection is there and the store
    accepts the name of the memory collection.  When it does not, the script
    has changed nothing: no memory collection is made for a database that
    has no main collection. *)
Theorem server_startup_conditions `{VectorStore} `{EmbeddingModel}
    (path coll mem model : list N) (w : World) :
  ((exists srv w', server_startup path coll mem model w = (Ok srv, w')) <->
   dir_exists w path = true /\ model_available model = true /\
   is_Some (Chroma.db_at w path !! coll) /\ name_ok mem = true) /\
  (forall e w', server_startup path coll mem model w = (Raise e, w') -> w' = w).
Proof.
  rewrite server_startup_outcome.
  destruct (dir_exists w path); simpl.
  2:{ split; [|by intros e w' [= _ <-]].
      split; [by intros (? & ? & ?)|by intros (? & _)]. }
  destruct (model_available model); simpl.
  2:{ split; [|by intros e w' [= _ <-]].
      split; [by intros (? & ? & ?)|by intros (_ & ? & _)]. }
  destruct (Chroma.db_at w path !! coll) as [c|].
  2:{ split; [|by intros e w' [= _ <-]].
      split; [by intros (? & ? & ?)|]. intros (_ & _ & [? ?] & _). done. }
  destruct (name_ok mem); simpl.
  2:{ split; [|by intros e w' [= _ <-]].
      split; [by intros (? & ? & ?)|by intros (_ & _ & _ & ?)]. }
  destruct (Chroma.db_at w path !! mem).
  - split; [|done]. split; [|by eauto]. intros _. repeat split; eauto.
  - split; [|done]. split; [|by eauto]. intros _. repeat split; eauto.
Qed.

(** X18.  A start of the server that goes through touches no collection that
    is there, so the memories stored before are kept; and once the server
    has started, a new start after any call of a tool finds everything in
    place and changes nothing. *)
Theorem memories_survive_restart `{VectorStore} `{EmbeddingModel}
    (path coll mem model : list N) (w w1 : World) (srv : Server) :
  server_startup path coll mem model w = (Ok srv, w1) ->
  (forall n c, Chroma.db_at w path !! n = Some c -> Chroma.db_at w1 path !! n = Some c) /\
  memory_rows srv w1 = memory_rows srv w /\
  (forall token ts call resp w2,
     handle srv token ts call w1 = (Ok resp, w2) ->
     server_startup path coll mem model w2 = (Ok srv, w2) /\
     memory_rows srv w1 `prefix_of` memory_rows srv w2).
Proof.
  rewrite server_startup_outcome.
  destruct (dir_exists w path) eqn:Hdir; simpl; [|done].
  destruct (model_available model) eqn:Hmodel; simpl; [|done].
  destruct (Chroma.db_at w path !! coll) as [c|] eqn:Hcoll; [|done].
  destruct (name_ok mem) eqn:Hname; simpl; [|done].
  intros Hstart.
  assert (srv = mkServer path coll mem) as ->.
  { destruct (Chroma.db_at w path !! mem); by injection Hstart as <- _. }
  assert ((forall n c, Chroma.db_at w path !! n = Some c ->
                       Chroma.db_at w1 path !! n = Some c) /\
          memory_rows (mkServer path coll mem) w1 = memory_rows (mkServer path coll mem) w /\
          dir_exists w1 path = true /\
          is_Some (Chroma.db_at w1 path !! mem)) as (Hkeep & Hrows & Hdir1 & Hmem1).
  { unfold memory_rows. simpl.
    destruct (Chroma.db_at w path !! mem) as [m|] eqn:Hmem; injection Hstart as <-.
    - rewrite Hmem. by eauto.
    - rewrite db_at_set_db, lookup_insert_eq. simpl. split; [|split; [done|split]].
      + intros n c' Hn. rewrite lookup_insert_ne; [done|]. by intros <-; rewrite Hmem in Hn.
      + unfold dir_exists. simpl. rewrite lookup_insert_eq.
        apply bool_decide_eq_true_2. by eexists.
      + by eexists. }
  split; [done|]. split; [done|].
  intros token ts call resp w2 Hcall.
  assert (dir_exists w2 path = true /\
          is_Some (Chroma.db_at w2 path !! coll) /\
          is_Some (Chroma.db_at w2 path !! mem) /\
          memory_rows (mkServer path coll mem) w1
            `prefix_of` memory_rows (mkServer path coll mem) w2)
    as (Hdir2 & [c2 Hcoll2] & [m2 Hmem2] & Hpre).
  { assert (is_Some (Chroma.db_at w1 path !! coll)) as Hcoll1 by (rewrite (Hkeep _ _ Hcoll); eauto).
    clear Hkeep Hrows Hstart Hcoll Hdir.
    destruct call; simpl in Hcall.
    - revert Hcall.
      unfold list_collections, try_except, mbind, prog_bind, Chroma.list_collections.
      simpl. by intros [= _ <-].
    - revert Hcall. unfold query, try_except, mbind, prog_bind, lift, Chroma.query. simpl.
      destruct (encode_one query_text); [|by intros [= _ <-]].
      destruct (Chroma.db_at w1 path !! coll) eqn:E;
        [|intros [= _ <-]; rewrite ?E; done].
      destruct (n_results <=? 0)%Z; [intros [= _ <-]; rewrite ?E; done|].
      destruct (nearest _ _ _); intros [= _ <-]; rewrite ?E; done.
    - revert Hcall.
      unfold search_memory, try_except, mbind, prog_bind, lift, Chroma.query. simpl.
      destruct (encode_one query_text); [|by intros [= _ <-]].
      destruct (Chroma.db_at w1 path !! mem) eqn:E;
        [|intros [= _ <-]; rewrite ?E; done].
      destruct (n_results <=? 0)%Z; [intros [= _ <-]; rewrite ?E; done|].
      destruct (nearest _ _ _); intros [= _ <-]; rewrite ?E; done.
    - destruct (remember_outcome (mkServer path coll mem) token ts memory_text w1)
        as [[e He]|(e & c1 & rows' & He & Hc & Ha & Hr)].
      + rewrite He in Hcall. by injection Hcall as _ <-.
      + rewrite Hr in Hcall. injection Hcall as _ <-. simpl in *.
        rewrite memory_rows_set. simpl. unfold memory_rows. simpl.
        rewrite db_at_set_db, Hc, lookup_insert_eq. split; [|split; [|split]].
        * unfold dir_exists. simpl. rewrite lookup_insert_eq.
          apply bool_decide_eq_true_2. by eexists.
        * destruct (decide (coll = mem)) as [->|Hne].
          -- rewrite lookup_insert_eq. by eexists.
          -- by rewrite lookup_insert_ne.
        * by eexists.
        * apply add_rows_spec in Ha. rewrite Ha. by apply prefix_app_r. }
  split; [|done].
  rewrite server_startup_outcome, Hdir2, Hmodel, Hcoll2, Hname, Hmem2. done.
Qed.

(** X18 at a sample database: the server starts, and the memory stored
    before is still there. *)
Lemma memories_survive_restart_witness :
  server_startup (py "db") (py "data_model") (py "user_memories") (py "org/model")
    world_with_server_data = (Ok sample_server, world_with_server_data) /\
  length (memory_rows sample_server world_with_server_data) = 1 /\
  forall token ts call resp w2,
    handle sample_server token ts call world_with_server_data = (Ok resp, w2) ->
    server_startup (py "db") (py "data_model") (py "user_memories") (py "org/model") w2
    = (Ok sample_server, w2).
Proof.
  assert (server_startup (py "db") (py "data_model") (py "user_memories") (py "org/model")
            world_with_server_data = (Ok sample_server, world_with_server_data)) as Hs.
  { vm_compute. reflexivity. }
  split; [exact Hs|]. split; [vm_compute; reflexivity|].
  intros token ts call resp w2 Hcall.
  destruct (memories_survive_restart _ _ _ _ _ _ _ Hs) as (_ & _ & Hnext).
  by destruct (Hnext token ts call resp w2 Hcall).
Defined.

(* ===================================================================== *)
(** * The entry point main.py                                              *)
(* ===================================================================== *)

Lemma main_py_object (path : list N) (k : Kwargs -> prog unit) (w : World)
    (d : list (list N * json)) :
  path_exists (files w) path = true ->
  json_load (files w) path = Ok (JObj d) ->
  main_py path k w =
  match dict_get (py "input") d, dict_get (py "db") d, dict_get (py "model") d,
        dict_get (py "task") d, dict_get (py "max_length") d,
        dict_get (py "device") d, dict_get (py "batch_size") d with
  | Some input, Some db, Some model, Some task, Some max_length, Some device,
    Some batch_size =>
      k (mkKwargs input db model task
           (default JNull (dict_get (py "truncate_dim") d)) max_length device batch_size) w
  | _, _, _, _, _, _, _ => (Raise KeyError, w)
  end.
Proof.
  intros He Hl. unfold main_py. rewrite He, Hl. simpl.
  unfold mbind, prog_bind, lift, py_getitem, py_get.
  destruct (dict_get (py "input") d); [|done].
  destruct (dict_get (py "db") d); [|done].
  destruct (dict_get (py "model") d); [|done].
  destruct (dict_get (py "task") d); [|done].
  destruct (dict_get (py "max_length") d); [|done].
  destruct (dict_get (py "device") d); [|done].
  destruct (dict_get (py "batch_size") d); [|done].
  by destruct (dict_get (py "truncate_dim") d).
Qed.

(** X19.  [main] of main.py: without a configuration file it returns without
    an error and without building the vectorizer.  With a configuration that
    is a JSON object lacking one of the keys input, db, model, task,
    max_length, device and batch_size it raises [KeyError] before the
    vectorizer is built, so that nothing is deleted or created.  With all
    seven keys it builds and runs the vectorizer on their values, the
    truncate_dim being [None] when the configuration has no such key. *)
Theorem main_reads_config (path : list N) (k : Kwargs -> prog unit) (w : World) :
  (files w !! path = None -> main_py path k w = (Ok tt, w)) /\
  (forall d,
     json_load (files w) path = Ok (JObj d) ->
     (Exists (fun key => dict_get key d = None) config_keys ->
      main_py path k w = (Raise KeyError, w)) /\
     (Forall (fun key => is_Some (dict_get key d)) config_keys ->
      exists a,
        main_py path k w = k a w /\
        Ok (arg_input_file a) = py_getitem (JObj d) (py "input") /\
        Ok (arg_db_directory a) = py_getitem (JObj d) (py "db") /\
        Ok (arg_model_name a) = py_getitem (JObj d) (py "model") /\
        Ok (arg_task a) = py_getitem (JObj d) (py "task") /\
        Ok (arg_max_length a) = py_getitem (JObj d) (py "max_length") /\
        Ok (arg_device a) = py_getitem (JObj d) (py "device") /\
        Ok (arg_batch_size a) = py_getitem (JObj d) (py "batch_size") /\
        arg_truncate_dim a = default JNull (dict_get (py "truncate_dim") d))).
Proof.
  split.
  - intros Hf. unfold main_py, path_exists. by rewrite Hf.
  - intros d Hl.
    assert (path_exists (files w) path = true) as He.
    { unfold json_load, read_text, open_lines, path_exists in *.
      by destruct (files w !! path). }
    rewrite (main_py_object path k w d He Hl). unfold config_keys. split.
    + rewrite !Exists_cons, Exists_nil.
      intros [->|[->|[->|[->|[->|[->|[->|[]]]]]]]];
        repeat match goal with
               | |- context [match dict_get ?f d with _ => _ end] =>
                   destruct (dict_get f d)
               end; done.
    + rewrite !Forall_cons. unfold py_getitem.
      intros ([i ->] & [db ->] & [m ->] & [t ->] & [ml ->] & [dev ->] & [b ->] & _).
      eexists. split; [reflexivity|]. simpl. done.
Qed.

(** X19 at two sample files: without the key db [main] raises [KeyError];
    with the seven keys and no truncate_dim it runs the vectorizer with
    [None] for it. *)
Lemma main_reads_config_witness :
  (forall k, main_py config_path k (mkWorld {[ config_path := config_file_without_db ]} ∅)
             = (Raise KeyError, mkWorld {[ config_path := config_file_without_db ]} ∅)) /\
  (forall k, exists a,
     main_py config_path k (mkWorld {[ config_path := sample_config_file ]} ∅)
     = k a (mkWorld {[ config_path := sample_config_file ]} ∅) /\
     arg_truncate_dim a = JNull).
Proof.
  split.
  - intros k.
    destruct (main_reads_config config_path k
                (mkWorld {[ config_path := config_file_without_db ]} ∅)) as [_ Hd].
    eapply Hd.
    + vm_compute. reflexivity.
    + apply Exists_cons_tl, Exists_cons_hd. vm_compute. reflexivity.
  - intros k.
    destruct (main_reads_config config_path k
                (mkWorld {[ config_path := sample_config_file ]} ∅)) as [_ Hd].
    assert (exists d, json_load {[ config_path := sample_config_file ]} config_path
                      = Ok (JObj d) /\
                      Forall (fun key => is_Some (dict_get key d)) config_keys /\
                      dict_get (py "truncate_dim") d = None) as (d & Hl & Hall & Ht).
    { eexists. split; [vm_compute; reflexivity|]. split; [|vm_compute; reflexivity].
      repeat constructor; vm_compute; by eexists. }
    destruct (Hd d Hl) as [_ Hgo].
    destruct (Hgo Hall) as (a & Ha & _ & _ & _ & _ & _ & _ & _ & Hdim).
    exists a. split; [exact Ha|]. by rewrite Hdim, Ht.
Defined.

(* ===================================================================== *)
(** * The sample data generator                                            *)
(* ===================================================================== *)

(** ** Strings written by [json.dumps] are read back by [json.loads] *)

Lemma scanstring_u (h1 h2 h3 h4 u : N) (acc tail : list N) :
  Json.hex4 h1 h2 h3 h4 = Some u ->
  Json.high_surrogate u = false ->
  Json.scanstring acc (chr "\" :: chr "u" :: h1 :: h2 :: h3 :: h4 :: tail)
  = Json.scanstring (u :: acc) tail.
Proof.
  intros Hh Hu. simpl. rewrite Hh.
  destruct tail as [|b [|u' [|l1 [|l2 [|l3 [|l4 s4]]]]]]; try reflexivity.
  destruct (Json.hex4 l1 l2 l3 l4); [|reflexivity]. by rewrite Hu.
Qed.

Lemma below_32 (c : N) :
  (c < 32)%N -> In c (map N.of_nat (seq 0 32)).
Proof.
  intros Hc. apply in_map_iff. exists (N.to_nat c). split; [lia|].
  apply in_seq. lia.
Qed.

(** One character: the decoder reads what the encoder wrote for it. *)
Lemma scanstring_escape_char (c : N) (acc tail : list N) :
  Json.scanstring acc (escape_char c ++ tail) = Json.scanstring (c :: acc) tail.
Proof.
  destruct (N.ltb_spec c 32) as [Hlt|Hge].
  - apply below_32 in Hlt. simpl in Hlt.
    repeat (destruct Hlt as [<-|Hlt];
            [first [ reflexivity
                   | apply scanstring_u; vm_compute; reflexivity ] |]).
    done.
  - unfold escape_char. change Json.quote with 34%N. change (chr "\") with 92%N.
    destruct (N.eqb_spec c 34) as [->|Hq]; [reflexivity|].
    destruct (N.eqb_spec c 92) as [->|Hb]; [reflexivity|].
    assert ((c =? 10)%N = false) as -> by (apply N.eqb_neq; lia).
    assert ((c =? 13)%N = false) as -> by (apply N.eqb_neq; lia).
    assert ((c =? 9)%N = false) as -> by (apply N.eqb_neq; lia).
    assert ((c =? 8)%N = false) as -> by (apply N.eqb_neq; lia).
    assert ((c =? 12)%N = false) as -> by (apply N.eqb_neq; lia).
    assert ((c <? 32)%N = false) as -> by (apply N.ltb_ge; lia).
    cbn [Json.scanstring app]. change Json.quote with 34%N. change (chr "\") with 92%N.
    rewrite (proj2 (N.eqb_neq c 34) Hq), (proj2 (N.eqb_neq c 92) Hb).
    assert ((c <=? 31)%N = false) as -> by (apply N.leb_gt; lia).
    done.
Qed.

Lemma scanstring_escaped (s acc rest : list N) :
  Json.scanstring acc (flat_map escape_char s ++ Json.quote :: rest)
  = Some (rev acc ++ s, rest).
Proof.
  revert acc. induction s as [|c s IH]; intros acc.
  - simpl. by rewrite app_nil_r.
  - simpl. rewrite <- app_assoc, scanstring_escape_char, IH. simpl.
    by rewrite <- app_assoc.
Qed.

(** What the encoder writes for a string holds no character below the
    space: no line end in particular. *)
Lemma escape_char_printable (c : N) : Forall (fun x => (32 <= x)%N) (escape_char c).
Proof.
  destruct (N.ltb_spec c 32) as [Hlt|Hge].
  - apply below_32 in Hlt. simpl in Hlt.
    repeat (destruct Hlt as [<-|Hlt]; [vm_compute; repeat constructor; discriminate|]).
    done.
  - unfold escape_char. change Json.quote with 34%N. change (chr "\") with 92%N.
    destruct (N.eqb_spec c 34) as [->|Hq]; [vm_compute; repeat constructor; discriminate|].
    destruct (N.eqb_spec c 92) as [->|Hb]; [vm_compute; repeat constructor; discriminate|].
    assert ((c =? 10)%N = false) as -> by (apply N.eqb_neq; lia).
    assert ((c =? 13)%N = false) as -> by (apply N.eqb_neq; lia).
    assert ((c =? 9)%N = false) as -> by (apply N.eqb_neq; lia).
    assert ((c =? 8)%N = false) as -> by (apply N.eqb_neq; lia).
    assert ((c =? 12)%N = false) as -> by (apply N.eqb_neq; lia).
    assert ((c <? 32)%N = false) as -> by (apply N.ltb_ge; lia).
    by repeat constructor.
Qed.

Lemma encode_basestring_printable (s : list N) :
  Forall (fun x => (32 <= x)%N) (encode_basestring s).
Proof.
  unfold encode_basestring. constructor; [vm_compute; discriminate|].
  apply Forall_app. split; [|repeat constructor; vm_compute; discriminate].
  induction s as [|c s IH]; simpl; [constructor|].
  apply Forall_app. split; [apply escape_char_printable|done].
Qed.

Lemma scan_once_string (f : nat) (s rest : list N) :
  Json.scan_once (S f) (encode_basestring s ++ rest) = Some (JStr s, rest).
Proof.
  unfold encode_basestring. cbn [Json.scan_once app]. rewrite N.eqb_refl.
  rewrite <- app_assoc. cbn [app]. by rewrite scanstring_escaped.
Qed.


Lemma skip_ws_quote (s : list N) : Json.skip_ws (Json.quote :: s) = Json.quote :: s.
Proof. reflexivity. Qed.

(** One member of an object, as the encoder wrote it. *)
Lemma parse_dumped_item (g : nat) (acc : list (list N * json))
    (kv : list N * list N) (tail : list N) :
  (forall s rest, Json.scan_once g (encode_basestring s ++ rest) = Some (JStr s, rest)) ->
  Json.parse_members (S g) acc (dumped_item kv ++ tail)
  = match Json.skip_ws tail with
    | c3 :: r4 =>
        if (c3 =? chr "}")%N
        then Some (JObj (dict_set (fst kv) (JStr (snd kv)) acc), r4)
        else if (c3 =? chr ",")%N
             then Json.parse_members g
                    (dict_set (fst kv) (JStr (snd kv)) acc) (Json.skip_ws r4)
             else None
    | [] => None
    end.
Proof.
  intros Hg. unfold dumped_item, encode_basestring at 1.
  cbn [Json.parse_members app]. rewrite N.eqb_refl.
  rewrite <- !app_assoc. cbn [app]. rewrite scanstring_escaped.
  cbn [mbind option_bind rev app].
  change (py ": ") with [chr ":"; 32%N]. cbn [app Json.skip_ws].
  change (Json.ws (chr ":")) with false. cbv iota. rewrite N.eqb_refl.
  assert (Json.skip_ws (32%N :: encode_basestring (snd kv) ++ tail)
          = encode_basestring (snd kv) ++ tail) as -> by reflexivity.
  rewrite Hg. done.
Qed.

(** The members of an object, as the encoder wrote them. *)
Lemma parse_members_dumped (d : list (list N * list N)) :
  d <> [] ->
  forall (f : nat) (acc : list (list N * json)) (rest : list N),
    length d < f ->
    Json.parse_members f acc (join (py ", ") (map dumped_item d) ++ py "}" ++ rest)
    = Some (JObj (fold_left (fun a kv => dict_set (fst kv) (JStr (snd kv)) a) d acc), rest).
Proof.
  induction d as [|kv d IH]; [done|]. intros _ f acc rest Hf.
  destruct f as [|g]; [simpl in Hf; lia|].
  assert (forall s rest, Json.scan_once g (encode_basestring s ++ rest) = Some (JStr s, rest))
    as Hg.
  { destruct g as [|g]; [simpl in Hf; lia|]. intros s r. apply scan_once_string. }
  destruct d as [|kv2 d].
  - cbn [map join fold_left]. rewrite (parse_dumped_item g acc kv _ Hg). reflexivity.
  - change (join (py ", ") (map dumped_item (kv :: kv2 :: d)))
      with (dumped_item kv ++ py ", " ++ join (py ", ") (map dumped_item (kv2 :: d))).
    rewrite <- !app_assoc. rewrite (parse_dumped_item g acc kv _ Hg).
    change (py ", ") with [chr ","; 32%N]. cbn [app Json.skip_ws].
    change (Json.ws (chr ",")) with false. cbv iota.
    change (chr "," =? chr "}")%N with false. cbv iota. rewrite N.eqb_refl.
    assert (Json.skip_ws
              (32%N :: join [chr ","; 32%N] (map dumped_item (kv2 :: d)) ++ py "}" ++ rest)
            = join (py ", ") (map dumped_item (kv2 :: d)) ++ py "}" ++ rest) as ->.
    { destruct d; reflexivity. }
    cbn [fold_left]. apply (IH ltac:(done)). simpl in *. lia.
Qed.

Lemma fold_dict_set (d : list (list N * list N)) (acc : list (list N * json)) :
  NoDup (map fst acc ++ map fst d) ->
  fold_left (fun a kv => dict_set (fst kv) (JStr (snd kv)) a) d acc
  = acc ++ map (fun kv => (fst kv, JStr (snd kv))) d.
Proof.
  revert acc. induction d as [|kv d IH]; intros acc Hnd; simpl.
  - by rewrite app_nil_r.
  - assert (dict_set (fst kv) (JStr (snd kv)) acc = acc ++ [(fst kv, JStr (snd kv))]) as ->.
    { apply NoDup_app in Hnd as (_ & Hdisj & _).
      assert (fst kv ∉ map fst acc) as Hk.
      { intros Hin. apply (Hdisj _ Hin). left. }
      clear -Hk. induction acc as [|[k v] acc IH]; simpl; [done|].
      simpl in Hk. apply not_elem_of_cons in Hk as [Hne Hk].
      rewrite (text_eqb_neq _ _ Hne). by rewrite IH. }
    rewrite IH.
    + by rewrite <- app_assoc.
    + rewrite map_app. simpl. by rewrite <- app_assoc.
Qed.

(** A dictionary of strings that [json.dumps] wrote, with white space
    behind it, is read back by [json.loads] as the same dictionary. *)
Lemma loads_dumped (d : list (list N * list N)) (tail : list N) :
  NoDup (map fst d) ->
  Json.skip_ws tail = [] ->
  Json.loads (dumps_strings d ++ tail) = Ok (strings_object d).
Proof.
  intros Hnd Htail. apply loads_ok_iff. split; [reflexivity|].
  exists (S (S (length d))), tail. split; [|done].
  unfold dumps_strings. change (py "{") with [chr "{"]. cbn [app Json.skip_ws].
  change (Json.ws (chr "{")) with false. cbv iota.
  cbn [Json.scan_once]. change (chr "{" =? Json.quote)%N with false. cbv iota.
  rewrite N.eqb_refl.
  destruct d as [|kv d]; [reflexivity|].
  set (X := (join (py ", ") (map dumped_item (kv :: d)) ++ py "}") ++ tail).
  assert (exists X', X = Json.quote :: X') as [X' HX].
  { unfold X. destruct d; eexists; cbn [map join];
      unfold dumped_item at 1, encode_basestring at 1; rewrite <- ?app_assoc;
      reflexivity. }
  rewrite HX. cbn [Json.skip_ws]. change (Json.ws Json.quote) with false. cbv iota.
  change (Json.quote =? chr "}")%N with false. cbv iota.
  rewrite <- HX. unfold X. rewrite <- app_assoc.
  rewrite parse_members_dumped by (done || simpl; lia).
  rewrite fold_dict_set by done. done.
Qed.

(** ** Numerals *)

Lemma decimal_digits_enough (f1 f2 n : nat) :
  n < f1 -> n < f2 -> decimal_digits f1 n = decimal_digits f2 n.
Proof.
  revert f2 n. induction f1 as [|f1 IH]; intros f2 n H1 H2; [lia|].
  destruct f2 as [|f2]; [lia|]. cbn [decimal_digits].
  destruct (Nat.ltb_spec n 10) as [Hlt|Hge]; [done|].
  assert (n / 10 < n) by (apply Nat.div_lt; lia).
  f_equal. apply IH; lia.
Qed.

(** The numeral of a number: the numeral of its tenth, unless that is zero,
    and its last digit. *)
Lemma decimal_step (n : nat) :
  decimal n = (if n <? 10 then [] else decimal (n / 10)) ++ [N.of_nat (48 + n mod 10)].
Proof.
  unfold decimal at 1. cbn [decimal_digits].
  destruct (Nat.ltb_spec n 10) as [Hlt|Hge]; [done|].
  assert (n / 10 < n) by (apply Nat.div_lt; lia).
  f_equal. apply decimal_digits_enough; lia.
Qed.

Lemma numeral_value_snoc (ds : list N) (c : N) :
  numeral_value (ds ++ [c]) = numeral_value ds * 10 + (N.to_nat c - 48).
Proof. unfold numeral_value. by rewrite fold_left_app. Qed.

Lemma numeral_value_decimal (n : nat) : numeral_value (decimal n) = n.
Proof.
  induction n as [n IH] using lt_wf_ind.
  rewrite decimal_step, numeral_value_snoc.
  pose proof (Nat.mod_upper_bound n 10 ltac:(lia)) as Hm.
  replace (N.to_nat (N.of_nat (48 + n mod 10)) - 48) with (n mod 10) by lia.
  destruct (Nat.ltb_spec n 10) as [Hlt|Hge].
  - rewrite Nat.mod_small by done. reflexivity.
  - assert (n / 10 < n) by (apply Nat.div_lt; lia). rewrite IH by done.
    pose proof (Nat.div_mod_eq n 10). lia.
Qed.

Lemma numeral_value_zeros (k : nat) (ds : list N) :
  numeral_value (repeat (chr "0") k ++ ds) = numeral_value ds.
Proof.
  unfold numeral_value. rewrite fold_left_app. f_equal.
  induction k as [|k IH]; [done|]. simpl. exact IH.
Qed.

Lemma numeral_value_decimal06 (n : nat) : numeral_value (decimal06 n) = n.
Proof. unfold decimal06. by rewrite numeral_value_zeros, numeral_value_decimal. Qed.

(** The characters of a numeral are ASCII digits. *)
Lemma decimal_is_digits (n : nat) : Forall (fun c => Json.is_digit c = true) (decimal n).
Proof.
  induction n as [n IH] using lt_wf_ind. rewrite decimal_step.
  apply Forall_app. split.
  - destruct (Nat.ltb_spec n 10) as [Hlt|Hge]; [constructor|].
    apply IH. apply Nat.div_lt; lia.
  - repeat constructor. unfold Json.is_digit, in_range.
    pose proof (Nat.mod_upper_bound n 10 ltac:(lia)) as Hm.
    apply andb_true_iff. split; apply N.leb_le; lia.
Qed.

Lemma decimal_nonempty (n : nat) : decimal n <> [].
Proof. rewrite decimal_step. by destruct (if n <? 10 then _ else _). Qed.

Lemma decimal06_is_digits (n : nat) : Forall (fun c => Json.is_digit c = true) (decimal06 n).
Proof.
  unfold decimal06. apply Forall_app. split; [|apply decimal_is_digits].
  induction (6 - length (decimal n)) as [|k IH]; simpl; [constructor|by constructor].
Qed.

(** The ids of the sample documents tell the documents apart. *)
Lemma sample_id_inj (i j : nat) :
  py "doc_" ++ decimal06 i = py "doc_" ++ decimal06 j -> i = j.
Proof.
  intros Heq. apply app_inv_head in Heq.
  by rewrite <- (numeral_value_decimal06 i), <- (numeral_value_decimal06 j), Heq.
Qed.
(** ** The lines of a written file *)

(** A line without line ends, and its line feed, is read back as it is. *)
Lemma read_lines_line (l cur rest : list N) :
  Forall (fun x => (32 <= x)%N) l ->
  read_lines cur (l ++ 10%N :: rest) = (rev cur ++ l ++ [10%N]) :: read_lines [] rest.
Proof.
  revert cur. induction l as [|c l IH]; intros cur Hl.
  - done.
  - inversion Hl as [|? ? Hc Hl']; subst. simpl.
    destruct (N.eqb_spec c 10); [lia|]. destruct (N.eqb_spec c 13); [lia|].
    rewrite IH by done. simpl. by rewrite <- app_assoc.
Qed.

Lemma file_lines_concat (bodies : list (list N)) :
  Forall (Forall (fun x => (32 <= x)%N)) bodies ->
  file_lines (concat (map (fun b => b ++ [10%N]) bodies))
  = map (fun b => b ++ [10%N]) bodies.
Proof.
  unfold file_lines. induction 1 as [|b bodies Hb _ IH]; [done|].
  simpl. rewrite <- app_assoc. simpl. rewrite read_lines_line by done.
  simpl. by rewrite IH.
Qed.

Lemma join_printable (sep : list N) (parts : list (list N)) :
  Forall (fun x => (32 <= x)%N) sep ->
  Forall (Forall (fun x => (32 <= x)%N)) parts ->
  Forall (fun x => (32 <= x)%N) (join sep parts).
Proof.
  intros Hsep. induction 1 as [|p parts Hp Hparts IH]; [constructor|].
  simpl. destruct parts as [|q parts]; [done|].
  apply Forall_app. split; [done|]. apply Forall_app. by split.
Qed.

Lemma dumps_strings_printable (d : list (list N * list N)) :
  Forall (fun x => (32 <= x)%N) (dumps_strings d).
Proof.
  unfold dumps_strings. apply Forall_app. split; [by repeat constructor|].
  apply Forall_app. split; [|by repeat constructor].
  apply join_printable; [by repeat constructor|].
  apply Forall_map, Forall_forall. intros kv _. unfold dumped_item.
  apply Forall_app. split; [apply encode_basestring_printable|].
  apply Forall_app. split; [by repeat constructor|apply encode_basestring_printable].
Qed.

(** What [strip] leaves of a written line *)
Lemma strip_line (a b : N) (m : list N) :
  isspace a = false -> isspace b = false ->
  strip (a :: m ++ [b; 10%N]) = a :: m ++ [b].
Proof.
  intros Ha Hb. unfold strip, rstrip. cbn [lstrip]. rewrite Ha.
  change (a :: m ++ [b; 10%N]) with ((a :: m) ++ [b; 10%N]).
  rewrite rev_app_distr. cbn [rev app lstrip].
  replace (isspace 10) with true by reflexivity. rewrite Hb.
  cbn [rev]. by rewrite rev_app_distr, rev_involutive.
Qed.

Lemma strip_dumped (d : list (list N * list N)) :
  strip (dumps_strings d ++ [10%N]) = dumps_strings d.
Proof.
  unfold dumps_strings.
  change (py "{" ++ ?x) with (123%N :: x).
  rewrite <- app_comm_cons, <- app_assoc.
  change (py "}" ++ [10%N]) with [125%N; 10%N]. change (py "}") with [125%N].
  by apply strip_line.
Qed.

(** ** The generated lines *)

Lemma sample_doc_keys (rand : nat -> nat) (i : nat) :
  map fst (sample_doc rand i) = required_fields.
Proof. reflexivity. Qed.

Lemma required_fields_NoDup : NoDup required_fields.
Proof. apply (bool_decide_unpack _). vm_compute. reflexivity. Qed.

Lemma sample_line_loads (rand : nat -> nat) (i : nat) :
  Json.loads (sample_line rand i) = Ok (strings_object (sample_doc rand i)).
Proof.
  unfold sample_line. apply loads_dumped; [|done].
  rewrite sample_doc_keys. apply required_fields_NoDup.
Qed.

Lemma sample_line_stripped_loads (rand : nat -> nat) (i : nat) :
  Json.loads (strip (sample_line rand i)) = Ok (strings_object (sample_doc rand i)).
Proof.
  unfold sample_line. rewrite strip_dumped.
  rewrite <- (app_nil_r (dumps_strings _)). apply loads_dumped; [|done].
  rewrite sample_doc_keys. apply required_fields_NoDup.
Qed.

Lemma sample_line_not_blank (rand : nat -> nat) (i : nat) :
  blank (sample_line rand i) = false.
Proof. unfold blank, sample_line. rewrite strip_dumped. done. Qed.

Lemma sample_doc_kind (rand : nat -> nat) (i : nat) :
  data_kind (strings_object (sample_doc rand i)) = Some (Doc (py "doc_" ++ decimal06 i)).
Proof. reflexivity. Qed.

Lemma sample_line_classify (rand : nat -> nat) (i : nat) :
  classify (sample_line rand i) = Some (Doc (py "doc_" ++ decimal06 i)).
Proof.
  unfold classify. by rewrite sample_line_not_blank, sample_line_loads, sample_doc_kind.
Qed.

Lemma show_sample_line (rand : nat -> nat) (i : nat) :
  show_line (sample_line rand i) = Ok tt.
Proof. unfold show_line. rewrite sample_line_loads. reflexivity. Qed.

Lemma sample_lines_read (rand : nat -> nat) (n : nat) :
  file_lines (concat (map (sample_line rand) (seq 0 n))) = map (sample_line rand) (seq 0 n).
Proof.
  unfold sample_line.
  rewrite <- (map_map (fun i => dumps_strings (sample_doc rand i)) (fun b => b ++ [10%N])).
  apply file_lines_concat, Forall_map, Forall_forall.
  intros i _. apply dumps_strings_printable.
Qed.

Lemma line_ids_cons (l : list N) (ls : list (list N)) :
  line_ids (l :: ls)
  = match classify l with
    | Some (Doc i) => i :: line_ids ls
    | _ => line_ids ls
    end.
Proof. unfold line_ids. simpl. by destruct (classify l) as [[]|]. Qed.

Lemma sample_line_ids (rand : nat -> nat) (l : list nat) :
  line_ids (map (sample_line rand) l) = map (fun i => py "doc_" ++ decimal06 i) l.
Proof.
  induction l as [|i l IH]; [done|].
  cbn [map]. by rewrite line_ids_cons, sample_line_classify, IH.
Qed.

Lemma sample_ids_NoDup (n : nat) :
  NoDup (map (fun i => py "doc_" ++ decimal06 i) (seq 0 n)).
Proof.
  apply NoDup_fmap_2_strong; [|apply NoDup_seq].
  intros i j _ _. apply sample_id_inj.
Qed.
(** ** The generator and the programs that read its file *)

(** The world after [generate_sample_data], when the directory exists. *)
Lemma generate_sample_data_world (num_docs : Z) (output_file : list N)
    (rand : nat -> nat) (w : World) :
  generate_sample_data (Ok tt) num_docs output_file rand w
  = (Ok tt,
     mkWorld (<[output_file := concat (map (sample_line rand) (seq 0 (Z.to_nat num_docs)))]>
                (files w))
       (stores w)).
Proof.
  unfold generate_sample_data, mbind, prog_bind, write_file, lift, open_lines, mret, prog_ret.
  cbn [files stores]. rewrite lookup_insert_eq. rewrite sample_lines_read.
  destruct (for_each_ok show_line
              (take 3 (map (sample_line rand) (seq 0 (Z.to_nat num_docs))))) as [ys ->];
    [|done].
  apply Forall_take, Forall_map, Forall_forall. intros i _.
  by rewrite show_sample_line.
Qed.

Lemma generated_file_content (num_docs : Z) (output_file : list N)
    (rand : nat -> nat) (w w' : World) :
  generate_sample_data (Ok tt) num_docs output_file rand w = (Ok tt, w') ->
  exists content,
    files w' !! output_file = Some content /\
    file_lines content = map (sample_line rand) (seq 0 (Z.to_nat num_docs)).
Proof.
  rewrite generate_sample_data_world. intros [= <-]. eexists. cbn [files].
  split; [apply lookup_insert_eq|apply sample_lines_read].
Qed.

Lemma sample_lines_kinds (rand : nat -> nat) (l : list nat) :
  Forall2 (fun line k => classify line = Some k) (map (sample_line rand) l)
    (map Doc (map (fun i => py "doc_" ++ decimal06 i) l)).
Proof.
  induction l as [|i l IH]; [constructor|].
  cbn [map]. constructor; [apply sample_line_classify|exact IH].
Qed.

(** ** The loop of [validate_jsonl] *)

Lemma py_contains_fields (data : json) :
  (forall f, py_contains data f = Ok (has_field data f)) \/
  (forall f, py_contains data f = Raise TypeError /\ has_field data f = false).
Proof. unfold has_field. destruct data; simpl; auto. Qed.

Lemma filter_length_le {A} (p : A -> bool) (l : list A) :
  length (List.filter p l) <= length l.
Proof. induction l as [|x l IH]; simpl; [done|]. destruct (p x); simpl; lia. Qed.

Lemma filter_length_all {A} (p : A -> bool) (l : list A) :
  length (List.filter p l) = length l <-> Forall (fun x => p x = true) l.
Proof.
  induction l as [|x l IH]; simpl; [by split|].
  pose proof (filter_length_le p l). rewrite Forall_cons.
  destruct (p x); simpl; [|split; [lia|by intros [? _]]].
  rewrite <- IH. split; [intros [= ?]; done|intros [_ ->]; done].
Qed.

(** One turn of the loop: a line that is not blank and decodes to a value
    with the three fields adds to both counters; any other line adds to the
    total only, or ends the loop with the [TypeError] of [in]. *)
Lemma validate_jsonl_lines_cons (l : list N) (lines : list (list N)) (v t : nat) :
  (jsonl_line_ok l = true /\
   validate_jsonl_lines (l :: lines) v t = validate_jsonl_lines lines (S v) (S t)) \/
  (jsonl_line_ok l = false /\
   (validate_jsonl_lines (l :: lines) v t = validate_jsonl_lines lines v (S t) \/
    validate_jsonl_lines (l :: lines) v t = Raise TypeError)).
Proof.
  cbn [validate_jsonl_lines]. unfold jsonl_line_ok, blank.
  destruct (strip l) as [|c s]; [right; auto|].
  cbn [negb andb].
  destruct (Json.loads (c :: s)) as [data|e] eqn:Hl.
  2:{ apply loads_raises in Hl as ->. right. auto. }
  unfold required_fields. cbn [forallb]. unfold mbind, result_bind.
  destruct (py_contains_fields data) as [Hc|Hc].
  - rewrite !Hc.
    destruct (has_field data (py "id")); cbn [andb]; [|right; auto].
    destruct (has_field data (py "text")); cbn [andb]; [|right; auto].
    destruct (has_field data (py "source")); cbn [andb]; [left; auto|right; auto].
  - destruct (Hc (py "id")) as [-> ->]. right. auto.
Qed.

(** The counters after the loop: every line adds to the total, and the lines
    that are not blank and decode to a value with the three fields add to
    the valid ones.  The loop raises only at a line that is not one of
    these. *)
Lemma validate_jsonl_lines_spec (lines : list (list N)) (valid_lines total_lines : nat) :
  match validate_jsonl_lines lines valid_lines total_lines with
  | Ok (v, t) =>
      t = total_lines + length lines /\
      v = valid_lines + length (List.filter jsonl_line_ok lines)
  | Raise _ => ~ Forall (fun l => jsonl_line_ok l = true) lines
  end.
Proof.
  revert valid_lines total_lines.
  induction lines as [|l lines IH]; intros v t; [simpl; lia|].
  cbn [List.filter length].
  destruct (validate_jsonl_lines_cons l lines v t) as [[Hok ->]|[Hok [->| ->]]];
    rewrite ?Hok.
  - specialize (IH (S v) (S t)).
    destruct (validate_jsonl_lines lines (S v) (S t)) as [[v' t']|].
    + cbn [length]. lia.
    + intros Hall. apply IH. by inversion Hall.
  - specialize (IH v (S t)).
    destruct (validate_jsonl_lines lines v (S t)) as [[v' t']|].
    + lia.
    + intros Hall. apply IH. by inversion Hall.
  - intros Hall. inversion Hall as [|? ? Hok' _]; subst. congruence.
Qed.

Lemma sample_line_ok (rand : nat -> nat) (i : nat) :
  jsonl_line_ok (sample_line rand i) = true.
Proof.
  unfold jsonl_line_ok. by rewrite sample_line_not_blank, sample_line_stripped_loads.
Qed.

(** X20.  When the output file can be opened for writing, the generator
    returns and leaves a file of [num_docs] lines (none when [num_docs] is
    negative), and [json.loads] reads line [i] back as the record that was
    written for document [i], whatever texts were drawn.  When the file
    cannot be opened, the call raises what [open] raised and writes
    nothing. *)
Theorem generate_sample_data_outcome (num_docs : Z) (output_file : list N)
    (rand : nat -> nat) (w : World) :
  (exists content,
     generate_sample_data (Ok tt) num_docs output_file rand w
     = (Ok tt, mkWorld (<[output_file := content]> (files w)) (stores w)) /\
     length (file_lines content) = Z.to_nat num_docs /\
     map Json.loads (file_lines content)
     = map (fun i => Ok (strings_object (sample_doc rand i))) (seq 0 (Z.to_nat num_docs))) /\
  (forall e, generate_sample_data (Raise e) num_docs output_file rand w = (Raise e, w)).
Proof.
  split; [|done]. eexists. split; [apply generate_sample_data_world|].
  rewrite sample_lines_read. split.
  - by rewrite length_map, length_seq.
  - rewrite map_map. apply map_ext. intros i. apply sample_line_loads.
Qed.

(** X21.  [validate_jsonl] returns [True] exactly when the file exists and
    every line of it is not blank and, once stripped, holds a JSON value in
    which [id], [text] and [source] occur; in every other case it returns
    [False]: it never raises.  A blank line is skipped by the loop but
    counted in the total, so a file with a blank line is never valid. *)
Theorem validate_jsonl_true_iff (fs : gmap (list N) (list N)) (file_path : list N) :
  (validate_jsonl fs file_path = true <->
   exists content,
     fs !! file_path = Some content /\
     Forall (fun line => jsonl_line_ok line = true) (file_lines content)) /\
  (forall content line,
     fs !! file_path = Some content -> line ∈ file_lines content -> blank line = true ->
     validate_jsonl fs file_path = false).
Proof.
  assert (validate_jsonl fs file_path = true <->
          exists content,
            fs !! file_path = Some content /\
            Forall (fun line => jsonl_line_ok line = true) (file_lines content)) as Hiff.
  { unfold validate_jsonl, open_lines.
    destruct (fs !! file_path) as [content|]; [|split; [done|by intros (? & ? & _)]].
    pose proof (validate_jsonl_lines_spec (file_lines content) 0 0) as Hspec.
    destruct (validate_jsonl_lines (file_lines content) 0 0) as [[v t]|].
    - destruct Hspec as [-> ->]. simpl. rewrite Nat.eqb_eq, filter_length_all.
      split; [by exists content|by intros (? & [= <-] & ?)].
    - split; [done|]. by intros (? & [= <-] & ?). }
  split; [exact Hiff|].
  intros content line Hf Hin Hb. apply not_true_is_false. intros Ht.
  apply Hiff in Ht as (content' & Hf' & Hall).
  assert (content' = content) as -> by congruence.
  rewrite Forall_forall in Hall. specialize (Hall line Hin).
  unfold jsonl_line_ok in Hall. by rewrite Hb in Hall.
Qed.

(** X22.  The data validator passes every file that the generator writes:
    all [num_docs] lines are valid documents, none is blank, malformed or
    short of a field, and no id occurs twice, whatever texts were drawn. *)
Theorem generated_file_passes `{UnicodeData} (num_docs : Z) (output_file : list N)
    (rand : nat -> nat) (w w' : World) :
  generate_sample_data (Ok tt) num_docs output_file rand w = (Ok tt, w') ->
  exists r,
    validate (files w') (DataValidator_init output_file) = Ok r /\
    validation_passed r = true /\
    total_lines (report_stats r) = Z.to_nat num_docs /\
    valid_docs (report_stats r) = Z.to_nat num_docs /\
    duplicate_ids (report_stats r) = 0 /\
    report_errors r = [].
Proof.
  intros Hg. apply generated_file_content in Hg as (content & Hf & Hlines).
  pose proof (sample_lines_kinds rand (seq 0 (Z.to_nat num_docs))) as Hk.
  pose proof (sample_ids_NoDup (Z.to_nat num_docs)) as Hnd.
  assert (length (map (fun i => py "doc_" ++ decimal06 i) (seq 0 (Z.to_nat num_docs)))
          = Z.to_nat num_docs) as Hlen by (by rewrite length_map, length_seq).
  rewrite <- Hlines in Hk.
  set (ids := map (fun i => py "doc_" ++ decimal06 i) (seq 0 (Z.to_nat num_docs))) in *.
  clearbody ids.
  destruct (validate_kinds _ _ _ _ Hf Hk) as (self' & E & A).
  exists (_generate_report self'). split; [done|].
  destruct A as (A1 & _ & A3 & A4 & A5 & A6 & A7). simpl in *.
  rewrite count_docs_is_doc in A5.
  rewrite !count_docs_other in A7 by done.
  rewrite doc_ids_docs in A6, A7.
  rewrite (repeats_fresh ∅ _ Hnd) in A6, A7.
  2,3: intros i _; apply not_elem_of_empty.
  rewrite length_map in A1.
  destruct (errors self'); [|done]. repeat split; lia.
Qed.

(** X22 for three documents. *)
Lemma generated_file_passes_witness :
  exists r,
    validate (files (snd (generate_sample_data (Ok tt) 3 sample_output sample_rand
                            (mkWorld ∅ ∅))))
      (DataValidator_init sample_output) = Ok r /\
    validation_passed r = true /\ valid_docs (report_stats r) = 3.
Proof.
  destruct (generated_file_passes 3 sample_output sample_rand (mkWorld ∅ ∅)
              (snd (generate_sample_data (Ok tt) 3 sample_output sample_rand (mkWorld ∅ ∅))))
    as (r & Hr & Hp & _ & Hv & _).
  - vm_compute. reflexivity.
  - exists r. done.
Defined.

(** X23.  The check of the generator script accepts every file that the
    generator writes. *)
Theorem generated_file_is_valid_jsonl (num_docs : Z) (output_file : list N)
    (rand : nat -> nat) (w w' : World) :
  generate_sample_data (Ok tt) num_docs output_file rand w = (Ok tt, w') ->
  validate_jsonl (files w') output_file = true.
Proof.
  intros Hg. apply generated_file_content in Hg as (content & Hf & Hlines).
  unfold validate_jsonl, open_lines. rewrite Hf.
  pose proof (validate_jsonl_lines_spec (file_lines content) 0 0) as Hspec.
  assert (Forall (fun l => jsonl_line_ok l = true) (file_lines content)) as Hall.
  { rewrite Hlines. apply Forall_map, Forall_forall. intros i _. apply sample_line_ok. }
  destruct (validate_jsonl_lines (file_lines content) 0 0) as [[v t]|]; [|done].
  destruct Hspec as [-> ->]. apply Nat.eqb_eq. simpl. by apply filter_length_all.
Qed.

(** X23 for three documents. *)
Lemma generated_file_is_valid_jsonl_witness :
  validate_jsonl
    (files (snd (generate_sample_data (Ok tt) 3 sample_output sample_rand (mkWorld ∅ ∅))))
    sample_output = true.
Proof.
  apply (generated_file_is_valid_jsonl 3 sample_output sample_rand (mkWorld ∅ ∅)).
  vm_compute. reflexivity.
Defined.

Lemma parse_chunks_samples (rand : nat -> nat) (l : list nat) :
  parse_chunks (map (sample_line rand) l)
  = Ok (map (fun i => strings_object (sample_doc rand i)) l).
Proof.
  induction l as [|i l IH]; [done|].
  cbn [map parse_chunks]. rewrite sample_line_not_blank, sample_line_loads, IH. done.
Qed.

Lemma sample_doc_text_length (rand : nat -> nat) (i : nat) :
  is_ok (chunk_text_length (strings_object (sample_doc rand i))) = true.
Proof. reflexivity. Qed.

Section GeneratedInput.
Context `{VectorStore} `{EmbeddingModel}.

(** The loader on a file that holds the generated lines. *)
Lemma load_chunks_generated (self : ChunkVectorizer) (rand : nat -> nat) (n : nat)
    (w : World) (content : list N) :
  files w !! input_file (config self) = Some content ->
  file_lines content = map (sample_line rand) (seq 0 n) ->
  load_chunks self w
  = (Ok (map (fun i => strings_object (sample_doc rand i)) (seq 0 n)), w).
Proof.
  intros Hf Hlines.
  unfold load_chunks, open_lines. rewrite Hf. unfold mbind, result_bind.
  rewrite Hlines, parse_chunks_samples.
  destruct (for_each_ok chunk_text_length
              (map (fun i => strings_object (sample_doc rand i)) (seq 0 n)))
    as [ys Hys].
  { apply Forall_map, Forall_forall. intros i _. apply sample_doc_text_length. }
  rewrite Hys.
  by destruct (map (fun i => strings_object (sample_doc rand i)) (seq 0 n)).
Qed.

End GeneratedInput.

(** X24.  The loader of the vectorizer reads a generated file back as the
    records that the generator wrote, one chunk for each document and in
    the order of the numbers, and leaves the world as it is. *)
Theorem generated_file_loads `{VectorStore} `{EmbeddingModel}
    (self : ChunkVectorizer) (num_docs : Z) (rand : nat -> nat) (w w' : World) :
  generate_sample_data (Ok tt) num_docs (input_file (config self)) rand w = (Ok tt, w') ->
  load_chunks self w'
  = (Ok (map (fun i => strings_object (sample_doc rand i)) (seq 0 (Z.to_nat num_docs))), w').
Proof.
  intros Hg. apply generated_file_content in Hg as (content & Hf & Hlines).
  by apply (load_chunks_generated self rand (Z.to_nat num_docs) w' content).
Qed.

(** X24 for three documents. *)
Lemma generated_file_loads_witness :
  fst (load_chunks sample_vectorizer
         (snd (generate_sample_data (Ok tt) 3 (input_file (config sample_vectorizer))
                 sample_rand (mkWorld ∅ ∅))))
  = Ok (map (fun i => strings_object (sample_doc sample_rand i)) [0; 1; 2]).
Proof.
  rewrite (generated_file_loads sample_vectorizer 3 sample_rand (mkWorld ∅ ∅)
             (snd (generate_sample_data (Ok tt) 3 (input_file (config sample_vectorizer))
                     sample_rand (mkWorld ∅ ∅)))).
  - reflexivity.
  - vm_compute. reflexivity.
Defined.
(** ** From the generator to the collection *)

Lemma zip_rows_ids_sublist a e d m :
  map row_id (Chroma.zip_rows a e d m) `sublist_of` a.
Proof.
  revert e d m. induction a as [|i a IH]; intros [|x e] [|y d] [|z m]; simpl;
    try apply sublist_nil_l.
  apply sublist_skip, IH.
Qed.

Lemma zip_rows_full a e d m :
  length d = length a -> length m = length a ->
  length (Chroma.zip_rows a e d m) = length a ->
  map row_id (Chroma.zip_rows a e d m) = a /\
  map row_document (Chroma.zip_rows a e d m) = d /\
  map row_metadata (Chroma.zip_rows a e d m) = m.
Proof.
  revert e d m. induction a as [|i a IH]; intros [|x e] [|y d] [|z m]; simpl; try done.
  intros [= Hd] [= Hm] [= Hl]. destruct (IH e d m Hd Hm Hl) as (-> & -> & ->). done.
Qed.

(** X25.  The generator and the vectorizer fit: when a run on a generated
    file ends well, with a positive batch size and an input file that is
    not the log of collections, the collection holds one row for each
    generated document, in the order of the numbers: the id [doc_] and the
    number, the text as the document, and the source as the metadata. *)
Theorem generated_data_is_stored `{VectorStore} `{EmbeddingModel}
    (cfg : Config) (ts : list N) (num_docs : Z) (rand : nat -> nat) (w w1 w2 : World) :
  input_file cfg <> collections_file ->
  (0 < batch_size cfg)%Z ->
  generate_sample_data (Ok tt) num_docs (input_file cfg) rand w = (Ok tt, w1) ->
  vectorizer_main cfg ts w1 = (Ok tt, w2) ->
  exists rows,
    rows_of w2 (db_directory cfg)
      (derive_collection_name (input_file cfg) (model_name cfg)) = Some rows /\
    map row_id rows
    = map (fun i => py "doc_" ++ decimal06 i) (seq 0 (Z.to_nat num_docs)) /\
    map row_document rows
    = map (fun i => JStr (sample_text rand i)) (seq 0 (Z.to_nat num_docs)) /\
    map row_metadata rows
    = map (fun i => [(py "source", JStr (sample_source i))]) (seq 0 (Z.to_nat num_docs)).
Proof.
  intros Hne Hb Hg Hrun.
  apply generated_file_content in Hg as (content & Hf & Hlines).
  destruct (run_outcome cfg ts w1 w2 Hrun)
    as (_ & chunks & embs & rows & Hload & Hrows & _ & Hfull).
  set (self := mkVectorizer cfg (derive_collection_name (input_file cfg) (model_name cfg))
                 (db_directory cfg)) in *.
  assert (files (world_after_setup cfg ts w1) !! input_file (config self) = Some content)
    as Hf'.
  { unfold world_after_setup. cbn [files config self]. by rewrite lookup_insert_ne. }
  rewrite (load_chunks_generated self rand (Z.to_nat num_docs) _ content Hf' Hlines)
    in Hload.
  injection Hload as <-.
  set (l := seq 0 (Z.to_nat num_docs)) in *.
  assert (map (fun c => id_text (chunk_field (py "id") c))
            (map (fun i => strings_object (sample_doc rand i)) l)
          = map (fun i => py "doc_" ++ decimal06 i) l) as Hids.
  { rewrite map_map. by apply map_ext. }
  assert (map (chunk_field (py "text"))
            (map (fun i => strings_object (sample_doc rand i)) l)
          = map (fun i => JStr (sample_text rand i)) l) as Hdocs.
  { rewrite map_map. by apply map_ext. }
  assert (map (fun c => [(py "source", chunk_field (py "source") c)])
            (map (fun i => strings_object (sample_doc rand i)) l)
          = map (fun i => [(py "source", JStr (sample_source i))]) l) as Hmetas.
  { rewrite map_map. by apply map_ext. }
  unfold chunk_rows in Hfull. rewrite Hids, Hdocs, Hmetas in Hfull.
  destruct Hfull as [-> Hlen]; [|done|].
  { eapply sublist_NoDup; [apply (sample_ids_NoDup (Z.to_nat num_docs))|].
    apply zip_rows_ids_sublist. }
  exists (Chroma.zip_rows (map (fun i => py "doc_" ++ decimal06 i) l) embs
            (map (fun i => JStr (sample_text rand i)) l)
            (map (fun i => [(py "source", JStr (sample_source i))]) l)).
  split; [exact Hrows|].
  apply zip_rows_full; rewrite ?length_map in *; done.
Qed.

(** X25 for three documents and the sample store and model. *)
Lemma generated_data_is_stored_witness :
  exists rows,
    rows_of (snd (vectorizer_main sample_config sample_time
                    (snd (generate_sample_data (Ok tt) 3 data_path sample_rand (mkWorld ∅ ∅)))))
      (py "db") (derive_collection_name data_path (py "org/model")) = Some rows /\
    map row_id rows = [py "doc_000000"; py "doc_000001"; py "doc_000002"].
Proof.
  destruct (generated_data_is_stored sample_config sample_time 3 sample_rand
              (mkWorld ∅ ∅)
              (snd (generate_sample_data (Ok tt) 3 data_path sample_rand (mkWorld ∅ ∅)))
              (snd (vectorizer_main sample_config sample_time
                      (snd (generate_sample_data (Ok tt) 3 data_path sample_rand
                              (mkWorld ∅ ∅))))))
    as (rows & Hrows & Hids & _).
  - vm_compute. discriminate.
  - vm_compute. reflexivity.
  - vm_compute. reflexivity.
  - vm_compute. reflexivity.
  - exists rows. split; [exact Hrows|]. rewrite Hids. vm_compute. reflexivity.
Defined.
(** ** The directory of the output file *)

Lemma rfind_end_zero (c : N) (s : list N) :
  rfind_end c s = 0 <-> has_char c s = false.
Proof.
  unfold has_char. induction s as [|x s IH]; [done|].
  cbn [rfind_end existsb]. rewrite (N.eqb_sym c x).
  destruct (rfind_end c s) as [|r].
  - assert (existsb (N.eqb c) s = false) as -> by (by apply IH).
    change (0 <? 0) with false. cbv iota. rewrite orb_false_r.
    by destruct (x =? c)%N.
  - change (0 <? S r) with true. cbv iota. split; [done|]. intros Hn.
    apply orb_false_iff in Hn as [_ Hn]. by apply IH in Hn.
Qed.

Lemma rfind_end_le (c : N) (s : list N) : rfind_end c s <= length s.
Proof.
  induction s as [|x s IH]; [done|]. cbn [rfind_end length].
  destruct (0 <? rfind_end c s); [lia|]. destruct (x =? c)%N; lia.
Qed.

Lemma lstrip_char_nil (c : N) (s : list N) :
  lstrip_char c s = [] -> Forall (eq c) s.
Proof.
  induction s as [|x s IH]; [constructor|]. cbn [lstrip_char].
  destruct (N.eqb_spec x c) as [->|]; [|done]. intros Hs. constructor; auto.
Qed.

Lemma all_repeat (c : N) (s : list N) : Forall (eq c) s -> s = repeat c (length s).
Proof. induction 1 as [|x s <- _ IH]; [done|]. simpl. by rewrite <- IH. Qed.

(** A path has an empty [dirname] exactly when it has no slash. *)
Lemma dirname_nil (p : list N) : dirname p = [] <-> has_char (chr "/") p = false.
Proof.
  rewrite <- rfind_end_zero. unfold dirname.
  pose proof (rfind_end_le (chr "/") p) as Hle.
  destruct (rfind_end (chr "/") p) as [|i] eqn:Hi; [done|].
  set (head := take (S i) p).
  assert (length head = S i) as Hlen by (unfold head; rewrite length_take; lia).
  assert (head <> []) as Hne by (intros E; by rewrite E in Hlen).
  split; [|done]. rewrite bool_decide_eq_false_2 by done. cbn [negb andb].
  destruct (decide (head = repeat (chr "/") (length head))) as [Hall|Hnot].
  - by rewrite bool_decide_eq_true_2.
  - rewrite bool_decide_eq_false_2 by done. cbn [negb]. unfold rstrip_char.
    intros Hr. exfalso. apply Hnot, all_repeat.
    assert (lstrip_char (chr "/") (rev head) = []) as Hl.
    { rewrite <- (rev_involutive (lstrip_char _ _)). by rewrite Hr. }
    apply lstrip_char_nil, Forall_rev in Hl. by rewrite rev_involutive in Hl.
Qed.

(** X26.  The script of the generator needs an output path with a directory
    part.  For a path without a slash, such as a bare file name, it raises
    [FileNotFoundError] at [os.makedirs] and generates nothing, although
    the file could be written.  For every other path it does what
    [os.makedirs] and [generate_sample_data] do: it raises what the first
    of them raises, and otherwise ends well, with or without the check. *)
Theorem generator_needs_directory_part (num_docs : Z) (output : list N)
    (validate : bool) (rand : nat -> nat) (made opened : result unit) (w : World) :
  (has_char (chr "/") output = false ->
   generator_main num_docs output validate rand made opened w
   = (Raise FileNotFoundError, w)) /\
  (has_char (chr "/") output = true ->
   generator_main num_docs output validate rand made opened w
   = match made with
     | Ok _ => generate_sample_data opened num_docs output rand w
     | Raise e => (Raise e, w)
     end).
Proof.
  unfold generator_main, lift, makedirs, mbind, prog_bind. split.
  - intros Hno. apply dirname_nil in Hno. by rewrite Hno.
  - intros Hyes. destruct (dirname output) as [|c d] eqn:Hd.
    { apply dirname_nil in Hd. congruence. }
    destruct made as [[]|e]; [|done].
    destruct opened as [[]|e].
    + rewrite generate_sample_data_world. done.
    + done.
Qed.

(** X26 at a bare file name and at a path in a directory. *)
Lemma generator_needs_directory_part_witness :
  generator_main 3 (py "sample.jsonl") true sample_rand (Ok tt) (Ok tt) (mkWorld ∅ ∅)
  = (Raise FileNotFoundError, mkWorld ∅ ∅) /\
  fst (generator_main 3 sample_output true sample_rand (Ok tt) (Ok tt) (mkWorld ∅ ∅))
  = Ok tt.
Proof.
  split.
  - apply (generator_needs_directory_part 3 (py "sample.jsonl") true sample_rand
             (Ok tt) (Ok tt) (mkWorld ∅ ∅)).
    vm_compute. reflexivity.
  - destruct (generator_needs_directory_part 3 sample_output true sample_rand
                (Ok tt) (Ok tt) (mkWorld ∅ ∅)) as [_ Hyes].
    rewrite Hyes by (vm_compute; reflexivity). vm_compute. reflexivity.
Defined.
(** ** What a run keeps of the database it finds *)

Section RunForgets.
Context `{VectorStore} `{EmbeddingModel}.

(** The calls of the store go the same way in two worlds that agree on the
    collection. *)
Lemma store_batches_agree self (b : Z) ids embs docs metas (starts : list Z) :
  forall w v r w',
    same_input (client self) (collection_name self) w v ->
    store_batches self b ids embs docs metas starts w = (r, w') ->
    exists v',
      store_batches self b ids embs docs metas starts v = (r, v') /\
      same_input (client self) (collection_name self) w' v'.
Proof.
  unfold store_batches.
  induction starts as [|i starts IH]; intros w v r w' Hs.
  - intros [= <- <-]. by exists v.
  - pose proof Hs as [Hf Hc]. cbn [for_each_prog]. unfold mbind, prog_bind. unfold Chroma.add at 1 3.
    rewrite Hc.
    destruct (Chroma.db_at v (client self) !! collection_name self) as [c|];
      [|intros [= <- <-]; by exists v].
    destruct (Chroma.add_rows _ _ _ _ _) as [rows'|e];
      [|intros [= <- <-]; by exists v].
    apply IH. split; [done|]. by rewrite !db_at_set_db, !lookup_insert_eq.
Qed.

Lemma process_agree (self : ChunkVectorizer) (chunks : list json) (w v : World) r w' :
  same_input (client self) (collection_name self) w v ->
  process_and_store_chunks self chunks w = (r, w') ->
  exists v',
    process_and_store_chunks self chunks v = (r, v') /\
    same_input (client self) (collection_name self) w' v'.
Proof.
  intros Hs. destruct (decide (chunks = [])) as [->|Hne].
  { intros [= <- <-]. by exists v. }
  rewrite !process_unfold by done.
  destruct (for_each _ chunks) as [ids|]; [|intros [= <- <-]; by exists v].
  destruct (for_each _ chunks) as [texts|]; [|intros [= <- <-]; by exists v].
  destruct (for_each _ chunks) as [metas|]; [|intros [= <- <-]; by exists v].
  destruct (total_batches _ _); [|intros [= <- <-]; by exists v].
  destruct (batches_of _ _) as [tb|]; [|intros [= <- <-]; by exists v].
  destruct (embed_batches _ _) as [[embs tokens]|]; [|intros [= <- <-]; by exists v].
  destruct (py_range _ _ _) as [starts|]; [|intros [= <- <-]; by exists v].
  by apply store_batches_agree.
Qed.

End RunForgets.

(** X27.  A run takes nothing from the database it finds: from two worlds
    with the same files it ends in the same way, with the same exception
    when it raises, and leaves the same files and the same collection of
    the derived name, whatever the two databases held.  So whatever a
    collection of that name held before is lost in every run, also in one
    that fails; when the store refuses the name, the collection is gone. *)
Theorem run_forgets_database `{VectorStore} `{EmbeddingModel}
    (cfg : Config) (ts : list N) (w v w' : World) (r : result unit) :
  files v = files w ->
  vectorizer_main cfg ts w = (r, w') ->
  let name := derive_collection_name (input_file cfg) (model_name cfg) in
  let dir := db_directory cfg in
  (exists v',
     vectorizer_main cfg ts v = (r, v') /\
     files v' = files w' /\
     Chroma.db_at v' dir !! name = Chroma.db_at w' dir !! name) /\
  (name_ok name = false -> Chroma.db_at w' dir !! name = None).
Proof.
  intros Hfiles Hrun name dir.
  set (self := mkVectorizer cfg name dir).
  assert (same_input dir name (world_after_setup cfg ts w) (world_after_setup cfg ts v))
    as Hsame.
  { unfold same_input, world_after_setup, Chroma.db_at. simpl. fold name dir.
    rewrite Hfiles. split; [done|]. rewrite !lookup_insert_eq. simpl.
    by rewrite !lookup_insert_eq. }
  revert Hrun. unfold vectorizer_main, ChunkVectorizer_init, mbind, prog_bind.
  rewrite !setup_collection_outcome. fold name dir self.
  destruct (name_ok name).
  2:{ intros [= <- <-]. split; [|intros _; by rewrite db_at_set_db, lookup_delete_eq].
      eexists. split; [done|]. split; [done|].
      by rewrite !db_at_set_db, !lookup_delete_eq. }
  split; [|done]. revert Hrun.
  unfold _load_model, lift. destruct (model_available (model_name cfg)).
  2:{ intros [= <- <-]. eexists. split; [done|]. by destruct Hsame. }
  unfold prog_ret, mret. unfold run, mbind, prog_bind, load_chunks.
  destruct Hsame as [Hf Hc]. rewrite <- Hf.
  destruct (lines ← open_lines _ _; _) as [chunks|e].
  2:{ intros [= <- <-]. eexists. split; [done|]. done. }
  intros Hp.
  destruct (process_agree self chunks _ (world_after_setup cfg ts v) _ _
              (conj Hf Hc) Hp) as (v' & Hv & Hf' & Hc').
  exists v'. done.
Qed.

(** X27 at the sample run, from a world with a row of an earlier run and
    from one without a database: the rows of the collection are the same. *)
Lemma run_forgets_database_witness :
  rows_of (snd (vectorizer_main sample_config sample_time world_with_input_only))
    (py "db") (py "data_model")
  = rows_of (snd first_run) (py "db") (py "data_model").
Proof.
  destruct (run_forgets_database sample_config sample_time world_with_input
              world_with_input_only (snd first_run) (fst first_run))
    as [(v' & Hv & _ & Hc) _].
  - reflexivity.
  - unfold first_run. by destruct (vectorizer_main _ _ _).
  - rewrite Hv. unfold rows_of. simpl. simpl in Hc.
    replace (derive_collection_name data_path (py "org/model")) with (py "data_model")
      in Hc by (vm_compute; reflexivity).
    by rewrite Hc.
Defined.
(** ** From the run to the server *)

(** X28.  What a run stores is what the server serves.  After a run that
    ended well, the server starts on the database directory of the run with
    the derived collection name, provided its model loads and the store
    takes the name of the memory collection; the start leaves the rows of
    the collection as the run left them.  [query] then asks the store about
    exactly these rows: it answers with the rows the store finds nearest
    among them when the text is encoded, the number of results is positive
    and the store takes the query vector, and with a failure otherwise (a
    model whose vectors have another dimension than those of the run); in
    no case does it change anything. *)
Theorem server_serves_stored_rows `{VectorStore} `{EmbeddingModel}
    (cfg : Config) (ts mem model : list N) (w w1 : World) :
  vectorizer_main cfg ts w = (Ok tt, w1) ->
  model_available model = true ->
  name_ok mem = true ->
  let name := derive_collection_name (input_file cfg) (model_name cfg) in
  let dir := db_directory cfg in
  exists rows w2,
    rows_of w1 dir name = Some rows /\
    server_startup dir name mem model w1 = (Ok (mkServer dir name mem), w2) /\
    rows_of w2 dir name = Some rows /\
    forall q n,
      query (mkServer dir name mem) q n w2
      = (Ok match encode_one q with
            | Raise err => error_response err
            | Ok e =>
                if (n <=? 0)%Z then error_response ValueError
                else match nearest rows e n with
                     | Ok found => results_response found
                     | Raise err => error_response err
                     end
            end,
         w2).
Proof.
  intros Hrun Hmodel Hmem name dir.
  destruct (run_outcome cfg ts w w1 Hrun) as (_ & _ & _ & rows & _ & Hrows & _).
  fold name dir in Hrows. unfold rows_of in Hrows.
  destruct (Chroma.db_at w1 dir !! name) as [c|] eqn:Hc; [|done].
  injection Hrows as Hrows.
  assert (dir_exists w1 dir = true) as Hdir.
  { unfold dir_exists. apply bool_decide_eq_true_2. unfold Chroma.db_at in Hc.
    destruct (stores w1 !! dir); [by eexists|done]. }
  assert (forall w2 c',
            Chroma.db_at w2 dir !! name = Some c' -> coll_rows c' = rows ->
            forall q n,
              query (mkServer dir name mem) q n w2
              = (Ok match encode_one q with
                    | Raise err => error_response err
                    | Ok e =>
                        if (n <=? 0)%Z then error_response ValueError
                        else match nearest rows e n with
                             | Ok found => results_response found
                             | Raise err => error_response err
                             end
                    end,
                 w2)) as Hquery.
  { intros w2 c' Hc' Hr q n.
    unfold query, try_except, mbind, prog_bind, lift, Chroma.query. simpl.
    destruct (encode_one q) as [e|err]; [|done]. rewrite Hc', Hr.
    destruct (n <=? 0)%Z; [done|]. by destruct (nearest rows e n). }
  exists rows. rewrite server_startup_outcome, Hdir, Hmodel, Hc, Hmem. simpl.
  destruct (Chroma.db_at w1 dir !! mem) as [m|] eqn:Em.
  - exists w1. unfold rows_of. rewrite Hc. simpl. rewrite Hrows.
    split; [done|]. split; [done|]. split; [done|]. by apply (Hquery w1 c).
  - eexists. unfold rows_of. rewrite Hc. simpl. rewrite Hrows.
    split; [done|]. split; [done|].
    assert (mem <> name) as Hne by (intros ->; congruence).
    rewrite db_at_set_db, lookup_insert_ne by done. rewrite Hc. simpl. rewrite Hrows.
    split; [done|]. apply (Hquery _ c); [|done].
    by rewrite db_at_set_db, lookup_insert_ne.
Qed.

(** X28 at the sample run: the server starts on what the run left, and the
    collection it serves has the three rows of the run. *)
Lemma server_serves_stored_rows_witness :
  exists rows w2,
    rows_of (snd first_run) (db_directory sample_config)
      (derive_collection_name (input_file sample_config) (model_name sample_config))
    = Some rows /\
    length rows = 3 /\
    fst (server_startup (db_directory sample_config)
           (derive_collection_name (input_file sample_config) (model_name sample_config))
           (py "user_memories") (py "org/model") (snd first_run))
    = Ok sample_server /\
    rows_of w2 (db_directory sample_config)
      (derive_collection_name (input_file sample_config) (model_name sample_config))
    = Some rows.
Proof.
  destruct (server_serves_stored_rows sample_config sample_time (py "user_memories")
              (py "org/model") world_with_input (snd first_run))
    as (rows & w2 & Hrows & Hstart & Hrows2 & _).
  - vm_compute. reflexivity.
  - reflexivity.
  - reflexivity.
  - exists rows, w2. split; [exact Hrows|]. split.
    + vm_compute in Hrows. injection Hrows as <-. reflexivity.
    + split; [|exact Hrows2]. rewrite Hstart. vm_compute. reflexivity.
Defined.
